(** * Wallpaper swatch metadata workflow: a shallow embedding

    The development follows the four source files of the repository:
    - [llm.py]: [_b64_image], [extract_metadata], [generate_description],
      [validate_categorical], [_safe_json_load];
    - [db.py]: [upsert_swatch] and [fetch_all], with the SQL statements they
      execute;
    - [app.py]: the Streamlit script, rerun from the top on every user
      interaction, with its session state;
    - [options_loader.py]: [load_options], which produces the three option
      lists; the script is verified for arbitrary lists, the section
      variables [color_opts], [design_opts], [theme_opts].

    Python values are modelled by the type [value].  A Python [str] is a Rocq
    [string] whose characters stand for code points below 256.  Dictionaries
    are association lists in insertion order.  The dictionaries that the
    session state refers to live in a heap of objects, so that aliasing and
    in-place mutation ([dict.setdefault]) are visible in the model. *)

From Stdlib Require Import ZArith String Ascii DecimalString PrimFloat.
From stdpp Require Import base option list strings gmap sorting.

Set Warnings "-register-all,-clear-no-such-hyp".
Local Open Scope Z_scope.

(* ================================================================== *)
(** * Python values and exceptions *)
(* ================================================================== *)

Inductive value :=
| VNone
| VBool (b : bool)
| VInt (n : Z)
| VFloat (x : float)
| VStr (s : string)
| VList (items : list value)
| VDict (entries : list (string * value)).

(** A dictionary with string keys, in insertion order. *)
Abbreviation dict := (list (string * value)).

Inductive exn :=
| TypeError (msg : string)
| ValueError (msg : string)
| KeyError (key : string)
| AttributeError (msg : string)
| JSONDecodeError (msg : string)
| ServiceError (msg : string).
(* [ServiceError]: whatever an outside service (model API, database
   driver) raises. *)

Inductive result (A : Type) :=
| Ok (a : A)
| Raise (e : exn).
Arguments Ok {A} a.
Arguments Raise {A} e.

Definition rbind {A B} (r : result A) (f : A -> result B) : result B :=
  match r with Ok a => f a | Raise e => Raise e end.

Declare Scope result_scope.
Delimit Scope result_scope with res.
Bind Scope result_scope with result.

Notation "'let*' x ':=' m 'in' k" := (rbind m%res (fun x => k%res))
  (at level 10, x name, m at level 100, k at level 200) : result_scope.

Definition is_ok {A} (r : result A) : bool :=
  match r with Ok _ => true | Raise _ => false end.

(* ------------------------------------------------------------------ *)
(** ** Characters and strings *)

Definition dquote : ascii := "034"%char.
Definition squote : ascii := "039"%char.
Definition backslash : ascii := "092"%char.
Definition char_nl : ascii := "010"%char.
Definition char_cr : ascii := "013"%char.
Definition char_tab : ascii := "009"%char.
Definition char_bs : ascii := "008"%char.
Definition char_ff : ascii := "012"%char.

Definition code (c : ascii) : N := N_of_ascii c.

(** [str.isspace] on code points below 256. *)
Definition isspace (c : ascii) : bool :=
  let n := code c in
  ((9 <=? n) && (n <=? 13) || (28 <=? n) && (n <=? 32)
   || (n =? 133) || (n =? 160))%N.

Fixpoint lstrip (s : string) : string :=
  match s with
  | EmptyString => EmptyString
  | String c r => if isspace c then lstrip r else s
  end.

Fixpoint rstrip (s : string) : string :=
  match s with
  | EmptyString => EmptyString
  | String c r =>
      match rstrip r with
      | EmptyString => if isspace c then EmptyString else String c EmptyString
      | r' => String c r'
      end
  end.

(** [s.strip()] *)
Definition strip (s : string) : string := rstrip (lstrip s).

Definition str_is_empty (s : string) : bool :=
  match s with EmptyString => true | _ => false end.

Definition chars (s : string) : list ascii := list_ascii_of_string s.

Fixpoint find_from (c : ascii) (s : string) (i : Z) : Z :=
  match s with
  | EmptyString => -1
  | String a r => if Ascii.eqb a c then i else find_from c r (i + 1)
  end.

(** [s.find(c)] for a one-character pattern: first index, or -1. *)
Definition str_find (s : string) (c : ascii) : Z := find_from c s 0.

Fixpoint rfind_from (c : ascii) (s : string) (i last : Z) : Z :=
  match s with
  | EmptyString => last
  | String a r => rfind_from c r (i + 1) (if Ascii.eqb a c then i else last)
  end.

(** [s.rfind(c)] for a one-character pattern: last index, or -1. *)
Definition str_rfind (s : string) (c : ascii) : Z := rfind_from c s 0 (-1).

(** [s[lo:hi]] for indices [0 <= lo], [0 <= hi]. *)
Definition slice (s : string) (lo hi : Z) : string :=
  substring (Z.to_nat lo) (Z.to_nat (hi - lo)) s.

Definition str_len (s : string) : Z := Z.of_nat (String.length s).

(** [sep.join(parts)] *)
Fixpoint join (sep : string) (parts : list string) : string :=
  match parts with
  | [] => ""
  | [p] => p
  | p :: rest => p +:+ sep +:+ join sep rest
  end.

(** [str(n)] for an [int]. *)
Definition decimal (n : Z) : string := NilZero.string_of_int (Z.to_int n).

Definition hex_digit (n : N) : ascii :=
  ascii_of_N (if (n <? 10)%N then 48 + n else 87 + n).

(** ['%02x' % n] for [n < 256]. *)
Definition hex2 (n : N) : string :=
  String (hex_digit (n / 16)) (String (hex_digit (n mod 16)) "").

(* ------------------------------------------------------------------ *)
(** ** Truthiness, dictionaries, membership, iteration *)

Definition truthy (v : value) : bool :=
  match v with
  | VNone => false
  | VBool b => b
  | VInt n => negb (n =? 0)
  | VFloat x => negb (PrimFloat.eqb x PrimFloat.zero)
  | VStr s => negb (str_is_empty s)
  | VList l => match l with [] => false | _ => true end
  | VDict d => match d with [] => false | _ => true end
  end.

(** [a or b] *)
Definition py_or (a b : value) : value := if truthy a then a else b.

Fixpoint dict_lookup (d : dict) (k : string) : option value :=
  match d with
  | [] => None
  | (k', v) :: r => if String.eqb k k' then Some v else dict_lookup r k
  end.

(** [d.get(k)] *)
Definition dict_get (d : dict) (k : string) : value :=
  default VNone (dict_lookup d k).

(** [d.get(k, dflt)] *)
Definition dict_get_or (d : dict) (k : string) (dflt : value) : value :=
  default dflt (dict_lookup d k).

(** [d[k]] *)
Definition dict_item (d : dict) (k : string) : result value :=
  match dict_lookup d k with
  | Some v => Ok v
  | None => Raise (KeyError k)
  end.

(** The contents of [d] after [d.setdefault(k, v)]: an existing key keeps its
    value, whatever it is; a new key goes last. *)
Fixpoint dict_setdefault (d : dict) (k : string) (v : value) : dict :=
  match d with
  | [] => [(k, v)]
  | (k', v') :: r =>
      if String.eqb k k' then d else (k', v') :: dict_setdefault r k v
  end.

Definition type_name (v : value) : string :=
  match v with
  | VNone => "NoneType"
  | VBool _ => "bool"
  | VInt _ => "int"
  | VFloat _ => "float"
  | VStr _ => "str"
  | VList _ => "list"
  | VDict _ => "dict"
  end.

(** [x in s] for a [set] of strings [s]: the element is hashed first, and
    lists and dictionaries are unhashable. *)
Definition set_contains (s : gset string) (x : value) : result bool :=
  match x with
  | VList _ | VDict _ =>
      Raise (TypeError ("unhashable type: '" +:+ type_name x +:+ "'"))
  | VStr t => Ok (bool_decide (t ∈ s))
  | _ => Ok false
  end.

(** The items that [for x in v] visits. *)
Definition iterate (v : value) : result (list value) :=
  match v with
  | VList l => Ok l
  | VStr s => Ok (map (fun c => VStr (String c "")) (chars s))
  | VDict d => Ok (map (fun kv => VStr kv.1) d)
  | _ => Raise (TypeError ("'" +:+ type_name v +:+ "' object is not iterable"))
  end.

(** [[x for x in xs if x in s]] *)
Fixpoint keep_members (s : gset string) (xs : list value)
  : result (list value) :=
  match xs with
  | [] => Ok []
  | x :: r =>
      let* b := set_contains s x in
      let* r' := keep_members s r in
      Ok (if b then x :: r' else r')
  end.

(** [[x for x in xs if x not in s]] *)
Fixpoint keep_strangers (s : gset string) (xs : list value)
  : result (list value) :=
  match xs with
  | [] => Ok []
  | x :: r =>
      let* b := set_contains s x in
      let* r' := keep_strangers s r in
      Ok (if b then r' else x :: r')
  end.

Fixpoint index_of (s : string) (l : list string) : option nat :=
  match l with
  | [] => None
  | a :: r => if String.eqb a s then Some 0%nat else S <$> index_of s r
  end.

(** [options.index(v)]: only a [str] can equal an element of a list of
    strings. *)
Definition list_index (options : list string) (v : value) : result nat :=
  match v with
  | VStr s =>
      match index_of s options with
      | Some i => Ok i
      | None => Raise (ValueError "value is not in list")
      end
  | _ => Raise (ValueError "value is not in list")
  end.

Definition safe_index (options : list string) (v : value) : nat :=
  match list_index options v with
  | Ok i => i
  | Raise _ => 0%nat
  end.

(* ------------------------------------------------------------------ *)
(** ** [os.path.splitext] (POSIX flavour) *)

Definition splitext (p : string) : string * string :=
  let sepIndex := str_rfind p "/"%char in
  let dotIndex := str_rfind p "."%char in
  if (sepIndex <? dotIndex)
     && existsb (fun c => negb (Ascii.eqb c "."%char))
                (chars (slice p (sepIndex + 1) dotIndex))
  then (slice p 0 dotIndex, slice p dotIndex (str_len p))
  else (p, "").

(* ------------------------------------------------------------------ *)
(** ** Text of an exception, [str(e)] *)

Definition exn_str (e : exn) : string :=
  match e with
  | TypeError m | ValueError m | AttributeError m
  | JSONDecodeError m | ServiceError m => m
  | KeyError k => String squote k +:+ String squote ""
  end.

(* ------------------------------------------------------------------ *)
(** ** A decoder for a part of JSON

    [json.loads] itself is a parameter of the development.  The decoder below
    covers objects, arrays, strings with the one-letter escapes, integers,
    [true], [false] and [null]; it rejects everything else (fractions,
    exponents, [\u] escapes).  It is used to instantiate the parameter in
    examples. *)

Inductive token :=
| TLBrace | TRBrace | TLBracket | TRBracket | TColon | TComma
| TString (s : string)
| TNumber (n : Z)
| TTrue | TFalse | TNull.

Inductive lex_mode :=
| InText
| InString (acc : list ascii)
| InEscape (acc : list ascii)
| InNumber (negative : bool) (digits : list ascii).

Definition is_digit (c : ascii) : bool := ((48 <=? code c) && (code c <=? 57))%N.

Definition punct (c : ascii) : option (list token) :=
  if Ascii.eqb c " "%char || Ascii.eqb c char_tab || Ascii.eqb c char_nl
     || Ascii.eqb c char_cr then Some []
  else if Ascii.eqb c "{"%char then Some [TLBrace]
  else if Ascii.eqb c "}"%char then Some [TRBrace]
  else if Ascii.eqb c "["%char then Some [TLBracket]
  else if Ascii.eqb c "]"%char then Some [TRBracket]
  else if Ascii.eqb c ":"%char then Some [TColon]
  else if Ascii.eqb c ","%char then Some [TComma]
  else None.

Definition unescape (c : ascii) : option ascii :=
  if Ascii.eqb c dquote then Some dquote
  else if Ascii.eqb c backslash then Some backslash
  else if Ascii.eqb c "/"%char then Some "/"%char
  else if Ascii.eqb c "n"%char then Some char_nl
  else if Ascii.eqb c "r"%char then Some char_cr
  else if Ascii.eqb c "t"%char then Some char_tab
  else if Ascii.eqb c "b"%char then Some char_bs
  else if Ascii.eqb c "f"%char then Some char_ff
  else None.

(** The digits were read last-first. *)
Definition number_of (negative : bool) (digits : list ascii) : option Z :=
  match rev digits with
  | [] => None
  | d :: rest =>
      if Ascii.eqb d "0"%char && negb (bool_decide (rest = [])) then None
      else
        let n := foldl (fun a c => 10 * a + Z.of_N (code c - 48)) 0 (d :: rest) in
        Some (if negative then - n else n)
  end.

Fixpoint starts_with (p s : string) : option string :=
  match p, s with
  | EmptyString, _ => Some s
  | String a p', String b s' => if Ascii.eqb a b then starts_with p' s' else None
  | _, _ => None
  end.

Fixpoint lex (fuel : nat) (m : lex_mode) (s : string) : option (list token) :=
  match fuel with
  | O => None
  | S fuel =>
      match m, s with
      | InText, EmptyString => Some []
      | InText, String c r =>
          match punct c with
          | Some ts => (fun rest => ts ++ rest) <$> lex fuel InText r
          | None =>
              if Ascii.eqb c dquote then lex fuel (InString []) r
              else if Ascii.eqb c "-"%char then lex fuel (InNumber true []) r
              else if is_digit c then lex fuel (InNumber false [c]) r
              else
                match starts_with "true" s, starts_with "false" s,
                      starts_with "null" s with
                | Some r', _, _ => cons TTrue <$> lex fuel InText r'
                | _, Some r', _ => cons TFalse <$> lex fuel InText r'
                | _, _, Some r' => cons TNull <$> lex fuel InText r'
                | _, _, _ => None
                end
          end
      | InString acc, String c r =>
          if Ascii.eqb c dquote
          then cons (TString (string_of_list_ascii (rev acc))) <$> lex fuel InText r
          else if Ascii.eqb c backslash then lex fuel (InEscape acc) r
          else if (code c <? 32)%N then None
          else lex fuel (InString (c :: acc)) r
      | InEscape acc, String c r =>
          match unescape c with
          | Some c' => lex fuel (InString (c' :: acc)) r
          | None => None
          end
      | InNumber negative digits, EmptyString =>
          (fun n => [TNumber n]) <$> number_of negative digits
      | InNumber negative digits, String c r =>
          if is_digit c then lex fuel (InNumber negative (c :: digits)) r
          else
            match number_of negative digits, punct c with
            | Some n, Some ts =>
                (fun rest => TNumber n :: ts ++ rest) <$> lex fuel InText r
            | _, _ => None
            end
      | _, EmptyString => None
      end
  end.

(** [d[k] = v] on an association list: a repeated key keeps its place and
    takes the new value. *)
Fixpoint dict_put (d : dict) (k : string) (v : value) : dict :=
  match d with
  | [] => [(k, v)]
  | (k', v') :: r =>
      if String.eqb k k' then (k', v) :: r else (k', v') :: dict_put r k v
  end.

Fixpoint parse_value (fuel : nat) (ts : list token) {struct fuel}
  : option (value * list token) :=
  match fuel with
  | O => None
  | S fuel =>
      match ts with
      | TString s :: r => Some (VStr s, r)
      | TNumber n :: r => Some (VInt n, r)
      | TTrue :: r => Some (VBool true, r)
      | TFalse :: r => Some (VBool false, r)
      | TNull :: r => Some (VNone, r)
      | TLBracket :: TRBracket :: r => Some (VList [], r)
      | TLBracket :: r => parse_elements fuel r []
      | TLBrace :: TRBrace :: r => Some (VDict [], r)
      | TLBrace :: r => parse_members fuel r []
      | _ => None
      end
  end
with parse_elements (fuel : nat) (ts : list token) (acc : list value)
  {struct fuel} : option (value * list token) :=
  match fuel with
  | O => None
  | S fuel =>
      match parse_value fuel ts with
      | Some (v, TComma :: r) => parse_elements fuel r (v :: acc)
      | Some (v, TRBracket :: r) => Some (VList (rev (v :: acc)), r)
      | _ => None
      end
  end
with parse_members (fuel : nat) (ts : list token) (acc : dict)
  {struct fuel} : option (value * list token) :=
  match fuel with
  | O => None
  | S fuel =>
      match ts with
      | TString k :: TColon :: r =>
          match parse_value fuel r with
          | Some (v, TComma :: r') => parse_members fuel r' (dict_put acc k v)
          | Some (v, TRBrace :: r') => Some (VDict (dict_put acc k v), r')
          | _ => None
          end
      | _ => None
      end
  end.

Definition json_subset_loads (text : string) : result value :=
  match lex (S (String.length text)) InText text with
  | Some ts =>
      match parse_value (2 * length ts + 2) ts with
      | Some (v, []) => Ok v
      | _ => Raise (JSONDecodeError "Expecting value")
      end
  | None => Raise (JSONDecodeError "Expecting value")
  end.

(** The examples contain no float, so any rendering of floats serves. *)
Definition demo_float_repr (x : float) : string := "nan".

(** Small option lists for the examples, sorted as [load_options] does. *)
Definition demo_colors : list string := ["Blue"; "Grey"; "Red"; "White"].
Definition demo_designs : list string := ["Classic"; "Modern"].
Definition demo_themes : list string := ["Floral"; "Nature"].

(* ================================================================== *)
(** * The program *)
(* ================================================================== *)

Section Program.

Set Default Proof Using "Type".

(** Library functions that are taken as given. *)
Variable float_repr : float -> string.            (* float.__repr__ *)
Variable json_loads : string -> result value.     (* json.loads *)

(** The three option lists returned by [load_options()]. *)
Variables color_opts design_opts theme_opts : list string.

(* ------------------------------------------------------------------ *)
(** ** [repr], [str] and [json.dumps] *)

Definition repr_char (quote c : ascii) : string :=
  let n := code c in
  if Ascii.eqb c quote || Ascii.eqb c backslash
  then String backslash (String c "")
  else if Ascii.eqb c char_tab then "\t"
  else if Ascii.eqb c char_nl then "\n"
  else if Ascii.eqb c char_cr then "\r"
  else if ((n <? 32) || (n =? 127))%N then "\x" +:+ hex2 n
  else if (n <? 127)%N then String c ""
  else if ((n <=? 160) || (n =? 173))%N then "\x" +:+ hex2 n
  else String c "".

Definition repr_str (s : string) : string :=
  let has c := existsb (Ascii.eqb c) (chars s) in
  let quote := if has squote && negb (has dquote) then dquote else squote in
  String quote (String.concat "" (map (repr_char quote) (chars s)))
  +:+ String quote "".

Fixpoint repr (v : value) : string :=
  match v with
  | VNone => "None"
  | VBool true => "True"
  | VBool false => "False"
  | VInt n => decimal n
  | VFloat x => float_repr x
  | VStr s => repr_str s
  | VList l => "[" +:+ join ", " (map repr l) +:+ "]"
  | VDict d =>
      "{" +:+ join ", " (map (fun kv => repr_str kv.1 +:+ ": " +:+ repr kv.2) d)
      +:+ "}"
  end.

(** [str(v)], also what an f-string substitutes for [{v}]. *)
Definition py_str (v : value) : string :=
  match v with
  | VStr s => s
  | _ => repr v
  end.

Definition json_escape (ensure_ascii : bool) (c : ascii) : string :=
  let n := code c in
  if Ascii.eqb c dquote then String backslash (String dquote "")
  else if Ascii.eqb c backslash then "\\"
  else if Ascii.eqb c char_nl then "\n"
  else if Ascii.eqb c char_cr then "\r"
  else if Ascii.eqb c char_tab then "\t"
  else if Ascii.eqb c char_bs then "\b"
  else if Ascii.eqb c char_ff then "\f"
  else if ((n <? 32) || ensure_ascii && (126 <? n))%N then "\u00" +:+ hex2 n
  else String c "".

Definition json_quote (ensure_ascii : bool) (s : string) : string :=
  String dquote (String.concat "" (map (json_escape ensure_ascii) (chars s)))
  +:+ String dquote "".

Fixpoint insert_by_key (kv : string * string) (l : list (string * string))
  : list (string * string) :=
  match l with
  | [] => [kv]
  | x :: r => if String.leb kv.1 x.1 then kv :: l else x :: insert_by_key kv r
  end.

Definition sort_by_key (l : list (string * string)) : list (string * string) :=
  foldr insert_by_key [] l.

(** [json.dumps(v, ensure_ascii=..., sort_keys=...)] *)
Fixpoint json_dumps (ensure_ascii sort_keys : bool) (v : value) : string :=
  match v with
  | VNone => "null"
  | VBool true => "true"
  | VBool false => "false"
  | VInt n => decimal n
  | VFloat x =>
      if PrimFloat.is_nan x then "NaN"
      else if PrimFloat.is_infinity x
           then (if PrimFloat.ltb x PrimFloat.zero then "-Infinity" else "Infinity")
           else float_repr x
  | VStr s => json_quote ensure_ascii s
  | VList l =>
      "[" +:+ join ", " (map (json_dumps ensure_ascii sort_keys) l) +:+ "]"
  | VDict d =>
      let items :=
        map (fun kv => (kv.1, json_dumps ensure_ascii sort_keys kv.2)) d in
      let items := if sort_keys then sort_by_key items else items in
      "{" +:+ join ", "
               (map (fun kv => json_quote ensure_ascii kv.1 +:+ ": " +:+ kv.2)
                    items)
      +:+ "}"
  end.

(* ------------------------------------------------------------------ *)
(** ** llm.py *)

(** The alphabet of [base64.b64encode]. *)
Definition b64_alphabet : string :=
  "ABCDEFGHIJKLMNOPQRSTUVWXYZabcdefghijklmnopqrstuvwxyz0123456789+/".

(** The character for a six-bit group. *)
Definition b64_char (n : N) : ascii :=
  default "="%char (String.get (N.to_nat n) b64_alphabet).

(** [base64.b64encode(bs)]: three bytes give four characters; a last group of
    one or two bytes is padded with [=]. *)
Fixpoint b64encode (bs : list Byte.byte) : string :=
  match bs with
  | [] => ""
  | [a] =>
      let a := Byte.to_N a in
      String (b64_char (N.shiftr a 2))
        (String (b64_char (N.shiftl (N.land a 3) 4)) "==")
  | [a; b] =>
      let a := Byte.to_N a in
      let b := Byte.to_N b in
      String (b64_char (N.shiftr a 2))
        (String (b64_char (N.lor (N.shiftl (N.land a 3) 4) (N.shiftr b 4)))
           (String (b64_char (N.shiftl (N.land b 15) 2)) "="))
  | a :: b :: c :: rest =>
      let a := Byte.to_N a in
      let b := Byte.to_N b in
      let c := Byte.to_N c in
      String (b64_char (N.shiftr a 2))
        (String (b64_char (N.lor (N.shiftl (N.land a 3) 4) (N.shiftr b 4)))
           (String (b64_char (N.lor (N.shiftl (N.land b 15) 2) (N.shiftr c 6)))
              (String (b64_char (N.land c 63)) (b64encode rest))))
  end.

(** [_b64_image(image_bytes)]; the encoding is ASCII, so [.decode("utf-8")]
    gives its characters. *)
Definition _b64_image (image_bytes : list Byte.byte) : string :=
  b64encode image_bytes.

(** [_safe_json_load(text)] *)
Definition _safe_json_load (text : string) : result value :=
  match json_loads text with
  | Ok v => Ok v
  | Raise _ =>
      let start := str_find text "{"%char in
      let end_ := str_rfind text "}"%char in
      if negb (start =? -1) && negb (end_ =? -1) && (start <? end_)
      then json_loads (slice text start (end_ + 1))
      else Raise (ValueError "Could not parse JSON from model output.")
  end.

(** [extract_metadata]: [reply] is the outcome of the one call to the vision
    model for this image and these option lists: an exception, or the
    response's [output_text] (possibly [None]). *)
Definition extract_metadata (reply : result (option string)) : result value :=
  let* output_text := reply in
  let raw := strip (default "" output_text) in
  _safe_json_load raw.

(** [generate_description]: [writer] is the language model, seen as a
    function of the JSON text placed in its prompt. *)
Definition generate_description
    (writer : string -> result (option string)) (accepted_meta : dict)
  : result string :=
  let meta_json := json_dumps false false (VDict accepted_meta) in
  let* output_text := writer meta_json in
  Ok (strip (default "" output_text)).

(** [validate_categorical(meta, color_set, design_set, theme_set)] *)
Definition validate_categorical
    (meta : dict) (color_set design_set theme_set : gset string)
  : result (list string) :=
  let errs := [] in
  let pc := dict_get meta "primary_color" in
  let sc := dict_get meta "secondary_colors" in
  let ds := dict_get meta "design_style" in
  let th := dict_get meta "theme" in
  let* pc_ok := set_contains color_set pc in
  let errs :=
    if pc_ok then errs
    else errs ++ ["primary_color not in options: " +:+ py_str pc] in
  let* errs :=
    match sc with
    | VList items =>
        let* bad := keep_strangers color_set items in
        Ok (if truthy (VList bad)
            then errs ++ ["secondary_colors invalid values: "
                          +:+ py_str (VList bad)]
            else errs)
    | _ => Ok (errs ++ ["secondary_colors must be a list"])
    end in
  let* ds_ok := set_contains design_set ds in
  let errs :=
    if ds_ok then errs
    else errs ++ ["design_style not in options: " +:+ py_str ds] in
  let* th_ok := set_contains theme_set th in
  let errs :=
    if th_ok then errs
    else errs ++ ["theme not in options: " +:+ py_str th] in
  Ok errs.

(* ------------------------------------------------------------------ *)
(** ** db.py *)

(** What a column of [swatch_metadata] holds: a bound Python value, or a
    server time. *)
Inductive cell :=
| Bound (v : value)
| Timestamp (t : Z).

(** A row maps column names to cells.  The table is keyed by the text of
    [swatch_id], the column named in [on conflict (swatch_id)], on which the
    table is therefore unique. *)
Abbreviation row := (gmap string cell).
Abbreviation table := (gmap string (gmap string cell)).

Inductive sql_expr :=
| Param (name : string)          (* :name *)
| Now                            (* now() *)
| Excluded (column : string).    (* excluded.column *)

(** [insert into swatch_metadata (columns) values (exprs)
     on conflict (target) do update set assignments] *)
Record insert_stmt := {
  insert_columns : list string;
  insert_values : list sql_expr;
  conflict_target : string;
  update_set : list (string * sql_expr)
}.

Definition upsert_sql : insert_stmt := {|
  insert_columns :=
    ["swatch_id"; "primary_color"; "secondary_colors"; "design_style";
     "theme"; "suitable_for"; "description"; "image_filename"; "updated_at"];
  insert_values :=
    [Param "swatch_id"; Param "primary_color"; Param "secondary_colors";
     Param "design_style"; Param "theme"; Param "suitable_for";
     Param "description"; Param "image_filename"; Now];
  conflict_target := "swatch_id";
  update_set :=
    [("primary_color", Excluded "primary_color");
     ("secondary_colors", Excluded "secondary_colors");
     ("design_style", Excluded "design_style");
     ("theme", Excluded "theme");
     ("suitable_for", Excluded "suitable_for");
     ("description", Excluded "description");
     ("image_filename", Excluded "image_filename");
     ("updated_at", Now)]
|}.

Definition eval_sql (params : dict) (now : Z) (excluded : row) (e : sql_expr)
  : result cell :=
  match e with
  | Param name =>
      match dict_lookup params name with
      | Some v => Ok (Bound v)
      | None => Raise (ServiceError ("no value for bind parameter " +:+ name))
      end
  | Now => Ok (Timestamp now)
  | Excluded c =>
      match excluded !! c with
      | Some x => Ok x
      | None => Raise (ServiceError ("no such column: excluded." +:+ c))
      end
  end.

(** The row proposed for insertion: each listed column with the value of its
    expression. *)
Fixpoint proposed_row (params : dict) (now : Z)
    (columns : list string) (exprs : list sql_expr) : result row :=
  match columns, exprs with
  | [], [] => Ok ∅
  | c :: columns, e :: exprs =>
      let* x := eval_sql params now ∅ e in
      let* r := proposed_row params now columns exprs in
      Ok (<[c := x]> r)
  | _, _ => Raise (ServiceError "INSERT has a different number of columns and values")
  end.

(** The assignments of [do update set], applied to the existing row. *)
Fixpoint apply_set (params : dict) (now : Z) (excluded : row)
    (assignments : list (string * sql_expr)) (existing : row) : result row :=
  match assignments with
  | [] => Ok existing
  | (c, e) :: rest =>
      let* x := eval_sql params now excluded e in
      let* r := apply_set params now excluded rest existing in
      Ok (<[c := x]> r)
  end.

(** One execution of the statement: insert the proposed row, or, when a row
    with the same conflict target exists, update that row.  The table is
    keyed by text, and app.py binds a [str] to [swatch_id] (line 99).  What
    becomes of a bound value of another type is decided by the driver and by
    the type of the column, neither of which the source gives: the model
    refuses such a statement, and the properties of the store below are
    stated for a [swatch_id] that is a [str]. *)
Definition execute (stmt : insert_stmt) (params : dict) (now : Z) (t : table)
  : result table :=
  let* new := proposed_row params now (insert_columns stmt) (insert_values stmt) in
  match new !! conflict_target stmt with
  | Some (Bound (VStr key)) =>
      match t !! key with
      | None => Ok (<[key := new]> t)
      | Some existing =>
          let* updated := apply_set params now new (update_set stmt) existing in
          Ok (<[key := updated]> t)
      end
  | _ => Raise (ServiceError "the conflict target is not a text value")
  end.

(** [upsert_swatch(engine, row)].  The engine is represented by what it does
    with this call: [fault] is the exception the connection raises, if any,
    and [now] the server time of the statement. *)
Definition upsert_swatch (fault : option exn) (now : Z) (row_ : dict) (t : table)
  : result table :=
  let* secondary_colors := dict_item row_ "secondary_colors" in
  let secondary_json := json_dumps false false secondary_colors in
  match fault with
  | Some e => Raise e
  | None =>
      let* swatch_id := dict_item row_ "swatch_id" in
      let* primary_color := dict_item row_ "primary_color" in
      let* design_style := dict_item row_ "design_style" in
      let* theme := dict_item row_ "theme" in
      execute upsert_sql
        [("swatch_id", swatch_id);
         ("primary_color", primary_color);
         ("secondary_colors", VStr secondary_json);
         ("design_style", design_style);
         ("theme", theme);
         ("suitable_for", dict_get row_ "suitable_for");
         ("description", dict_get row_ "description");
         ("image_filename", dict_get row_ "image_filename")]
        now t
  end.

(** The time stamp of a row, or [None] when [updated_at] is NULL. *)
Definition stamp (r : row) : option Z :=
  match r !! "updated_at" with
  | Some (Timestamp t) => Some t
  | _ => None
  end.

(** [order by updated_at desc]: later rows first; PostgreSQL puts NULL first
    in descending order. *)
Definition newer_first (r1 r2 : row) : Prop :=
  match stamp r1, stamp r2 with
  | None, _ => True
  | Some _, None => False
  | Some t1, Some t2 => t2 <= t1
  end.

#[local] Instance newer_first_dec : RelDecision newer_first.
Proof.
  intros r1 r2. unfold newer_first.
  destruct (stamp r1), (stamp r2); apply _.
Defined.

(** [fetch_all(engine)]: the rows of [select * from swatch_metadata order by
    updated_at desc], each row as a dictionary from column names.  SQL leaves
    the order of rows with equal time stamps open; here it is the one that
    [merge_sort] gives.  [fault] is as for [upsert_swatch]. *)
Definition fetch_all (fault : option exn) (t : table) : result (list row) :=
  match fault with
  | Some e => Raise e
  | None => Ok (merge_sort newer_first (map snd (map_to_list t)))
  end.

(* ------------------------------------------------------------------ *)
(** ** options_loader.py *)

(** A data frame as [pd.read_csv] returns it: the cells of each column, by
    column name.  An empty cell is [None] or a NaN. *)
Abbreviation frame := (gmap string (list value)).

(** [pd.isna(v)] *)
Definition isna (v : value) : bool :=
  match v with
  | VNone => true
  | VFloat x => PrimFloat.is_nan x
  | _ => false
  end.

(** [Series.unique()]: the first occurrence of each value, in order. *)
Fixpoint unique (l : list string) : list string :=
  match l with
  | [] => []
  | x :: r => x :: filter (fun y => y ≠ x) (unique r)
  end.

(** [l.sort()] on strings: ascending by code points. *)
Definition sort_strings (l : list string) : list string :=
  merge_sort String.le l.

(** The chain [.dropna().astype(str).map(lambda s: s.strip())
    .loc[lambda s: s != ""].unique().tolist()] on one column. *)
Definition option_values (column : list value) : list string :=
  let kept := filter (fun v => isna v = false) column in
  let texts := map py_str kept in
  let texts := map strip texts in
  let texts := filter (fun s => s ≠ "") texts in
  unique texts.

(** [load_options()]: the three arguments are the outcomes of the three
    [pd.read_csv] calls, a frame or the exception of the reader. *)
Definition load_options (color_csv design_csv theme_csv : result frame)
  : result (list string * list string * list string) :=
  let* color_df := color_csv in
  let* design_df := design_csv in
  let* theme_df := theme_csv in
  match color_df !! "GENERIC NAMES" with
  | None =>
      Raise (ValueError "color_options.csv must contain column 'GENERIC NAMES'")
  | Some color_column =>
      match design_df !! "DESIGN STYLE" with
      | None =>
          Raise (ValueError "design_options.csv must contain column 'DESIGN STYLE'")
      | Some design_column =>
          match theme_df !! "THEMES" with
          | None =>
              Raise (ValueError "Theme_options.csv must contain column 'THEMES'")
          | Some theme_column =>
              let colors := option_values color_column in
              let designs := option_values design_column in
              let themes := option_values theme_column in
              let colors := sort_strings colors in
              let designs := sort_strings designs in
              let themes := sort_strings themes in
              Ok (colors, designs, themes)
          end
      end
  end.

(* ------------------------------------------------------------------ *)
(** ** app.py: the sidebar export *)

(** The strings that [sep.join(items)] puts together; every item must be a
    [str].  [i] is the position of the first item. *)
Fixpoint join_items (i : Z) (items : list value) : result (list string) :=
  match items with
  | [] => Ok []
  | VStr s :: rest =>
      let* parts := join_items (i + 1) rest in Ok (s :: parts)
  | other :: _ =>
      Raise (TypeError ("sequence item " +:+ decimal i
                        +:+ ": expected str instance, " +:+ type_name other
                        +:+ " found"))
  end.

(** [sep.join(items)] on a list of values. *)
Definition py_join (sep : string) (items : list value) : result string :=
  let* parts := join_items 0 items in Ok (join sep parts).

(** [pretty_secondary(x)], lines 55-62: [x] is a cell of the column
    [secondary_colors]. *)
Definition pretty_secondary (x : value) : string :=
  let attempt : result (option string) :=
    (let* arr := match x with VStr s => json_loads s | _ => Ok (VList []) end in
     match arr with
     | VList items => let* text := py_join ", " items in Ok (Some text)
     | _ => Ok None
     end)%res in
  match attempt with
  | Ok (Some text) => text
  | _ => match x with VNone => "" | _ => py_str x end
  end.

(* ------------------------------------------------------------------ *)
(** ** app.py: session state, heap and the script monad *)

(** [color_set, design_set, theme_set = set(color_opts), ...] *)
Definition color_set : gset string := list_to_set color_opts.
Definition design_set : gset string := list_to_set design_opts.
Definition theme_set : gset string := list_to_set theme_opts.

(** A reference to a dictionary object. *)
Abbreviation loc := nat.

(** [st.session_state], with the five keys of [_init_state]. *)
Record session_state := SessionState {
  draft_meta : option loc;
  accepted_meta : option loc;
  meta_dirty : bool;
  description : string;
  desc_based_on_meta : option string
}.

(** The messages that the script shows in the main column ([st.error],
    [st.warning], [st.info], [st.success]), and its calls of
    [upsert_swatch]. *)
Inductive effect :=
| StError (msg : string)
| StWarning (msg : string)
| StInfo (msg : string)
| StSuccess (msg : string)
| Upsert (payload : dict).

Record world := World {
  session : session_state;
  heap : list dict;               (* the dictionary objects, by address *)
  swatch_metadata : table;        (* the database table *)
  out : list effect               (* effects of the current run, in order *)
}.

Definition set_session (s : session_state) (w : world) : world :=
  World s (heap w) (swatch_metadata w) (out w).
Definition set_heap (h : list dict) (w : world) : world :=
  World (session w) h (swatch_metadata w) (out w).
Definition set_table (t : table) (w : world) : world :=
  World (session w) (heap w) t (out w).
Definition set_out (o : list effect) (w : world) : world :=
  World (session w) (heap w) (swatch_metadata w) o.

(** A run ends early by [st.stop()] or by an exception nobody catches; the
    session state keeps what was assigned before. *)
Inductive halt :=
| Stopped
| Uncaught (e : exn).

Inductive outcome (A : Type) :=
| Done (a : A)
| Halt (h : halt).
Arguments Done {A} a.
Arguments Halt {A} h.

Definition M (A : Type) : Type := world -> outcome A * world.

Definition sret {A} (a : A) : M A := fun w => (Done a, w).

Definition sbind {A B} (m : M A) (f : A -> M B) : M B := fun w =>
  match m w with
  | (Done a, w') => f a w'
  | (Halt h, w') => (Halt h, w')
  end.

Declare Scope script_scope.
Delimit Scope script_scope with script.
Bind Scope script_scope with M.

Notation "'let*' x ':=' m 'in' k" := (sbind m%script (fun x => k%script))
  (at level 10, x name, m at level 100, k at level 200) : script_scope.
Notation "m ';;' k" := (sbind m%script (fun _ => k%script))
  (at level 100, k at level 200, right associativity) : script_scope.

Definition pass : M unit := sret tt.

(** [st.stop()] *)
Definition st_stop {A} : M A := fun w => (Halt Stopped, w).

Definition throw {A} (e : exn) : M A := fun w => (Halt (Uncaught e), w).

Definition lift {A} (r : result A) : M A :=
  match r with Ok a => sret a | Raise e => throw e end.

(** [try: body except Exception as e: handler(e)]; what the body did before
    raising stays done, and [st.stop()] is not an [Exception]. *)
Definition try_except {A} (body : M A) (handler : exn -> M A) : M A := fun w =>
  match body w with
  | (Halt (Uncaught e), w') => handler e w'
  | r => r
  end.

Definition emit (x : effect) : M unit := fun w =>
  (Done tt, set_out (out w ++ [x]) w).

Definition st_error (msg : string) : M unit := emit (StError msg).
Definition st_warning (msg : string) : M unit := emit (StWarning msg).
Definition st_info (msg : string) : M unit := emit (StInfo msg).
Definition st_success (msg : string) : M unit := emit (StSuccess msg).

Definition read_session : M session_state := fun w => (Done (session w), w).

Definition assign (f : session_state -> session_state) : M unit := fun w =>
  (Done tt, set_session (f (session w)) w).

Definition set_draft_meta (v : option loc) (s : session_state) :=
  SessionState v (accepted_meta s) (meta_dirty s) (description s)
               (desc_based_on_meta s).
Definition set_accepted_meta (v : option loc) (s : session_state) :=
  SessionState (draft_meta s) v (meta_dirty s) (description s)
               (desc_based_on_meta s).
Definition set_meta_dirty (v : bool) (s : session_state) :=
  SessionState (draft_meta s) (accepted_meta s) v (description s)
               (desc_based_on_meta s).
Definition set_description (v : string) (s : session_state) :=
  SessionState (draft_meta s) (accepted_meta s) (meta_dirty s) v
               (desc_based_on_meta s).
Definition set_desc_based_on_meta (v : option string) (s : session_state) :=
  SessionState (draft_meta s) (accepted_meta s) (meta_dirty s) (description s)
               v.

(** A new dictionary object; its address is the next free one. *)
Definition new_dict (d : dict) : M loc := fun w =>
  (Done (length (heap w)), set_heap (heap w ++ [d]) w).

(** The contents of the object at [l].  Every reference the program holds
    was returned by [new_dict]; the empty dictionary stands for the contents
    at an address that was never allocated. *)
Definition contents (h : list dict) (l : loc) : dict := default [] (h !! l).

Definition deref (l : loc) : M dict := fun w => (Done (contents (heap w) l), w).

(** [obj.setdefault(k, v)] on the object at [l], in place. *)
Definition obj_setdefault (l : loc) (k : string) (v : value) : M unit := fun w =>
  (Done tt, set_heap (alter (fun d => dict_setdefault d k v) l (heap w)) w).

(* ------------------------------------------------------------------ *)
(** ** app.py: what a run receives from outside *)

Inductive button :=
| BtnExtract
| BtnAccept
| BtnGenerate
| BtnSave.

(** The user's side of one run.  A control that the user has set returns that
    setting; an untouched one returns its default.  [on_change] tells whether
    one of the five metadata controls changed, in which case Streamlit calls
    its [on_change] callback before the script starts.  [description_typed]
    is an edit of the description editor: the value with which the text area
    on the page was created, and the text the user has put into it. *)
Record ui := UI {
  uploaded : option string;             (* name of the uploaded file; its
                                           bytes only go to the vision model *)
  swatch_id_input : string;
  on_change : bool;
  pressed : option button;
  primary_pick : option string;
  secondary_pick : option (list string);
  design_pick : option string;
  theme_pick : option string;
  suitable_typed : option string;
  description_typed : option (string * string)
}.

(** The outside services' side of one run: the answers of the two models,
    what the connection of [upsert_swatch] meets, and the time of the
    statement. *)
Record env := Env {
  vision_reply : result (option string);
  writer : string -> result (option string);
  db_fault : option exn;
  now : Z
}.

(** [st.selectbox(options=..., index=...)]: the picked option, else the option
    at [index], else [None] when there is none. *)
Definition selectbox (options : list string) (index : nat)
    (picked : option string) : value :=
  match picked with
  | Some s => VStr s
  | None => match options !! index with Some s => VStr s | None => VNone end
  end.

(** [st.multiselect(options=..., default=...)]: the picked options in the
    order they were picked, else the default list as it was given. *)
Definition multiselect (options : list string) (default_ : list value)
    (picked : option (list string)) : list value :=
  match picked with
  | Some l => VStr <$> l
  | None => default_
  end.

(** [st.text_input(value=...)] *)
Definition text_input (value_ : string) (typed : option string) : string :=
  default value_ typed.

(** [st.text_area(value=...)], line 251.  The call gives no [key], so
    Streamlit identifies the text area by its parameters, [value] among them.
    An edit belongs to the text area that was on the page, created with the
    value [shown]: the call returns that edit when its own [value] is [shown],
    for then it is the same text area.  With another [value] the text area is
    a new one, the edit is dropped and the call returns [value]. *)
Definition text_area (value_ : string) (edited : option (string * string))
  : string :=
  match edited with
  | Some (shown, typed) => if String.eqb shown value_ then typed else value_
  | None => value_
  end.

(** The controls can only return options they display. *)
Definition pick_ok (options : list string) (picked : option string) : Prop :=
  match picked with Some s => s ∈ options | None => True end.

Definition ui_ok (u : ui) : Prop :=
  pick_ok color_opts (primary_pick u)
  ∧ pick_ok design_opts (design_pick u)
  ∧ pick_ok theme_opts (theme_pick u)
  ∧ match secondary_pick u with
    | Some l => Forall (fun s => s ∈ color_opts) l
    | None => True
    end.

(* ------------------------------------------------------------------ *)
(** ** app.py: the script *)

Definition nl : string := String char_nl "".

(** [_mark_dirty()] *)
Definition _mark_dirty : M unit :=
  let* s := read_session in
  match accepted_meta s with
  | Some _ =>
      assign (set_meta_dirty true) ;;
      assign (set_accepted_meta None) ;;
      assign (set_description "") ;;
      assign (set_desc_based_on_meta None)
  | None => pass
  end.

(** Lines 112-128: the body of the Extract button. *)
Definition extract_button (e : env) : M unit :=
  try_except
    (let* meta := lift (extract_metadata (vision_reply e)) in
     match meta with
     | VDict d =>
         let* meta := new_dict d in
         obj_setdefault meta "primary_color" (VStr "") ;;
         obj_setdefault meta "secondary_colors" (VList []) ;;
         obj_setdefault meta "design_style" (VStr "") ;;
         obj_setdefault meta "theme" (VStr "") ;;
         obj_setdefault meta "suitable_for" (VStr "") ;;
         assign (set_draft_meta (Some meta)) ;;
         assign (set_accepted_meta None) ;;
         assign (set_meta_dirty false) ;;
         assign (set_description "") ;;
         assign (set_desc_based_on_meta None)
     | other =>
         throw (AttributeError ("'" +:+ type_name other
                                +:+ "' object has no attribute 'setdefault'"))
     end)
    (fun ex => st_error ("Metadata extraction failed: " +:+ exn_str ex)).

(** Line 140: the review warning, shown when [errs] is not empty. *)
Definition review_warning (errs : list string) : M unit :=
  match errs with
  | [] => pass
  | _ => st_warning
           ("LLM output needs review (you can correct using dropdowns):"
            +:+ nl +:+ "- " +:+ join (nl +:+ "- ") errs)
  end.

(** Line 173: [[x for x in (draft.get("secondary_colors") or []) if x in color_set]] *)
Definition secondary_default (draft : dict) : result (list value) :=
  let* candidates :=
    iterate (py_or (dict_get draft "secondary_colors") (VList [])) in
  keep_members color_set candidates.

(** Lines 164-210: the values of the five controls, collected in the
    dictionary [final_meta]. *)
Definition final_meta (u : ui) (draft : dict) (secondary_default : list value)
  : dict :=
  let primary :=
    selectbox color_opts (safe_index color_opts (dict_get draft "primary_color"))
              (primary_pick u) in
  let secondary := multiselect color_opts secondary_default (secondary_pick u) in
  let design_style :=
    selectbox design_opts (safe_index design_opts (dict_get draft "design_style"))
              (design_pick u) in
  let theme :=
    selectbox theme_opts (safe_index theme_opts (dict_get draft "theme"))
              (theme_pick u) in
  let suitable_for :=
    text_input (py_str (py_or (dict_get draft "suitable_for") (VStr "")))
               (suitable_typed u) in
  [("primary_color", primary);
   ("secondary_colors", VList secondary);
   ("design_style", design_style);
   ("theme", theme);
   ("suitable_for", VStr suitable_for)].

(** Lines 135-210: validation warning, the controls, and the new
    [final_meta] object, whose address is returned. *)
Definition edit_controls (u : ui) (draft_ref : loc) : M loc :=
  let* draft := deref draft_ref in
  let* errs := lift (validate_categorical draft color_set design_set theme_set) in
  review_warning errs ;;
  let* chosen := lift (secondary_default draft) in
  new_dict (final_meta u draft chosen).

(** Lines 215-218: the body of the Accept button. *)
Definition accept_button (final_meta : loc) : M unit :=
  assign (set_accepted_meta (Some final_meta)) ;;
  assign (set_meta_dirty false) ;;
  st_success "Metadata accepted. You can now generate the description.".

(** [json.dumps(accepted, sort_keys=True)] *)
Definition fingerprint (accepted : dict) : string :=
  json_dumps true true (VDict accepted).

(** Lines 238-245: the body of the Generate button. *)
Definition generate_button (e : env) (accepted : loc) : M unit :=
  try_except
    (let* meta := deref accepted in
     let* desc := lift (generate_description (writer e) meta) in
     assign (set_description desc) ;;
     let* meta := deref accepted in
     assign (set_desc_based_on_meta (Some (fingerprint meta))))
    (fun ex => st_error ("Description generation failed: " +:+ exn_str ex)).

(** Lines 251-255: the description editor writes back into the session. *)
Definition description_editor (u : ui) : M unit :=
  let* s := read_session in
  assign (set_description (text_area (description s) (description_typed u))).

(** Lines 271-280: the dictionary handed to [upsert_swatch]. *)
Definition save_payload (swatch_id filename : string) (accepted : dict)
    (description_ : string) : result dict :=
  let* primary_color := dict_item accepted "primary_color" in
  let* secondary_colors := dict_item accepted "secondary_colors" in
  let* design_style := dict_item accepted "design_style" in
  let* theme := dict_item accepted "theme" in
  let suitable_for := dict_get_or accepted "suitable_for" (VStr "") in
  Ok [("swatch_id", VStr swatch_id);
      ("primary_color", primary_color);
      ("secondary_colors", secondary_colors);
      ("design_style", design_style);
      ("theme", theme);
      ("suitable_for", suitable_for);
      ("description", VStr (strip description_));
      ("image_filename", VStr filename)].

(** The call [upsert_swatch(engine, payload)]: the call is recorded, then the
    table changes or the exception of the store propagates. *)
Definition call_upsert (e : env) (payload : dict) : M unit :=
  emit (Upsert payload) ;;
  (fun w =>
     match upsert_swatch (db_fault e) (now e) payload (swatch_metadata w) with
     | Ok t => (Done tt, set_table t w)
     | Raise ex => (Halt (Uncaught ex), w)
     end).

Definition empty_description_text : string :=
  "Description is empty. Generate or write a description before saving.".
Definition stale_basis_text : string :=
  "Metadata changed since last description generation. Please regenerate description.".

(** Lines 258-283: the body of the Save button.  The success message of the
    source starts with a check-mark emoji, left out here. *)
Definition save_button (e : env) (swatch_id filename : string) (accepted : loc)
  : M unit :=
  let* s := read_session in
  (if str_is_empty (strip (description s))
   then st_error empty_description_text ;; st_stop
   else pass) ;;
  let* meta := deref accepted in
  let current_sig := fingerprint meta in
  let* s := read_session in
  (match desc_based_on_meta s with
   | Some basis =>
       if negb (String.eqb basis current_sig)
       then st_warning stale_basis_text ;; st_stop
       else pass
   | None => pass
   end) ;;
  try_except
    (let* meta := deref accepted in
     let* s := read_session in
     let* payload :=
       lift (save_payload swatch_id filename meta (description s)) in
     call_upsert e payload ;;
     st_success "Saved (If swatch_id existed, it was overwritten.)")
    (fun ex => st_error ("Save failed: " +:+ exn_str ex)).

Definition when_pressed (u : ui) (b : button) (body : M unit) : M unit :=
  match pressed u, b with
  | Some BtnExtract, BtnExtract | Some BtnAccept, BtnAccept
  | Some BtnGenerate, BtnGenerate | Some BtnSave, BtnSave => body
  | _, _ => pass
  end.

(** [swatch_id], lines 96-99. *)
Definition swatch_id_of (swatch_id_input filename : string) : string :=
  let default_swatch_id := (splitext filename).1 in
  if negb (str_is_empty (strip swatch_id_input))
  then strip swatch_id_input
  else default_swatch_id.

(** Lines 130-283: the script after the Extract button. *)
Definition after_extract (e : env) (u : ui) (swatch_id filename : string)
  : M unit :=
  let* s := read_session in
  match draft_meta s with
  | None =>
      st_warning "Click **Extract / Regenerate metadata** to generate the initial metadata draft." ;;
      st_stop
  | Some draft =>
      let* final_meta := edit_controls u draft in
      when_pressed u BtnAccept (accept_button final_meta) ;;
      let* s := read_session in
      (if meta_dirty s
       then st_warning "Metadata changed after acceptance. Please Accept again to generate description."
       else pass) ;;
      let* s := read_session in
      match accepted_meta s with
      | None =>
          st_info "Accept the metadata first to enable description generation." ;;
          st_stop
      | Some accepted =>
          when_pressed u BtnGenerate (generate_button e accepted) ;;
          description_editor u ;;
          when_pressed u BtnSave (save_button e swatch_id filename accepted)
      end
  end.

(** What the sidebar shows, lines 51-78: the rows as a data frame, for
    download and preview, with the column [secondary_colors] passed through
    [pretty_secondary]; or the note "No saved records yet." when [rows] is
    empty. *)
Inductive sidebar_view :=
| Dataset (rows : list row)
| NoRecords.

(** Lines 48-78: the sidebar.  [fetch_all(engine)] is called in every run and
    outside any [try]: when it raises, nobody catches the exception and the
    run ends there (Streamlit then reports the exception on the page).  The
    sidebar assigns to no session key, calls nothing that writes to the
    store and shows none of the messages of the main column. *)
Definition sidebar (fetch_fault : option exn) : M sidebar_view := fun w =>
  match fetch_all fetch_fault (swatch_metadata w) with
  | Ok [] => (Done NoRecords, w)
  | Ok rows => (Done (Dataset rows), w)
  | Raise ex => (Halt (Uncaught ex), w)
  end.

(** The script from line 83 on, the main column. *)
Definition script (e : env) (u : ui) : M unit :=
  match uploaded u with
  | None => st_info "Upload a swatch image to begin." ;; st_stop
  | Some filename =>
      let swatch_id := swatch_id_of (swatch_id_input u) filename in
      when_pressed u BtnExtract (extract_button e) ;;
      after_extract e u swatch_id filename
  end.

(** One run of app.py: Streamlit first calls the [on_change] callback of a
    changed control, then runs the script from the top.  Lines 11-46 (page
    set-up, the cached option lists, the secrets, [_init_state] on a session
    that has its keys) are taken to complete; then come the sidebar, whose
    query meets [fetch_fault], and the main column. *)
Definition page (fetch_fault : option exn) (e : env) (u : ui) : M unit :=
  (if on_change u then _mark_dirty else pass) ;;
  sidebar fetch_fault ;;
  script e u.

(** The world after one run; what the run showed in the main column and
    called is in [out]. *)
Definition rerun_with (fetch_fault : option exn) (e : env) (u : ui) (w : world)
  : world :=
  (page fetch_fault e u (set_out [] w)).2.

(** One interaction in which the query of the sidebar returns its rows, and
    the world after it. *)
Definition interaction (e : env) (u : ui) : M unit := page None e u.

Definition rerun (e : env) (u : ui) (w : world) : world :=
  (interaction e u (set_out [] w)).2.

(** Several interactions in a row. *)
Definition reruns (steps : list (env * ui)) (w : world) : world :=
  foldl (fun w step => rerun step.1 step.2 w) w steps.

(** [_init_state()] on a new session. *)
Definition init_session : session_state :=
  SessionState None None false "" None.

Definition init_world (t : table) : world := World init_session [] t [].

(** The worlds a session can be in: those obtained from a new session by
    runs in which the controls return displayed options, and by runs that
    the failing query of the sidebar ends. *)
Inductive reachable : world -> Prop :=
| reachable_init (t : table) : reachable (init_world t)
| reachable_rerun (e : env) (u : ui) (w : world) :
    reachable w -> ui_ok u -> reachable (rerun e u w)
| reachable_aborted (ex : exn) (e : env) (u : ui) (w : world) :
    reachable w -> reachable (rerun_with (Some ex) e u w).

(* ------------------------------------------------------------------ *)
(** ** The typed metadata record

    The shape that [extract_metadata] documents for its result (llm.py,
    lines 17-23), and its representation as a dictionary. *)

Record MetadataRecord := {
  primary_color : string;
  secondary_colors : list string;
  design_style : string;
  theme : string;
  suitable_for : string
}.

Definition meta_dict (r : MetadataRecord) : dict :=
  [("primary_color", VStr (primary_color r));
   ("secondary_colors", VList (VStr <$> secondary_colors r));
   ("design_style", VStr (design_style r));
   ("theme", VStr (theme r));
   ("suitable_for", VStr (suitable_for r))].

(** Validity of a record against three catalog sets. *)
Definition valid_record (r : MetadataRecord) (colors designs themes : gset string)
  : Prop :=
  primary_color r ∈ colors
  ∧ design_style r ∈ designs
  ∧ theme r ∈ themes
  ∧ Forall (fun c => c ∈ colors) (secondary_colors r).

(** The secondary colours of [r] that are not in [colors], in order. *)
Definition offending (r : MetadataRecord) (colors : gset string) : list string :=
  filter (fun c => c ∉ colors) (secondary_colors r).

(** A message that names a field of [r] and the value(s) of that field that
    are outside the catalog. *)
Inductive names_offence (r : MetadataRecord) (colors designs themes : gset string)
  : string -> Prop :=
| offence_primary :
    primary_color r ∉ colors ->
    names_offence r colors designs themes
      ("primary_color not in options: " +:+ primary_color r)
| offence_secondary :
    offending r colors ≠ [] ->
    names_offence r colors designs themes
      ("secondary_colors invalid values: "
       +:+ repr (VList (VStr <$> offending r colors)))
| offence_design :
    design_style r ∉ designs ->
    names_offence r colors designs themes
      ("design_style not in options: " +:+ design_style r)
| offence_theme :
    theme r ∉ themes ->
    names_offence r colors designs themes
      ("theme not in options: " +:+ theme r).

(* ================================================================== *)
(** * Notions used to state the properties *)
(* ================================================================== *)

(** The messages for a typed record, one optional message per field. *)
Definition expected_messages (r : MetadataRecord) (colors designs themes : gset string)
  : list string :=
  (if decide (primary_color r ∈ colors) then []
   else ["primary_color not in options: " +:+ primary_color r])
  ++ (match offending r colors with
      | [] => []
      | bad => ["secondary_colors invalid values: " +:+ repr (VList (VStr <$> bad))]
      end)
  ++ (if decide (design_style r ∈ designs) then []
      else ["design_style not in options: " +:+ design_style r])
  ++ (if decide (theme r ∈ themes) then []
      else ["theme not in options: " +:+ theme r]).

(** Values that [hash] accepts: all but lists and dictionaries. *)
Definition hashable (v : value) : bool :=
  match v with VList _ | VDict _ => false | _ => true end.

(** The seven columns that are neither the key nor the time stamp. *)
Definition payload_columns : list string :=
  ["primary_color"; "secondary_colors"; "design_style"; "theme";
   "suitable_for"; "description"; "image_filename"].

(** What [upsert_swatch] binds to the parameter of column [c]. *)
Definition bound_param (payload : dict) (c : string) : value :=
  if String.eqb c "secondary_colors"
  then VStr (json_dumps false false (dict_get payload "secondary_colors"))
  else dict_get payload c.

(** The keys that [upsert_swatch] reads with [row[...]]. *)
Definition has_required_keys (payload : dict) (sid : string) : Prop :=
  dict_lookup payload "swatch_id" = Some (VStr sid)
  ∧ is_Some (dict_lookup payload "primary_color")
  ∧ is_Some (dict_lookup payload "secondary_colors")
  ∧ is_Some (dict_lookup payload "design_style")
  ∧ is_Some (dict_lookup payload "theme").

(** The row [r] carries [payload]: each of the seven columns holds the value
    bound for it, and [updated_at] holds the time of the statement. *)
Definition carries (r : row) (payload : dict) (now_ : Z) : Prop :=
  (∀ c, c ∈ payload_columns -> r !! c = Some (Bound (bound_param payload c)))
  ∧ r !! "updated_at" = Some (Timestamp now_).

(** The session after [_mark_dirty]. *)
Definition dirtied (s : session_state) : session_state :=
  match accepted_meta s with
  | Some _ => SessionState (draft_meta s) None true "" None
  | None => s
  end.

(** The five [setdefault] calls of the Extract button. *)
Definition with_defaults (d : dict) : dict :=
  dict_setdefault
    (dict_setdefault
       (dict_setdefault
          (dict_setdefault
             (dict_setdefault d "primary_color" (VStr ""))
             "secondary_colors" (VList []))
          "design_style" (VStr ""))
       "theme" (VStr ""))
    "suitable_for" (VStr "").

(** The exception that ends the [try] block of the Extract button, if any:
    the one [extract_metadata] raised, or the [AttributeError] of
    [meta.setdefault] on a value that is not a dictionary. *)
Definition extraction_failure (r : result value) : option exn :=
  match r with
  | Ok (VDict _) => None
  | Ok other =>
      Some (AttributeError ("'" +:+ type_name other
                            +:+ "' object has no attribute 'setdefault'"))
  | Raise ex => Some ex
  end.

(** What [review_warning] shows. *)
Definition review_messages (errs : list string) : list effect :=
  match errs with
  | [] => []
  | _ => [StWarning
            ("LLM output needs review (you can correct using dropdowns):"
             +:+ nl +:+ "- " +:+ join (nl +:+ "- ") errs)]
  end.

(** The draft can be displayed: neither the validator nor the secondary
    colour default raises. *)
Definition renders (draft : dict) : Prop :=
  is_ok (validate_categorical draft color_set design_set theme_set) = true
  ∧ is_ok (secondary_default draft) = true.

(** The world after a Save that passed both checks. *)
Definition saved (e : env) (payload : dict) (w : world) : world :=
  match upsert_swatch (db_fault e) (now e) payload (swatch_metadata w) with
  | Ok t =>
      World (session w) (heap w) t
            (out w ++ [Upsert payload;
                       StSuccess "Saved (If swatch_id existed, it was overwritten.)"])
  | Raise ex =>
      set_out (out w ++ [Upsert payload;
                         StError ("Save failed: " +:+ exn_str ex)]) w
  end.

(** The condition of line 265 does not hold: there is no description basis,
    or it is the fingerprint of the accepted snapshot. *)
Definition basis_agrees (w : world) (la : loc) : Prop :=
  match desc_based_on_meta (session w) with
  | Some basis => basis = fingerprint (contents (heap w) la)
  | None => True
  end.

(** [hoare P m Q H]: from a world in [P], [m] either returns [a] in a world
    satisfying [Q a], or ends the run in a world satisfying [H]. *)
Definition hoare {A} (P : world -> Prop) (m : M A)
    (Q : A -> world -> Prop) (H : world -> Prop) : Prop :=
  ∀ w, P w ->
    match m w with
    | (Done a, w') => Q a w'
    | (Halt _, w') => H w'
    end.

(** A property that does not look at [out] survives every message. *)
Definition ignores_out (P : world -> Prop) : Prop :=
  ∀ w o, P w -> P (set_out o w).

(** [keeps h0 o0 w]: the heap of [w] extends [h0] and the effects of [w]
    extend [o0].  Every block of the script only adds objects and effects. *)
Definition keeps (h0 : list dict) (o0 : list effect) (w : world) : Prop :=
  h0 `prefix_of` heap w ∧ o0 `prefix_of` out w.

(** What holds of the session state and the heap between runs:
    - the draft reference is allocated;
    - an accepted snapshot is allocated after the draft, the dirty flag is
      off, the draft can be displayed, and the snapshot holds the values
      that the five controls return for the current draft in some run;
    - a description basis is only kept together with an accepted snapshot. *)
Record invariant_at (s : session_state) (h : list dict) : Prop := {
  inv_draft :
    ∀ ld, draft_meta s = Some ld -> (ld < length h)%nat;
  inv_accepted :
    ∀ la, accepted_meta s = Some la ->
      (la < length h)%nat
      ∧ meta_dirty s = false
      ∧ ∃ ld u0 chosen,
          draft_meta s = Some ld ∧ (ld < la)%nat ∧ ui_ok u0
          ∧ renders (contents h ld)
          ∧ secondary_default (contents h ld) = Ok chosen
          ∧ contents h la = final_meta u0 (contents h ld) chosen;
  inv_basis :
    ∀ b, desc_based_on_meta s = Some b -> is_Some (accepted_meta s)
}.

(** The invariant looks neither at the table nor at the effects. *)
Definition invariant (w : world) : Prop := invariant_at (session w) (heap w).

(** The state of a run after the controls were shown: [fm] is the new
    [final_meta] object. *)
Definition staged (u : ui) (ld fm : loc) (w : world) : Prop :=
  invariant w
  ∧ draft_meta (session w) = Some ld
  ∧ (ld < fm)%nat ∧ (fm < length (heap w))%nat
  ∧ renders (contents (heap w) ld)
  ∧ ∃ chosen, secondary_default (contents (heap w) ld) = Ok chosen
              ∧ contents (heap w) fm = final_meta u (contents (heap w) ld) chosen.

(** The session state and the table are [s0] and [t0]. *)
Definition same_as (s0 : session_state) (t0 : table) (w : world) : Prop :=
  session w = s0 ∧ swatch_metadata w = t0.

(** None of Accept, Generate and Save is pressed. *)
Definition no_commit (u : ui) : Prop :=
  pressed u = None ∨ pressed u = Some BtnExtract.

(** The text between the first opening and the last closing brace, both
    included. *)
Definition braced (text : string) : option string :=
  let first := str_find text "{"%char in
  let last := str_rfind text "}"%char in
  if (0 <=? first) && (first <? last)
  then Some (slice text first (last + 1))
  else None.

(** The five keys and their defaults, lines 117-121. *)
Definition defaults : list (string * value) :=
  [("primary_color", VStr ""); ("secondary_colors", VList []);
   ("design_style", VStr ""); ("theme", VStr ""); ("suitable_for", VStr "")].

(** [v] is a string, and one of [options]. *)
Definition member_of (options : list string) (v : value) : Prop :=
  ∃ s, v = VStr s ∧ s ∈ options.

(** The three categorical fields of [snapshot] are options of their lists and
    [secondary_colors] is a list of colour options. *)
Definition categorically_valid (snapshot : dict) : Prop :=
  member_of color_opts (dict_get snapshot "primary_color")
  ∧ member_of design_opts (dict_get snapshot "design_style")
  ∧ member_of theme_opts (dict_get snapshot "theme")
  ∧ ∃ items, dict_get snapshot "secondary_colors" = VList items
             ∧ Forall (member_of color_opts) items.

(** No control was touched in this run. *)
Definition untouched (u : ui) : Prop :=
  primary_pick u = None ∧ secondary_pick u = None ∧ design_pick u = None
  ∧ theme_pick u = None ∧ suitable_typed u = None.

(** The draft holds the five fields of the typed record [r]. *)
Definition holds_record (draft : dict) (r : MetadataRecord) : Prop :=
  ∀ k, k ∈ defaults.*1 -> dict_lookup draft k = dict_lookup (meta_dict r) k.

(** The calls to [upsert_swatch] among the effects of a run. *)
Definition is_upsert (x : effect) : bool :=
  match x with Upsert _ => true | _ => false end.

(** The dictionary built from the snapshot [acc] for [upsert_swatch]. *)
Definition snapshot_payload (sid f : string) (acc : dict) (d : string) : dict :=
  [("swatch_id", VStr sid);
   ("primary_color", dict_get acc "primary_color");
   ("secondary_colors", dict_get acc "secondary_colors");
   ("design_style", dict_get acc "design_style");
   ("theme", dict_get acc "theme");
   ("suitable_for", dict_get acc "suitable_for");
   ("description", VStr (strip d));
   ("image_filename", VStr f)].

(** What a Save click does, case by case. *)
Inductive save_outcome (e : env) (w w' : world) (la : loc) (payload : dict)
  : Prop :=
| save_refused_stale basis shown :
    desc_based_on_meta (session w) = Some basis ->
    basis ≠ fingerprint (contents (heap w) la) ->
    filter (fun x => is_upsert x = true) shown = [] ->
    out w' = shown ++ [StWarning stale_basis_text] ->
    swatch_metadata w' = swatch_metadata w ->
    save_outcome e w w' la payload
| save_stored shown t :
    basis_agrees w la ->
    filter (fun x => is_upsert x = true) shown = [] ->
    upsert_swatch (db_fault e) (now e) payload (swatch_metadata w) = Ok t ->
    out w' = shown ++ [Upsert payload;
                       StSuccess "Saved (If swatch_id existed, it was overwritten.)"] ->
    swatch_metadata w' = t ->
    save_outcome e w w' la payload
| save_store_failed shown ex :
    basis_agrees w la ->
    filter (fun x => is_upsert x = true) shown = [] ->
    upsert_swatch (db_fault e) (now e) payload (swatch_metadata w) = Raise ex ->
    out w' = shown ++ [Upsert payload; StError ("Save failed: " +:+ exn_str ex)] ->
    swatch_metadata w' = swatch_metadata w ->
    save_outcome e w w' la payload.

Definition upserts (shown : list effect) : list effect :=
  filter (fun x => is_upsert x = true) shown.

(** First and last character of a string. *)
Definition first_char (s : string) : option ascii := String.get 0 s.

Fixpoint last_char (s : string) : option ascii :=
  match s with
  | EmptyString => None
  | String c r => match last_char r with Some x => Some x | None => Some c end
  end.

(** No white space at either end. *)
Definition trimmed (s : string) : Prop :=
  (∀ c, first_char s = Some c -> isspace c = false)
  ∧ (∀ c, last_char s = Some c -> isspace c = false).

(** The six-bit group of a character of the alphabet. *)
Definition b64_index (c : ascii) : option N :=
  let n := code c in
  if ((65 <=? n) && (n <=? 90))%N then Some (n - 65)%N
  else if ((97 <=? n) && (n <=? 122))%N then Some (n - 71)%N
  else if ((48 <=? n) && (n <=? 57))%N then Some (n + 4)%N
  else if (n =? 43)%N then Some 62%N
  else if (n =? 47)%N then Some 63%N
  else None.

(** The bytes that a text of four-character groups stands for. *)
Fixpoint b64decode (s : string) : option (list Byte.byte) :=
  match s with
  | EmptyString => Some []
  | String c0 (String c1 (String c2 (String c3 rest))) =>
      s0 ← b64_index c0;
      s1 ← b64_index c1;
      a ← Byte.of_N (N.lor (N.shiftl s0 2) (N.shiftr s1 4));
      if Ascii.eqb c2 "="%char then Some [a]
      else
        s2 ← b64_index c2;
        b ← Byte.of_N (N.lor (N.shiftl (N.land s1 15) 4) (N.shiftr s2 2));
        if Ascii.eqb c3 "="%char then Some [a; b]
        else
          s3 ← b64_index c3;
          c ← Byte.of_N (N.lor (N.shiftl (N.land s2 3) 6) s3);
          more ← b64decode rest;
          Some (a :: b :: c :: more)
  | _ => None
  end.

(** A character of the alphabet, or the padding character. *)
Definition is_b64_char (c : ascii) : bool :=
  bool_decide (is_Some (b64_index c)) || Ascii.eqb c "="%char.

(** The optional group [x] is the group [n]. *)
Definition same_group (x : option N) (n : N) : bool :=
  match x with Some m => N.eqb m n | None => false end.

(** The character [c] does not occur in [s]. *)
Definition lacks (s : string) (c : ascii) : Prop :=
  ∀ n, String.get n s ≠ Some c.

(** [s] has a character other than [c]. *)
Definition has_other_than (s : string) (c : ascii) : Prop :=
  ∃ n x, String.get n s = Some x ∧ x ≠ c.

(** The text that a cell contributes to an option list. *)
Definition cell_text (v : value) : string := strip (py_str v).

(** [s] is the text of a cell of [column] that is neither missing nor
    blank. *)
Definition offered (column : list value) (s : string) : Prop :=
  s ≠ "" ∧ ∃ v, v ∈ column ∧ isna v = false ∧ cell_text v = s.

(** An option list in normal form: ascending, without repetition, every
    entry stripped and not empty. *)
Definition normal_options (l : list string) : Prop :=
  Sorted String.le l ∧ NoDup l ∧ Forall (fun s => s ≠ "" ∧ strip s = s) l.

(** The value is a [str]. *)
Definition is_str (v : value) : bool := match v with VStr _ => true | _ => false end.

(** The value of a hexadecimal digit. *)
Definition hex_value (c : ascii) : option N :=
  let n := code c in
  if ((48 <=? n) && (n <=? 57))%N then Some (n - 48)%N
  else if ((97 <=? n) && (n <=? 102))%N then Some (n - 87)%N
  else None.

(** The character that the front of an escaped text stands for, and the rest
    of the text; [None] at a bare quotation mark. *)
Definition unescape_head (s : string) : option (ascii * string) :=
  match s with
  | String c rest =>
      if Ascii.eqb c dquote then None
      else if Ascii.eqb c backslash then
        match rest with
        | String x rest' =>
            if Ascii.eqb x "u"%char then
              match rest' with
              | String _ (String _ (String h1 (String h0 rest''))) =>
                  a ← hex_value h1; b ← hex_value h0;
                  Some (ascii_of_N (16 * a + b), rest'')
              | _ => None
              end
            else c' ← unescape x; Some (c', rest')
        | EmptyString => None
        end
      else Some (c, rest)
  | EmptyString => None
  end.

(** The keys that [upsert_swatch] reads with [row[...]], in the order in
    which it reads them. *)
Definition required_keys : list string :=
  ["secondary_colors"; "swatch_id"; "primary_color"; "design_style"; "theme"].

(** The row after [do update set ...]: the seven columns and the time stamp
    are set, every other column of [existing] stays. *)
Definition updated_row (payload : dict) (now_ : Z) (existing : row) : row :=
  foldr (fun c r => <[c := Bound (bound_param payload c)]> r)
        (<["updated_at" := Timestamp now_]> existing) payload_columns.

(** A session without accepted snapshot has neither description nor
    description basis. *)
Definition tidy (s : session_state) : Prop :=
  accepted_meta s = None -> description s = "" ∧ desc_based_on_meta s = None.

(** What a property of a run looks at: the session state, the table, and
    the calls of [upsert_swatch] made so far. *)
Definition observe (Inv : session_state -> table -> list effect -> Prop)
    (w : world) : Prop :=
  Inv (session w) (swatch_metadata w) (upserts (out w)).

(** [Inv] survives each assignment that a run with the inputs [u] can make:
    the callback of a changed control, the five assignments of a successful
    extraction, those of Accept and of Generate, the write-back of the
    description editor, and whatever the Save button does to the table.  The
    last three only happen while a snapshot is accepted. *)
Record run_closed (u : ui)
    (Inv : session_state -> table -> list effect -> Prop) : Prop := {
  closed_callback :
    on_change u = true -> ∀ s t c, Inv s t c -> Inv (dirtied s) t c;
  closed_extract :
    pressed u = Some BtnExtract ->
    ∀ s t c l, Inv s t c -> Inv (SessionState (Some l) None false "" None) t c;
  closed_accept :
    pressed u = Some BtnAccept ->
    ∀ s t c fm, Inv s t c ->
      Inv (SessionState (draft_meta s) (Some fm) false (description s)
                        (desc_based_on_meta s)) t c;
  closed_generate :
    pressed u = Some BtnGenerate ->
    ∀ s t c desc basis, Inv s t c -> is_Some (accepted_meta s) ->
      Inv (SessionState (draft_meta s) (accepted_meta s) (meta_dirty s) desc
                        (Some basis)) t c;
  closed_editor :
    ∀ s t c, Inv s t c -> is_Some (accepted_meta s) ->
      Inv (set_description (text_area (description s) (description_typed u)) s)
          t c;
  closed_save :
    pressed u = Some BtnSave ->
    ∀ s t c t' c', Inv s t c -> is_Some (accepted_meta s) -> Inv s t' c'
}.

(** A click on the button [b], with the file [f] uploaded, the text
    [sid_input] in the ID input and every control left alone. *)
Definition press (f sid_input : string) (b : button) : ui :=
  UI (Some f) sid_input false (Some b) None None None None None None.

(* ================================================================== *)
(** * Properties *)
(* ================================================================== *)

(* ------------------------------------------------------------------ *)
(** ** The validator *)

Lemma keep_strangers_strings (colors : gset string) (l : list string) :
  keep_strangers colors (VStr <$> l)
  = Ok (VStr <$> filter (fun c => c ∉ colors) l).
Proof.
  induction l as [|c l IH]; [reflexivity|].
  cbn [fmap list_fmap keep_strangers set_contains rbind].
  change (list_fmap string value VStr l) with (VStr <$> l).
  rewrite IH. cbn [rbind].
  rewrite filter_cons.
  destruct (decide (c ∉ colors)) as [Hn|Hn].
  - rewrite bool_decide_eq_false_2 by exact Hn. reflexivity.
  - rewrite bool_decide_eq_true_2
      by (destruct (decide (c ∈ colors)) as [H|H]; [exact H|contradiction]).
    reflexivity.
Qed.

Lemma filter_strangers_nil (colors : gset string) (l : list string) :
  filter (fun c => c ∉ colors) l = [] ↔ Forall (fun c => c ∈ colors) l.
Proof.
  induction l as [|c l IH]; [split; constructor|].
  rewrite filter_cons. destruct (decide (c ∉ colors)) as [Hn|Hn].
  - split; [discriminate|]. intros H. inversion H; subst. contradiction.
  - rewrite IH. split.
    + intros H. constructor; [|exact H].
      destruct (decide (c ∈ colors)) as [Hc|Hc]; [exact Hc|contradiction].
    + intros H. inversion H; subst. assumption.
Qed.

Lemma validate_categorical_typed r colors designs themes :
  validate_categorical (meta_dict r) colors designs themes
  = Ok (expected_messages r colors designs themes).
Proof.
  unfold validate_categorical, expected_messages, offending.
  change (dict_get (meta_dict r) "primary_color") with (VStr (primary_color r)).
  change (dict_get (meta_dict r) "secondary_colors")
    with (VList (VStr <$> secondary_colors r)).
  change (dict_get (meta_dict r) "design_style") with (VStr (design_style r)).
  change (dict_get (meta_dict r) "theme") with (VStr (theme r)).
  cbn [set_contains rbind app py_str].
  rewrite keep_strangers_strings. cbn [rbind].
  destruct (decide (primary_color r ∈ colors)) as [H1|H1];
    [rewrite (bool_decide_eq_true_2 _ H1)|rewrite (bool_decide_eq_false_2 _ H1)];
  destruct (decide (design_style r ∈ designs)) as [H2|H2];
    [rewrite (bool_decide_eq_true_2 _ H2)|rewrite (bool_decide_eq_false_2 _ H2)
    |rewrite (bool_decide_eq_true_2 _ H2)|rewrite (bool_decide_eq_false_2 _ H2)];
  destruct (decide (theme r ∈ themes)) as [H3|H3];
    try rewrite (bool_decide_eq_true_2 _ H3);
    try rewrite (bool_decide_eq_false_2 _ H3);
  destruct (filter (fun c => c ∉ colors) (secondary_colors r)) as [|b bad];
    reflexivity.
Qed.

(** C6.  For every typed metadata record and every three catalog sets,
    [validate_categorical] returns a list of messages; the list is empty
    exactly when the record is valid (the three categorical fields are in
    their sets and every secondary colour is in [colors]); and every message
    returned names a field together with the value, or the list of
    secondary colours, of that field found outside the catalog. *)
Theorem validate_categorical_empty_iff_valid
    (r : MetadataRecord) (colors designs themes : gset string) :
  ∃ errs,
    validate_categorical (meta_dict r) colors designs themes = Ok errs
    ∧ (errs = [] ↔ valid_record r colors designs themes)
    ∧ Forall (names_offence r colors designs themes) errs.
Proof.
  exists (expected_messages r colors designs themes).
  split; [apply validate_categorical_typed|].
  unfold expected_messages, valid_record.
  pose proof (filter_strangers_nil colors (secondary_colors r)) as Hsec.
  fold (offending r colors) in Hsec.
  split.
  - destruct (decide (primary_color r ∈ colors));
      destruct (decide (design_style r ∈ designs));
      destruct (decide (theme r ∈ themes));
      destruct (offending r colors) eqn:Hbad; cbn [app];
      (split;
       [ intros Heq; try discriminate Heq;
         repeat split; try assumption; apply Hsec; reflexivity
       | intros (? & ? & ? & HF); try contradiction;
         try (apply Hsec in HF; discriminate HF); reflexivity ]).
  - repeat apply Forall_app_2.
    + destruct (decide (primary_color r ∈ colors)); repeat constructor.
      assumption.
    + destruct (offending r colors) eqn:Hbad; repeat constructor.
      rewrite <- Hbad. constructor. rewrite Hbad. discriminate.
    + destruct (decide (design_style r ∈ designs)); repeat constructor.
      assumption.
    + destruct (decide (theme r ∈ themes)); repeat constructor.
      assumption.
Qed.

(** C7.  A draft whose [primary_color] is a JSON array makes
    [validate_categorical] raise [TypeError] instead of returning messages:
    the membership test [pc not in color_set] hashes the list. *)
Theorem validate_categorical_raises_on_list
    (items : list value) (rest : dict) (colors designs themes : gset string) :
  validate_categorical (("primary_color", VList items) :: rest)
                       colors designs themes
  = Raise (TypeError "unhashable type: 'list'").
Proof. reflexivity. Qed.

Lemma set_contains_hashable (s : gset string) (v : value) :
  hashable v = true -> ∃ b, set_contains s v = Ok b.
Proof. destruct v; try discriminate; eexists; reflexivity. Qed.

Lemma keep_strangers_hashable (s : gset string) (xs : list value) :
  forallb hashable xs = true -> ∃ bad, keep_strangers s xs = Ok bad.
Proof.
  induction xs as [|x xs IH]; cbn [forallb keep_strangers]; [eauto|].
  intros [Hx Hxs]%andb_prop.
  destruct (set_contains_hashable s x Hx) as [b ->].
  destruct (IH Hxs) as [bad ->]. cbn [rbind]. eauto.
Qed.

(** Outside the unhashable values the validator does return: it raises
    nothing when the three categorical values and the entries of a
    [secondary_colors] list are hashable. *)
Lemma validate_categorical_returns (meta : dict) (colors designs themes : gset string) :
  hashable (dict_get meta "primary_color") = true ->
  hashable (dict_get meta "design_style") = true ->
  hashable (dict_get meta "theme") = true ->
  (∀ items, dict_get meta "secondary_colors" = VList items ->
            forallb hashable items = true) ->
  ∃ errs, validate_categorical meta colors designs themes = Ok errs.
Proof.
  intros Hpc Hds Hth Hsc. unfold validate_categorical.
  destruct (set_contains_hashable colors _ Hpc) as [b1 ->].
  destruct (set_contains_hashable designs _ Hds) as [b2 ->].
  destruct (set_contains_hashable themes _ Hth) as [b3 ->].
  cbn [rbind].
  destruct (dict_get meta "secondary_colors") as [| | | | |items|] eqn:Esc;
    cbn [rbind]; eauto.
  destruct (keep_strangers_hashable colors items (Hsc items eq_refl)) as [bad ->].
  cbn [rbind]. eauto.
Qed.

(* ------------------------------------------------------------------ *)
(** ** The store *)

Ltac lookup_columns :=
  repeat first
    [ rewrite lookup_insert_eq
    | rewrite lookup_insert_ne by discriminate ].

Lemma upsert_swatch_row (now_ : Z) (payload : dict) (sid : string) (t : table) :
  has_required_keys payload sid ->
  ∃ r, upsert_swatch None now_ payload t = Ok (<[sid := r]> t)
       ∧ carries r payload now_.
Proof.
  intros (Hid & [pc Hpc] & [sc Hsc] & [ds Hds] & [th Hth]).
  unfold upsert_swatch, dict_item. rewrite Hsc, Hid, Hpc, Hds, Hth.
  cbn [rbind]. unfold execute, upsert_sql.
  cbn [insert_columns insert_values conflict_target update_set proposed_row
       eval_sql dict_lookup String.eqb Ascii.eqb Bool.eqb rbind].
  rewrite lookup_insert_eq.
  assert (Hget : ∀ k v, dict_lookup payload k = Some v -> dict_get payload k = v).
  { intros k v Hk. unfold dict_get. rewrite Hk. reflexivity. }
  destruct (t !! sid) as [existing|] eqn:Et.
  - cbn [apply_set eval_sql rbind]. lookup_columns.
    repeat (cbn [rbind]; lookup_columns).
    eexists; split; [reflexivity|]. split.
    + intros c Hc. unfold payload_columns in Hc.
      repeat (apply elem_of_cons in Hc as [->|Hc]);
        [ .. | apply elem_of_nil in Hc; contradiction ];
        unfold bound_param; cbn [String.eqb Ascii.eqb Bool.eqb];
        lookup_columns;
        rewrite ?(Hget _ _ Hpc), ?(Hget _ _ Hsc), ?(Hget _ _ Hds), ?(Hget _ _ Hth);
        reflexivity.
    + lookup_columns. reflexivity.
  - eexists; split; [reflexivity|]. split.
    + intros c Hc. unfold payload_columns in Hc.
      repeat (apply elem_of_cons in Hc as [->|Hc]);
        [ .. | apply elem_of_nil in Hc; contradiction ];
        unfold bound_param; cbn [String.eqb Ascii.eqb Bool.eqb];
        lookup_columns;
        rewrite ?(Hget _ _ Hpc), ?(Hget _ _ Hsc), ?(Hget _ _ Hds), ?(Hget _ _ Hth);
        reflexivity.
    + lookup_columns. reflexivity.
Qed.

(** C8.  One call of [upsert_swatch] executes the statement once; the row
    stored under the payload's [swatch_id] then carries, in each of the seven
    non-key columns, the value bound from the payload, and the statement's
    time in [updated_at], whatever the row held before.  Two calls with the
    same [swatch_id] and different payloads therefore leave one row for that
    key, carrying the second payload, and leave every other row alone. *)
Theorem upsert_swatch_overwrites
    (now1 now2 : Z) (p1 p2 : dict) (sid : string) (t : table) :
  has_required_keys p1 sid ->
  has_required_keys p2 sid ->
  ∃ t1 t2 r1 r2,
    upsert_swatch None now1 p1 t = Ok t1
    ∧ upsert_swatch None now2 p2 t1 = Ok t2
    ∧ t1 !! sid = Some r1 ∧ carries r1 p1 now1
    ∧ t2 !! sid = Some r2 ∧ carries r2 p2 now2
    ∧ dom t2 = {[sid]} ∪ dom t
    ∧ (∀ k, k ≠ sid -> t2 !! k = t !! k).
Proof.
  clear json_loads.
  intros H1 H2.
  destruct (upsert_swatch_row now1 p1 sid t H1) as (r1 & E1 & C1).
  destruct (upsert_swatch_row now2 p2 sid (<[sid := r1]> t) H2) as (r2 & E2 & C2).
  exists (<[sid := r1]> t), (<[sid := r2]> (<[sid := r1]> t)), r1, r2.
  repeat split; try assumption; try apply C1; try apply C2.
  - apply lookup_insert_eq.
  - apply lookup_insert_eq.
  - rewrite !dom_insert_L. set_solver.
  - intros k Hk. rewrite !lookup_insert_ne by congruence. reflexivity.
Qed.

(* ------------------------------------------------------------------ *)
(** ** What each block of the script does *)

Lemma sbind_done {A B} (m : M A) (f : A -> M B) w a w' :
  m w = (Done a, w') -> sbind m f w = f a w'.
Proof. intros H. unfold sbind. rewrite H. reflexivity. Qed.

Lemma sbind_halt {A B} (m : M A) (f : A -> M B) w h w' :
  m w = (Halt h, w') -> sbind m f w = (Halt h, w').
Proof. intros H. unfold sbind. rewrite H. reflexivity. Qed.

Lemma session_eta (s : session_state) :
  SessionState (draft_meta s) (accepted_meta s) (meta_dirty s) (description s)
               (desc_based_on_meta s) = s.
Proof. destruct s; reflexivity. Qed.

Lemma world_eta (w : world) :
  World (session w) (heap w) (swatch_metadata w) (out w) = w.
Proof. destruct w; reflexivity. Qed.

Lemma contents_app_l (h more : list dict) (l : loc) :
  (l < length h)%nat -> contents (h ++ more) l = contents h l.
Proof. intros Hl. unfold contents. rewrite lookup_app_l by exact Hl. reflexivity. Qed.

Lemma contents_new (h : list dict) (d : dict) :
  contents (h ++ [d]) (length h) = d.
Proof. unfold contents. rewrite list_lookup_middle by reflexivity. reflexivity. Qed.

Lemma mark_dirty_eq (w : world) :
  _mark_dirty w = (Done tt, set_session (dirtied (session w)) w).
Proof.
  unfold _mark_dirty, dirtied, sbind, read_session.
  destruct w as [[dm am md ds bs] h t o]; destruct am; reflexivity.
Qed.

Lemma extract_button_ok (e : env) (w : world) (d : dict) :
  extract_metadata (vision_reply e) = Ok (VDict d) ->
  extract_button e w
  = (Done tt,
     World (SessionState (Some (length (heap w))) None false "" None)
           (heap w ++ [with_defaults d]) (swatch_metadata w) (out w)).
Proof.
  intros H. unfold extract_button, try_except, sbind, lift. rewrite H.
  unfold sret, new_dict, obj_setdefault, assign, set_heap, set_session.
  cbn [heap session swatch_metadata out fst snd].
  rewrite !(alter_app_r_alt _ (heap w)) by (cbn; lia).
  replace (length (heap w) - length (heap w))%nat with 0%nat by lia.
  reflexivity.
Qed.

Lemma extract_button_failed (e : env) (w : world) (ex : exn) :
  extraction_failure (extract_metadata (vision_reply e)) = Some ex ->
  extract_button e w
  = (Done tt,
     set_out (out w ++ [StError ("Metadata extraction failed: " +:+ exn_str ex)]) w).
Proof.
  intros H. unfold extract_button, try_except, sbind, lift.
  destruct (extract_metadata (vision_reply e)) as [[]|ex'];
    cbn in H; try discriminate H; injection H as <-; reflexivity.
Qed.

Lemma review_warning_eq (errs : list string) (w : world) :
  review_warning errs w = (Done tt, set_out (out w ++ review_messages errs) w).
Proof.
  destruct errs; [|reflexivity].
  unfold review_warning, review_messages, pass, sret, set_out.
  rewrite app_nil_r, world_eta. reflexivity.
Qed.

Lemma edit_controls_ok (u : ui) (ld : loc) (w : world) errs chosen :
  validate_categorical (contents (heap w) ld) color_set design_set theme_set
    = Ok errs ->
  secondary_default (contents (heap w) ld) = Ok chosen ->
  edit_controls u ld w
  = (Done (length (heap w)),
     World (session w)
           (heap w ++ [final_meta u (contents (heap w) ld) chosen])
           (swatch_metadata w) (out w ++ review_messages errs)).
Proof.
  intros Hv Hs. unfold edit_controls.
  erewrite sbind_done by reflexivity.
  unfold lift at 1. rewrite Hv. erewrite sbind_done by reflexivity.
  erewrite sbind_done by apply review_warning_eq.
  unfold lift. cbn [heap set_out]. rewrite Hs.
  erewrite sbind_done by reflexivity. reflexivity.
Qed.

Lemma edit_controls_crash (u : ui) (ld : loc) (w : world) :
  ¬ renders (contents (heap w) ld) ->
  ∃ ex o, edit_controls u ld w = (Halt (Uncaught ex), set_out o w).
Proof.
  intros Hr. unfold edit_controls.
  erewrite sbind_done by reflexivity. unfold lift at 1.
  destruct (validate_categorical _ _ _ _) as [errs|ex] eqn:Hv.
  - erewrite sbind_done by reflexivity.
    erewrite sbind_done by apply review_warning_eq.
    unfold lift. cbn [heap set_out].
    destruct (secondary_default _) as [chosen|ex] eqn:Hs.
    + exfalso. apply Hr. unfold renders. rewrite Hv, Hs. split; reflexivity.
    + exists ex, (out w ++ review_messages errs). reflexivity.
  - exists ex, (out w). unfold set_out. rewrite world_eta. reflexivity.
Qed.

Lemma renders_dec (draft : dict) : renders draft ∨ ¬ renders draft.
Proof.
  unfold renders.
  destruct (is_ok (validate_categorical _ _ _ _));
    destruct (is_ok (secondary_default draft));
    first [ left; split; reflexivity
          | right; intros [H1 H2]; discriminate ].
Qed.

Lemma renders_ok (draft : dict) :
  renders draft ->
  ∃ errs chosen,
    validate_categorical draft color_set design_set theme_set = Ok errs
    ∧ secondary_default draft = Ok chosen.
Proof.
  intros [Hv Hs].
  destruct (validate_categorical _ _ _ _) as [errs|]; [|discriminate].
  destruct (secondary_default draft) as [chosen|]; [|discriminate].
  eauto.
Qed.

Lemma accept_button_eq (fm : loc) (w : world) :
  accept_button fm w
  = (Done tt,
     World (SessionState (draft_meta (session w)) (Some fm) false
                         (description (session w))
                         (desc_based_on_meta (session w)))
           (heap w) (swatch_metadata w)
           (out w ++ [StSuccess "Metadata accepted. You can now generate the description."])).
Proof. reflexivity. Qed.

Lemma generate_button_eq (e : env) (la : loc) (w : world) :
  generate_button e la w
  = (Done tt,
     match generate_description (writer e) (contents (heap w) la) with
     | Ok desc =>
         set_session
           (SessionState (draft_meta (session w)) (accepted_meta (session w))
                         (meta_dirty (session w)) desc
                         (Some (fingerprint (contents (heap w) la)))) w
     | Raise ex =>
         set_out (out w ++ [StError ("Description generation failed: "
                                     +:+ exn_str ex)]) w
     end).
Proof.
  unfold generate_button, try_except, sbind, deref, lift.
  destruct (generate_description _ _); reflexivity.
Qed.

Lemma description_editor_eq (u : ui) (w : world) :
  description_editor u w
  = (Done tt,
     set_session
       (set_description (text_area (description (session w)) (description_typed u))
                        (session w)) w).
Proof. reflexivity. Qed.

Lemma save_button_empty (e : env) (sid f : string) (la : loc) (w : world) :
  strip (description (session w)) = "" ->
  save_button e sid f la w
  = (Halt Stopped, set_out (out w ++ [StError empty_description_text]) w).
Proof.
  intros H. unfold save_button.
  erewrite sbind_done by reflexivity. rewrite H. reflexivity.
Qed.

Lemma save_button_stale (e : env) (sid f : string) (la : loc) (w : world) basis :
  strip (description (session w)) ≠ "" ->
  desc_based_on_meta (session w) = Some basis ->
  basis ≠ fingerprint (contents (heap w) la) ->
  save_button e sid f la w
  = (Halt Stopped, set_out (out w ++ [StWarning stale_basis_text]) w).
Proof.
  intros Hd Hb Hne. unfold save_button.
  erewrite sbind_done by reflexivity.
  destruct (strip (description (session w))) eqn:E; [congruence|].
  cbn [str_is_empty].
  erewrite sbind_done by reflexivity.
  erewrite sbind_done by reflexivity.
  erewrite sbind_done by reflexivity.
  rewrite Hb.
  apply String.eqb_neq in Hne. rewrite Hne. reflexivity.
Qed.

Lemma save_button_pass (e : env) (sid f : string) (la : loc) (w : world) payload :
  strip (description (session w)) ≠ "" ->
  basis_agrees w la ->
  save_payload sid f (contents (heap w) la) (description (session w)) = Ok payload ->
  save_button e sid f la w = (Done tt, saved e payload w).
Proof.
  intros Hd Hb Hp. unfold save_button.
  erewrite sbind_done by reflexivity.
  destruct (strip (description (session w))) eqn:E; [congruence|].
  cbn [str_is_empty].
  erewrite sbind_done by reflexivity.
  erewrite sbind_done by reflexivity.
  erewrite sbind_done by reflexivity.
  assert (Hgate :
    match desc_based_on_meta (session w) with
    | Some basis =>
        if negb (String.eqb basis (fingerprint (contents (heap w) la)))
        then (st_warning stale_basis_text;; st_stop)%script
        else pass
    | None => pass
    end w = (Done tt, w)).
  { unfold basis_agrees in Hb. destruct (desc_based_on_meta (session w)).
    - subst. rewrite String.eqb_refl. reflexivity.
    - reflexivity. }
  erewrite sbind_done by exact Hgate.
  unfold try_except, sbind, deref, read_session, lift. rewrite Hp.
  unfold sret, call_upsert, sbind, emit, saved. cbn [swatch_metadata set_out].
  destruct (upsert_swatch _ _ _ _) as [t|ex].
  - unfold st_success, emit, set_table, set_out.
    cbn [session heap swatch_metadata out]. rewrite <- app_assoc. reflexivity.
  - unfold st_error, emit, set_out.
    cbn [session heap swatch_metadata out]. rewrite <- app_assoc. reflexivity.
Qed.

Lemma save_button_key_error (e : env) (sid f : string) (la : loc) (w : world) ex :
  strip (description (session w)) ≠ "" ->
  basis_agrees w la ->
  save_payload sid f (contents (heap w) la) (description (session w)) = Raise ex ->
  save_button e sid f la w
  = (Done tt, set_out (out w ++ [StError ("Save failed: " +:+ exn_str ex)]) w).
Proof.
  intros Hd Hb Hp. unfold save_button.
  erewrite sbind_done by reflexivity.
  destruct (strip (description (session w))) eqn:E; [congruence|].
  cbn [str_is_empty].
  erewrite sbind_done by reflexivity.
  erewrite sbind_done by reflexivity.
  erewrite sbind_done by reflexivity.
  assert (Hgate :
    match desc_based_on_meta (session w) with
    | Some basis =>
        if negb (String.eqb basis (fingerprint (contents (heap w) la)))
        then (st_warning stale_basis_text;; st_stop)%script
        else pass
    | None => pass
    end w = (Done tt, w)).
  { unfold basis_agrees in Hb. destruct (desc_based_on_meta (session w)).
    - subst. rewrite String.eqb_refl. reflexivity.
    - reflexivity. }
  erewrite sbind_done by exact Hgate.
  unfold try_except, sbind, deref, read_session, lift. rewrite Hp.
  reflexivity.
Qed.

(** In every case the Save button leaves the session state and the heap as
    they are. *)
Lemma save_button_frame (e : env) (sid f : string) (la : loc) (w : world) :
  session (save_button e sid f la w).2 = session w
  ∧ heap (save_button e sid f la w).2 = heap w.
Proof.
  destruct (decide (strip (description (session w)) = "")) as [He|He].
  { rewrite save_button_empty by exact He. split; reflexivity. }
  assert (Hcase : basis_agrees w la
                  ∨ ∃ basis, desc_based_on_meta (session w) = Some basis
                             ∧ basis ≠ fingerprint (contents (heap w) la)).
  { unfold basis_agrees. destruct (desc_based_on_meta (session w)) as [basis|].
    - destruct (decide (basis = fingerprint (contents (heap w) la))); eauto.
    - left. exact I. }
  destruct Hcase as [Hb|(basis & Eb & Hne)].
  - destruct (save_payload sid f (contents (heap w) la) (description (session w)))
      as [payload|ex] eqn:Ep.
    + rewrite (save_button_pass e sid f la w payload He Hb Ep).
      unfold saved. destruct (upsert_swatch _ _ _ _); split; reflexivity.
    + rewrite (save_button_key_error e sid f la w ex He Hb Ep).
      split; reflexivity.
  - rewrite (save_button_stale e sid f la w basis He Eb Hne).
    split; reflexivity.
Qed.

(* ------------------------------------------------------------------ *)
(** ** A program logic for the script monad *)

Lemma hoare_bind {A B} P (m : M A) (f : A -> M B) R Q H :
  hoare P m R H -> (∀ a, hoare (R a) (f a) Q H) -> hoare P (sbind m f) Q H.
Proof.
  intros Hm Hf w Hw. unfold sbind. specialize (Hm w Hw).
  destruct (m w) as [[a|h] w']; [apply (Hf a w' Hm)|exact Hm].
Qed.

Lemma hoare_weaken {A} (P P' : world -> Prop) (m : M A)
    (Q Q' : A -> world -> Prop) (H H' : world -> Prop) :
  hoare P m Q H ->
  (∀ w, P' w -> P w) -> (∀ a w, Q a w -> Q' a w) -> (∀ w, H w -> H' w) ->
  hoare P' m Q' H'.
Proof.
  intros Hm HP HQ HH w Hw. specialize (Hm w (HP w Hw)).
  destruct (m w) as [[a|h] w']; auto.
Qed.

Lemma hoare_pass P H : hoare P pass (fun _ => P) H.
Proof. intros w Hw. exact Hw. Qed.

Lemma hoare_stop {A} (P : world -> Prop) (Q : A -> world -> Prop) :
  hoare P st_stop Q P.
Proof. intros w Hw. exact Hw. Qed.

Lemma hoare_read_session P H :
  hoare P read_session (fun s w => P w ∧ s = session w) H.
Proof. intros w Hw. split; [exact Hw|reflexivity]. Qed.

Lemma hoare_emit P H x : ignores_out P -> hoare P (emit x) (fun _ => P) H.
Proof. intros HP w Hw. apply HP, Hw. Qed.

Lemma hoare_when_pressed (u : ui) (b : button) (body : M unit) P H :
  hoare P body (fun _ => P) H ->
  hoare P (when_pressed u b body) (fun _ => P) H.
Proof.
  intros Hb. unfold when_pressed.
  destruct (pressed u) as [[]|]; destruct b; try exact Hb; apply hoare_pass.
Qed.

(** A block that always returns, described by the world it produces. *)
Lemma hoare_step {A} P (m : M A) (Q : A -> world -> Prop) H :
  (∀ w, P w -> ∃ a w', m w = (Done a, w') ∧ Q a w') -> hoare P m Q H.
Proof.
  intros Hm w Hw. destruct (Hm w Hw) as (a & w' & -> & HQ). exact HQ.
Qed.

(* ------------------------------------------------------------------ *)
(** ** Objects are never changed after the run that made them *)

Lemma keeps_grow h0 o0 (w : world) s more t shown :
  keeps h0 o0 w -> keeps h0 o0 (World s (heap w ++ more) t (out w ++ shown)).
Proof. intros [Hh Ho]. split; cbn; apply prefix_app_r; assumption. Qed.

Lemma keeps_shown h0 o0 (w : world) shown :
  keeps h0 o0 w -> keeps h0 o0 (set_out (out w ++ shown) w).
Proof. intros [Hh Ho]. split; cbn; [exact Hh|apply prefix_app_r, Ho]. Qed.

Lemma emit_keeps h0 o0 x :
  hoare (keeps h0 o0) (emit x) (fun _ => keeps h0 o0) (keeps h0 o0).
Proof. intros w Hw. apply keeps_shown, Hw. Qed.

Lemma extract_button_keeps (e : env) h0 o0 :
  hoare (keeps h0 o0) (extract_button e) (fun _ => keeps h0 o0) (keeps h0 o0).
Proof.
  apply hoare_step. intros w Hw. exists tt.
  destruct (extraction_failure (extract_metadata (vision_reply e))) as [ex|] eqn:E.
  - eexists. split; [apply extract_button_failed, E|apply keeps_shown, Hw].
  - destruct (extract_metadata (vision_reply e)) as [[]|] eqn:Em;
      try discriminate E.
    eexists. split; [apply extract_button_ok, Em|].
    rewrite <- (app_nil_r (out w)). apply keeps_grow, Hw.
Qed.

Lemma edit_controls_keeps (u : ui) (ld : loc) h0 o0 :
  hoare (keeps h0 o0) (edit_controls u ld) (fun _ => keeps h0 o0) (keeps h0 o0).
Proof.
  intros w Hw.
  destruct (renders_dec (contents (heap w) ld)) as [Hr|Hr].
  - destruct (renders_ok _ Hr) as (errs & chosen & Hv & Hs).
    rewrite (edit_controls_ok u ld w errs chosen Hv Hs). apply keeps_grow, Hw.
  - unfold edit_controls.
    erewrite sbind_done by reflexivity. unfold lift at 1.
    destruct (validate_categorical _ _ _ _) as [errs|ex] eqn:Hv; [|exact Hw].
    erewrite sbind_done by reflexivity.
    erewrite sbind_done by apply review_warning_eq.
    unfold lift. cbn [heap set_out].
    destruct (secondary_default _) as [chosen|ex] eqn:Hs.
    + exfalso. apply Hr. unfold renders. rewrite Hv, Hs. split; reflexivity.
    + apply keeps_shown, Hw.
Qed.

Lemma generate_button_keeps (e : env) (la : loc) h0 o0 :
  hoare (keeps h0 o0) (generate_button e la) (fun _ => keeps h0 o0) (keeps h0 o0).
Proof.
  intros w Hw. rewrite generate_button_eq.
  destruct (generate_description _ _); [exact Hw|apply keeps_shown, Hw].
Qed.

Lemma save_button_keeps (e : env) (sid f : string) (la : loc) h0 o0 :
  hoare (keeps h0 o0) (save_button e sid f la) (fun _ => keeps h0 o0)
        (keeps h0 o0).
Proof.
  intros w Hw.
  destruct (decide (strip (description (session w)) = "")) as [He|He].
  { rewrite save_button_empty by exact He. apply keeps_shown, Hw. }
  assert (Hcase : basis_agrees w la
                  ∨ ∃ basis, desc_based_on_meta (session w) = Some basis
                             ∧ basis ≠ fingerprint (contents (heap w) la)).
  { unfold basis_agrees. destruct (desc_based_on_meta (session w)) as [basis|].
    - destruct (decide (basis = fingerprint (contents (heap w) la))); eauto.
    - left. exact I. }
  destruct Hcase as [Hb|(basis & Eb & Hne)].
  - destruct (save_payload sid f (contents (heap w) la) (description (session w)))
      as [payload|ex] eqn:Ep.
    + rewrite (save_button_pass e sid f la w payload He Hb Ep).
      unfold saved. destruct (upsert_swatch _ _ _ _).
      * destruct Hw as [Hh Ho]. split; cbn; [exact Hh|apply prefix_app_r, Ho].
      * apply keeps_shown, Hw.
    + rewrite (save_button_key_error e sid f la w ex He Hb Ep).
      apply keeps_shown, Hw.
  - rewrite (save_button_stale e sid f la w basis He Eb Hne).
    apply keeps_shown, Hw.
Qed.

Lemma after_extract_keeps (e : env) (u : ui) (sid f : string) h0 o0 :
  hoare (keeps h0 o0) (after_extract e u sid f) (fun _ => keeps h0 o0)
        (keeps h0 o0).
Proof.
  unfold after_extract. eapply hoare_bind; [apply hoare_read_session|].
  intros s. destruct (draft_meta s) as [ld|].
  2:{ eapply hoare_bind with (R := fun _ => keeps h0 o0).
      - eapply hoare_weaken; [apply (emit_keeps h0 o0)| | |];
          [intros w [Hw _]; exact Hw|intros ? ? Hq; exact Hq|intros ? Hq; exact Hq].
      - intros ?; cbv beta. apply hoare_stop. }
  eapply hoare_bind with (R := fun _ => keeps h0 o0).
  { eapply hoare_weaken; [apply (edit_controls_keeps u ld h0 o0)| | |];
      [intros w [Hw _]; exact Hw|intros ? ? Hq; exact Hq|intros ? Hq; exact Hq]. }
  intros fm. eapply hoare_bind with (R := fun _ => keeps h0 o0).
  { apply hoare_when_pressed. apply hoare_step. intros w Hw.
    exists tt. eexists. split; [apply accept_button_eq|].
    destruct Hw as [Hh Ho]. split; cbn; [exact Hh|apply prefix_app_r, Ho]. }
  intros ?; cbv beta. eapply hoare_bind; [apply hoare_read_session|].
  intros s1. eapply hoare_bind with (R := fun _ => keeps h0 o0).
  { eapply hoare_weaken with (P := keeps h0 o0) (Q := fun _ => keeps h0 o0)
                             (H := keeps h0 o0);
      [|intros w [Hw _]; exact Hw|intros ? ? Hq; exact Hq|intros ? Hq; exact Hq].
    destruct (meta_dirty s1); [apply emit_keeps|apply hoare_pass]. }
  intros ?; cbv beta. eapply hoare_bind; [apply hoare_read_session|].
  intros s2. destruct (accepted_meta s2) as [la|].
  2:{ eapply hoare_bind with (R := fun _ => keeps h0 o0).
      - eapply hoare_weaken; [apply (emit_keeps h0 o0)| | |];
          [intros w [Hw _]; exact Hw|intros ? ? Hq; exact Hq|intros ? Hq; exact Hq].
      - intros ?; cbv beta. apply hoare_stop. }
  eapply hoare_bind with (R := fun _ => keeps h0 o0).
  { eapply hoare_weaken;
      [apply hoare_when_pressed, (generate_button_keeps e la h0 o0)| | |];
      [intros w [Hw _]; exact Hw|intros ? ? Hq; exact Hq|intros ? Hq; exact Hq]. }
  intros ?; cbv beta. eapply hoare_bind with (R := fun _ => keeps h0 o0).
  { apply hoare_step. intros w Hw. exists tt. eexists.
    split; [apply description_editor_eq|exact Hw]. }
  intros ?; cbv beta. apply hoare_when_pressed, save_button_keeps.
Qed.

Lemma script_keeps (e : env) (u : ui) h0 o0 :
  hoare (keeps h0 o0) (script e u) (fun _ => keeps h0 o0) (keeps h0 o0).
Proof.
  unfold script. destruct (uploaded u) as [filename|].
  2:{ eapply hoare_bind; [apply emit_keeps|].
      intros ?; cbv beta. apply hoare_stop. }
  eapply hoare_bind; [apply hoare_when_pressed, extract_button_keeps|].
  intros ?; cbv beta. apply after_extract_keeps.
Qed.

(** The sidebar changes nothing. *)
Lemma hoare_sidebar (fetch_fault : option exn) (P : world -> Prop) :
  hoare P (sidebar fetch_fault) (fun _ => P) P.
Proof.
  intros w Hw. unfold sidebar.
  destruct (fetch_all fetch_fault (swatch_metadata w)) as [[|r rows]|ex];
    exact Hw.
Qed.

(** When the query of the sidebar returns, the run is the callback followed
    by the main column. *)
Lemma interaction_eq (e : env) (u : ui) (w : world) :
  interaction e u w
  = ((if on_change u then _mark_dirty else pass) ;; script e u)%script w.
Proof.
  unfold interaction, page, sbind.
  destruct ((if on_change u then _mark_dirty else pass) w) as [[a|h] w'];
    [|reflexivity].
  unfold sidebar, fetch_all.
  destruct (merge_sort newer_first (map snd (map_to_list (swatch_metadata w'))));
    reflexivity.
Qed.

(** When it raises, the run is the callback and nothing more. *)
Lemma rerun_with_fault (ex : exn) (e : env) (u : ui) (w : world) :
  rerun_with (Some ex) e u w
  = if on_change u then set_session (dirtied (session w)) (set_out [] w)
    else set_out [] w.
Proof.
  unfold rerun_with, page, sbind.
  destruct (on_change u); [rewrite mark_dirty_eq|]; reflexivity.
Qed.

Lemma page_keeps (fetch_fault : option exn) (e : env) (u : ui) h0 o0 :
  hoare (keeps h0 o0) (page fetch_fault e u) (fun _ => keeps h0 o0)
        (keeps h0 o0).
Proof.
  unfold page.
  eapply hoare_bind with (R := fun _ => keeps h0 o0).
  { destruct (on_change u); [|apply hoare_pass].
    apply hoare_step. intros w Hw. exists tt. eexists.
    split; [apply mark_dirty_eq|exact Hw]. }
  intros ?; cbv beta.
  eapply hoare_bind with (R := fun _ => keeps h0 o0);
    [apply hoare_sidebar|intros ?; cbv beta; apply script_keeps].
Qed.

Lemma interaction_keeps (e : env) (u : ui) h0 o0 :
  hoare (keeps h0 o0) (interaction e u) (fun _ => keeps h0 o0) (keeps h0 o0).
Proof. apply page_keeps. Qed.

(** Every run extends the heap and leaves the objects it found untouched. *)
Lemma rerun_heap_prefix (e : env) (u : ui) (w : world) :
  heap w `prefix_of` heap (rerun e u w).
Proof.
  unfold rerun.
  pose proof (interaction_keeps e u (heap w) [] (set_out [] w)) as H.
  specialize (H (conj (reflexivity _) (reflexivity _))).
  destruct (interaction e u (set_out [] w)) as [[a|h] w']; apply H.
Qed.

Lemma reruns_heap_prefix (steps : list (env * ui)) (w : world) :
  heap w `prefix_of` heap (reruns steps w).
Proof.
  revert w. induction steps as [|[e u] steps IH]; intros w; [reflexivity|].
  cbn [reruns foldl]. etransitivity; [apply (rerun_heap_prefix e u)|].
  apply IH.
Qed.

Lemma prefix_contents (h h' : list dict) (l : loc) :
  h `prefix_of` h' -> (l < length h)%nat -> contents h' l = contents h l.
Proof. intros [more ->] Hl. apply contents_app_l, Hl. Qed.

(* ------------------------------------------------------------------ *)
(** ** The session invariant *)

Lemma invariant_ignores_out : ignores_out invariant.
Proof. intros w o Hw. exact Hw. Qed.

Lemma invariant_init (t : table) : invariant (init_world t).
Proof. split; cbn; intros; discriminate. Qed.

Lemma invariant_grow s h more :
  invariant_at s h -> invariant_at s (h ++ more).
Proof.
  intros [Hd Ha Hb]. split.
  - intros ld Hld. rewrite length_app. specialize (Hd ld Hld). lia.
  - intros la Hla.
    destruct (Ha la Hla) as (Hlt & Hdirty & ld & u0 & chosen & Hdm & Hlt' & Hu & Hr & Hs & Hc).
    split; [rewrite length_app; lia|]. split; [exact Hdirty|].
    exists ld, u0, chosen.
    rewrite !contents_app_l by lia. auto 10.
  - exact Hb.
Qed.

Lemma invariant_dirtied s h : invariant_at s h -> invariant_at (dirtied s) h.
Proof.
  intros [Hd Ha Hb]. unfold dirtied.
  destruct (accepted_meta s) eqn:E; [|split; auto; rewrite E; auto].
  split; cbn; [exact Hd|discriminate|discriminate].
Qed.

Lemma invariant_extracted s h d :
  invariant_at s h ->
  invariant_at (SessionState (Some (length h)) None false "" None) (h ++ [d]).
Proof.
  intros _. split; cbn.
  - intros ld [= <-]. rewrite length_app. cbn. lia.
  - discriminate.
  - discriminate.
Qed.

Lemma invariant_described s h desc basis :
  invariant_at s h -> is_Some (accepted_meta s) ->
  invariant_at (SessionState (draft_meta s) (accepted_meta s) (meta_dirty s)
                             desc basis) h.
Proof. intros [Hd Ha Hb] Hacc. split; cbn; auto. Qed.

Lemma invariant_retyped s h desc :
  invariant_at s h -> invariant_at (set_description desc s) h.
Proof. intros [Hd Ha Hb]. split; cbn; auto. Qed.

Lemma edit_controls_staged (u : ui) (ld : loc) :
  hoare (fun w => invariant w ∧ draft_meta (session w) = Some ld)
        (edit_controls u ld) (staged u ld) invariant.
Proof.
  intros w [Hinv Hld].
  pose proof (inv_draft _ _ Hinv ld Hld) as Hlt.
  destruct (renders_dec (contents (heap w) ld)) as [Hr|Hr].
  - destruct (renders_ok _ Hr) as (errs & chosen & Hv & Hs).
    rewrite (edit_controls_ok u ld w errs chosen Hv Hs).
    unfold staged, invariant. cbn [session heap].
    rewrite length_app, contents_new, contents_app_l by exact Hlt. cbn [length].
    split; [apply invariant_grow, Hinv|]. split; [exact Hld|].
    split; [exact Hlt|]. split; [lia|]. split; [exact Hr|].
    exists chosen. split; [exact Hs|reflexivity].
  - destruct (edit_controls_crash u ld w Hr) as (ex & o & ->). exact Hinv.
Qed.

Lemma accept_button_invariant (u : ui) (ld fm : loc) :
  ui_ok u ->
  hoare (staged u ld fm) (accept_button fm) (fun _ => invariant) invariant.
Proof.
  intros Hu. apply hoare_step.
  intros w (Hinv & Hld & Hlt & Hfm & Hr & chosen & Hs & Hc).
  exists tt. eexists. split; [apply accept_button_eq|].
  destruct Hinv as [Hd Ha Hb]. split; cbn [session heap draft_meta accepted_meta
    meta_dirty desc_based_on_meta].
  - exact Hd.
  - intros la [= <-]. split; [exact Hfm|]. split; [reflexivity|].
    exists ld, u, chosen. auto 10.
  - intros b _. eauto.
Qed.

Lemma staged_invariant u ld fm w : staged u ld fm w -> invariant w.
Proof. intros H. apply H. Qed.

Lemma generate_button_invariant (e : env) (la : loc) :
  hoare (fun w => invariant w ∧ accepted_meta (session w) = Some la)
        (generate_button e la) (fun _ => invariant) invariant.
Proof.
  intros w [Hinv Hla]. rewrite generate_button_eq.
  destruct (generate_description _ _); [|exact Hinv].
  unfold invariant. cbn [set_session session heap].
  apply invariant_described; [exact Hinv|rewrite Hla; eauto].
Qed.

Lemma save_button_invariant (e : env) (sid f : string) (la : loc) :
  hoare invariant (save_button e sid f la) (fun _ => invariant) invariant.
Proof.
  intros w Hw. pose proof (save_button_frame e sid f la w) as [Hs Hh].
  destruct (save_button e sid f la w) as [[a|h] w']; cbn [snd] in Hs, Hh;
    unfold invariant; rewrite Hs, Hh; exact Hw.
Qed.

Lemma extract_button_invariant (e : env) :
  hoare invariant (extract_button e) (fun _ => invariant) invariant.
Proof.
  apply hoare_step. intros w Hw. exists tt.
  destruct (extraction_failure (extract_metadata (vision_reply e))) as [ex|] eqn:E.
  - eexists. split; [apply extract_button_failed, E|exact Hw].
  - destruct (extract_metadata (vision_reply e)) as [[]|] eqn:Em;
      try discriminate E.
    eexists. split; [apply extract_button_ok, Em|].
    unfold invariant. cbn [session heap]. eapply invariant_extracted, Hw.
Qed.

Lemma after_extract_invariant (e : env) (u : ui) (sid f : string) :
  ui_ok u ->
  hoare invariant (after_extract e u sid f) (fun _ => invariant) invariant.
Proof.
  intros Hu. unfold after_extract.
  eapply hoare_bind; [apply hoare_read_session|].
  intros s. destruct (draft_meta s) as [ld|] eqn:Eld.
  2:{ eapply hoare_bind with (R := fun _ => invariant).
      - eapply hoare_weaken; [apply (hoare_emit invariant), invariant_ignores_out| | |];
          [intros w [Hw _]; exact Hw|intros ? ? Hq; exact Hq|intros ? Hq; exact Hq].
      - intros ?; cbv beta. apply hoare_stop. }
  eapply hoare_bind.
  { eapply hoare_weaken; [apply (edit_controls_staged u ld)| | |];
      [intros w [Hw ->]; split; [exact Hw|exact Eld]
      |intros ? ? Hq; exact Hq|intros ? Hq; exact Hq]. }
  intros fm. eapply hoare_bind with (R := fun _ => invariant).
  { unfold when_pressed. destruct (pressed u) as [[]|];
      try (intros w Hw; exact (staged_invariant _ _ _ _ Hw)).
    apply accept_button_invariant, Hu. }
  intros ?; cbv beta. eapply hoare_bind; [apply hoare_read_session|].
  intros s1. eapply hoare_bind with (R := fun _ => invariant).
  { eapply hoare_weaken with (P := invariant) (Q := fun _ => invariant) (H := invariant);
      [|intros w [Hw _]; exact Hw|intros ? ? Hq; exact Hq|intros ? Hq; exact Hq].
    destruct (meta_dirty s1); [apply hoare_emit, invariant_ignores_out|apply hoare_pass]. }
  intros ?; cbv beta. eapply hoare_bind; [apply hoare_read_session|].
  intros s2. destruct (accepted_meta s2) as [la|] eqn:Ela.
  2:{ eapply hoare_bind with (R := fun _ => invariant).
      - eapply hoare_weaken; [apply (hoare_emit invariant), invariant_ignores_out| | |];
          [intros w [Hw _]; exact Hw|intros ? ? Hq; exact Hq|intros ? Hq; exact Hq].
      - intros ?; cbv beta. apply hoare_stop. }
  eapply hoare_bind with (R := fun _ => invariant).
  { unfold when_pressed. destruct (pressed u) as [[]|];
      try (intros w [Hw _]; exact Hw).
    eapply hoare_weaken; [apply (generate_button_invariant e la)| | |];
      [intros w [Hw ->]; split; [exact Hw|exact Ela]
      |intros ? ? Hq; exact Hq|intros ? Hq; exact Hq]. }
  intros ?; cbv beta. eapply hoare_bind with (R := fun _ => invariant).
  { apply hoare_step. intros w Hw. exists tt. eexists.
    split; [apply description_editor_eq|].
    unfold invariant. cbn [set_session session heap].
    apply invariant_retyped, Hw. }
  intros ?; cbv beta. apply hoare_when_pressed, save_button_invariant.
Qed.

Lemma script_invariant (e : env) (u : ui) :
  ui_ok u ->
  hoare invariant (script e u) (fun _ => invariant) invariant.
Proof.
  intros Hu. unfold script. destruct (uploaded u) as [filename|].
  2:{ eapply hoare_bind; [apply hoare_emit, invariant_ignores_out|].
      intros ?; cbv beta. apply hoare_stop. }
  eapply hoare_bind; [apply hoare_when_pressed, extract_button_invariant|].
  intros ?; cbv beta. apply after_extract_invariant, Hu.
Qed.

Lemma rerun_invariant (e : env) (u : ui) (w : world) :
  ui_ok u -> invariant w -> invariant (rerun e u w).
Proof.
  intros Hu Hw. unfold rerun.
  assert (Hi : hoare invariant (interaction e u) (fun _ => invariant) invariant).
  { unfold interaction, page.
    eapply hoare_bind with (R := fun _ => invariant).
    { destruct (on_change u); [|apply hoare_pass].
      apply hoare_step. intros w0 Hw0. exists tt. eexists.
      split; [apply mark_dirty_eq|].
      unfold invariant. cbn [set_session session heap].
      apply invariant_dirtied, Hw0. }
    intros ?; cbv beta.
    eapply hoare_bind with (R := fun _ => invariant);
      [apply hoare_sidebar|intros ?; cbv beta; apply script_invariant, Hu]. }
  specialize (Hi (set_out [] w) Hw).
  destruct (interaction e u (set_out [] w)) as [[a|h] w']; exact Hi.
Qed.

Lemma aborted_invariant (ex : exn) (e : env) (u : ui) (w : world) :
  invariant w -> invariant (rerun_with (Some ex) e u w).
Proof.
  intros Hw. rewrite rerun_with_fault.
  destruct (on_change u); [|exact Hw].
  unfold invariant. cbn [set_session session heap set_out].
  apply invariant_dirtied, Hw.
Qed.

Lemma reachable_invariant (w : world) : reachable w -> invariant w.
Proof.
  induction 1 as [t|e u w Hreach IH Hu|ex e u w Hreach IH];
    [apply invariant_init|apply rerun_invariant; assumption
    |apply aborted_invariant; assumption].
Qed.

(* ------------------------------------------------------------------ *)
(** ** Runs that press none of Accept, Generate, Save *)

Lemma same_as_ignores_out s0 t0 : ignores_out (same_as s0 t0).
Proof. intros w o Hw. exact Hw. Qed.

Lemma edit_controls_same (u : ui) (ld : loc) s0 t0 :
  hoare (same_as s0 t0) (edit_controls u ld) (fun _ => same_as s0 t0)
        (same_as s0 t0).
Proof.
  intros w Hw.
  destruct (renders_dec (contents (heap w) ld)) as [Hr|Hr].
  - destruct (renders_ok _ Hr) as (errs & chosen & Hv & Hs).
    rewrite (edit_controls_ok u ld w errs chosen Hv Hs). exact Hw.
  - destruct (edit_controls_crash u ld w Hr) as (ex & o & ->). exact Hw.
Qed.

Lemma when_pressed_no_commit (u : ui) (b : button) (body : M unit) :
  no_commit u -> b ≠ BtnExtract -> when_pressed u b body = pass.
Proof.
  intros [Hp|Hp] Hb; unfold when_pressed; rewrite Hp; destruct b; congruence.
Qed.

Lemma after_extract_quiet (e : env) (u : ui) (sid f : string) s0 t0 :
  no_commit u ->
  accepted_meta s0 = None ∨ description_typed u = None ->
  hoare (same_as s0 t0) (after_extract e u sid f) (fun _ => same_as s0 t0)
        (same_as s0 t0).
Proof.
  intros Hp Hq. unfold after_extract.
  eapply hoare_bind; [apply hoare_read_session|].
  intros s. destruct (draft_meta s) as [ld|].
  2:{ eapply hoare_bind with (R := fun _ => same_as s0 t0).
      - eapply hoare_weaken;
          [apply (hoare_emit (same_as s0 t0)), same_as_ignores_out| | |];
          [intros w [Hw _]; exact Hw|intros ? ? H; exact H|intros ? H; exact H].
      - intros ?; cbv beta. apply hoare_stop. }
  eapply hoare_bind with (R := fun _ => same_as s0 t0).
  { eapply hoare_weaken; [apply (edit_controls_same u ld s0 t0)| | |];
      [intros w [Hw _]; exact Hw|intros ? ? H; exact H|intros ? H; exact H]. }
  intros fm. rewrite when_pressed_no_commit by (exact Hp || discriminate).
  eapply hoare_bind; [apply hoare_pass|].
  intros ?; cbv beta. eapply hoare_bind; [apply hoare_read_session|].
  intros s1. eapply hoare_bind with (R := fun _ => same_as s0 t0).
  { eapply hoare_weaken with (P := same_as s0 t0) (Q := fun _ => same_as s0 t0)
                             (H := same_as s0 t0);
      [|intros w [Hw _]; exact Hw|intros ? ? H; exact H|intros ? H; exact H].
    destruct (meta_dirty s1); [apply hoare_emit, same_as_ignores_out|apply hoare_pass]. }
  intros ?; cbv beta. eapply hoare_bind; [apply hoare_read_session|].
  intros s2. destruct (accepted_meta s2) as [la|] eqn:Ela.
  2:{ eapply hoare_bind with (R := fun _ => same_as s0 t0).
      - eapply hoare_weaken;
          [apply (hoare_emit (same_as s0 t0)), same_as_ignores_out| | |];
          [intros w [Hw _]; exact Hw|intros ? ? H; exact H|intros ? H; exact H].
      - intros ?; cbv beta. apply hoare_stop. }
  destruct Hq as [Hq|Hq].
  { (* nothing is accepted: this branch is not taken *)
    intros w [[Hs _] ->]. rewrite Hs in Ela. congruence. }
  rewrite !when_pressed_no_commit by (exact Hp || discriminate).
  eapply hoare_bind with (R := fun _ => same_as s0 t0).
  { eapply hoare_weaken; [apply (hoare_pass (same_as s0 t0))| | |];
      [intros w [Hw _]; exact Hw|intros ? ? H; exact H|intros ? H; exact H]. }
  intros ?; cbv beta. eapply hoare_bind with (R := fun _ => same_as s0 t0);
    [|intros ?; cbv beta; apply hoare_pass].
  apply hoare_step. intros w [Hs Ht]. exists tt. eexists.
  split; [apply description_editor_eq|].
  split; [|exact Ht]. cbn [set_session session].
  rewrite Hq. cbn [text_area]. rewrite <- Hs.
  unfold set_description. apply session_eta.
Qed.

Lemma hoare_run {A} P (m : M A) Q H w :
  hoare P m Q H -> P w -> (∀ a w', Q a w' -> H w') -> H (m w).2.
Proof.
  intros Hm Hw HQ. specialize (Hm w Hw).
  destruct (m w) as [[a|h] w']; cbn [snd]; eauto.
Qed.

(* ------------------------------------------------------------------ *)
(** ** Editing a control *)

(** C2.  In a run started by the change of a metadata control (its callback
    fires, no button is pressed): if an accepted snapshot was set, the run
    clears it, clears the description and the description basis and sets the
    dirty flag; if none was set, the run changes none of these four. *)
Theorem edit_invalidates_snapshot (e : env) (u : ui) (w : world) :
  on_change u = true ->
  pressed u = None ->
  let s := session w in
  let s' := session (rerun e u w) in
  (is_Some (accepted_meta s) ->
     accepted_meta s' = None ∧ description s' = ""
     ∧ desc_based_on_meta s' = None ∧ meta_dirty s' = true)
  ∧ (accepted_meta s = None ->
     accepted_meta s' = accepted_meta s ∧ description s' = description s
     ∧ desc_based_on_meta s' = desc_based_on_meta s
     ∧ meta_dirty s' = meta_dirty s).
Proof.
  intros Hc Hp s s'.
  assert (Hs' : s' = dirtied s).
  { subst s s'. unfold rerun. rewrite interaction_eq. rewrite Hc.
    erewrite sbind_done by apply mark_dirty_eq.
    set (w1 := set_session _ _).
    assert (Hnone : accepted_meta (session w1) = None).
    { subst w1. cbn [set_session session set_out]. unfold dirtied.
      destruct (accepted_meta (session w)) eqn:E; [reflexivity|exact E]. }
    change (dirtied (session w)) with (session w1).
    unfold script. destruct (uploaded u) as [f|]; [|reflexivity].
    cbn zeta. unfold when_pressed at 1. rewrite Hp.
    erewrite sbind_done by reflexivity.
    eapply (hoare_run (same_as (session w1) (swatch_metadata w1))
                      _ (fun _ => same_as (session w1) (swatch_metadata w1))
                      (same_as (session w1) (swatch_metadata w1)) w1).
    - apply after_extract_quiet; [left; exact Hp|left; exact Hnone].
    - split; reflexivity.
    - intros _ w' H. exact H. }
  rewrite Hs'. unfold dirtied. split.
  - intros [la Hla]. rewrite Hla. cbn. auto.
  - intros Hnone. rewrite Hnone. auto.
Qed.

(* ------------------------------------------------------------------ *)
(** ** Extraction *)

Lemma find_from_spec (c : ascii) (s : string) (i : Z) :
  let r := find_from c s i in
  (r = -1 ∧ ∀ n, String.get n s ≠ Some c)
  ∨ (i <= r ∧ String.get (Z.to_nat (r - i)) s = Some c
     ∧ ∀ n, (n < Z.to_nat (r - i))%nat -> String.get n s ≠ Some c).
Proof.
  revert i. induction s as [|a s IH]; intros i; cbn [find_from].
  - left. split; [reflexivity|]. intros n. destruct n; discriminate.
  - destruct (Ascii.eqb_spec a c) as [->|Hac].
    + right. rewrite Z.sub_diag. cbn. split; [lia|]. split; [reflexivity|].
      intros n Hn. lia.
    + destruct (IH (i + 1)) as [[Hr Hnone]|(Hle & Hget & Hbefore)].
      * left. split; [exact Hr|]. intros [|n]; cbn; [congruence|apply Hnone].
      * right. split; [lia|].
        replace (Z.to_nat (find_from c s (i + 1) - i))
          with (S (Z.to_nat (find_from c s (i + 1) - (i + 1)))) by lia.
        cbn [String.get]. split; [exact Hget|].
        intros [|n] Hn; cbn; [congruence|apply Hbefore; lia].
Qed.

(** [str_find] returns the least index that holds the character, or -1 when
    there is none. *)
Lemma str_find_spec (s : string) (c : ascii) :
  (str_find s c = -1 ∧ ∀ n, String.get n s ≠ Some c)
  ∨ (0 <= str_find s c
     ∧ String.get (Z.to_nat (str_find s c)) s = Some c
     ∧ ∀ n, (n < Z.to_nat (str_find s c))%nat -> String.get n s ≠ Some c).
Proof.
  unfold str_find. pose proof (find_from_spec c s 0) as H. cbv zeta in H.
  rewrite Z.sub_0_r in H. exact H.
Qed.

Lemma rfind_from_spec (c : ascii) (s : string) (i last : Z) :
  let r := rfind_from c s i last in
  (r = last ∧ ∀ n, String.get n s ≠ Some c)
  ∨ (i <= r ∧ String.get (Z.to_nat (r - i)) s = Some c
     ∧ ∀ n, (Z.to_nat (r - i) < n)%nat -> String.get n s ≠ Some c).
Proof.
  revert i last. induction s as [|a s IH]; intros i last; cbn [rfind_from].
  - left. split; [reflexivity|]. intros n. destruct n; discriminate.
  - destruct (IH (i + 1) (if Ascii.eqb a c then i else last))
      as [[Hr Hnone]|(Hle & Hget & Hafter)].
    + rewrite Hr. destruct (Ascii.eqb_spec a c) as [->|Hac].
      * right. rewrite Z.sub_diag. cbn. split; [lia|]. split; [reflexivity|].
        intros [|n] Hn; [lia|]. cbn. apply Hnone.
      * left. split; [reflexivity|].
        intros [|n]; cbn; [congruence|apply Hnone].
    + right. split; [lia|].
      replace (Z.to_nat (rfind_from c s (i + 1) (if Ascii.eqb a c then i else last) - i))
        with (S (Z.to_nat (rfind_from c s (i + 1) (if Ascii.eqb a c then i else last)
                           - (i + 1)))) by lia.
      cbn [String.get]. split; [exact Hget|].
      intros [|n] Hn; [lia|]. cbn. apply Hafter. lia.
Qed.

(** [str_rfind] returns the greatest index that holds the character, or -1
    when there is none. *)
Lemma str_rfind_spec (s : string) (c : ascii) :
  (str_rfind s c = -1 ∧ ∀ n, String.get n s ≠ Some c)
  ∨ (0 <= str_rfind s c
     ∧ String.get (Z.to_nat (str_rfind s c)) s = Some c
     ∧ ∀ n, (Z.to_nat (str_rfind s c) < n)%nat -> String.get n s ≠ Some c).
Proof.
  unfold str_rfind. pose proof (rfind_from_spec c s 0 (-1)) as H. cbv zeta in H.
  rewrite Z.sub_0_r in H. exact H.
Qed.

Lemma safe_json_load_policy (text : string) :
  _safe_json_load text
  = match json_loads text with
    | Ok v => Ok v
    | Raise _ =>
        match braced text with
        | Some candidate => json_loads candidate
        | None => Raise (ValueError "Could not parse JSON from model output.")
        end
    end.
Proof.
  unfold _safe_json_load, braced.
  destruct (json_loads text) as [v|ex]; [reflexivity|].
  set (first := str_find text "{"%char).
  set (last := str_rfind text "}"%char).
  assert (Hfirst : first = -1 ∨ 0 <= first).
  { destruct (str_find_spec text "{"%char) as [[H _]|[H _]]; [left|right]; exact H. }
  assert (Hlast : last = -1 ∨ 0 <= last).
  { destruct (str_rfind_spec text "}"%char) as [[H _]|[H _]]; [left|right]; exact H. }
  assert (Hb : negb (first =? -1) && negb (last =? -1) && (first <? last)
               = (0 <=? first) && (first <? last)).
  { destruct (Z.eqb_spec first (-1)), (Z.eqb_spec last (-1)),
      (Z.ltb_spec first last), (Z.leb_spec 0 first); cbn; try reflexivity; lia. }
  rewrite Hb. destruct ((0 <=? first) && (first <? last)); reflexivity.
Qed.

(** C4.  [_safe_json_load] returns the direct parse when it succeeds;
    otherwise it parses the text from the first opening to the last closing
    brace, and the result or error of that second parse is its own; when no
    such text exists it raises [ValueError].  When an Extract click fails (the
    model call or the parsing raised, or the parsed value is not an object),
    the run shows the error and leaves the session state (draft, accepted,
    dirty, description, basis) and the table as they were, and no object of
    the heap is changed. *)
Theorem failed_extraction_commits_nothing (e : env) (u : ui) (w : world) (ex : exn) :
  pressed u = Some BtnExtract ->
  on_change u = false ->
  description_typed u = None ->
  extraction_failure (extract_metadata (vision_reply e)) = Some ex ->
  (∀ text,
     _safe_json_load text
     = match json_loads text with
       | Ok v => Ok v
       | Raise _ =>
           match braced text with
           | Some candidate => json_loads candidate
           | None => Raise (ValueError "Could not parse JSON from model output.")
           end
       end)
  ∧ session (rerun e u w) = session w
  ∧ swatch_metadata (rerun e u w) = swatch_metadata w
  ∧ heap w `prefix_of` heap (rerun e u w)
  ∧ (is_Some (uploaded u) ->
     [StError ("Metadata extraction failed: " +:+ exn_str ex)]
       `prefix_of` out (rerun e u w)).
Proof.
  intros Hp Hc Ht Hfail. split; [exact safe_json_load_policy|].
  split; [|split; [|split; [apply rerun_heap_prefix|]]].
  - unfold rerun. rewrite interaction_eq. rewrite Hc.
    erewrite sbind_done by reflexivity.
    unfold script. destruct (uploaded u) as [f|]; [|reflexivity].
    cbn zeta. unfold when_pressed at 1. rewrite Hp.
    erewrite sbind_done by (apply extract_button_failed, Hfail).
    eapply (hoare_run (same_as (session w) (swatch_metadata w))
                      _ (fun _ => same_as (session w) (swatch_metadata w))
                      (same_as (session w) (swatch_metadata w))).
    + apply after_extract_quiet; [right; exact Hp|right; exact Ht].
    + split; reflexivity.
    + intros _ w' H. exact H.
  - unfold rerun. rewrite interaction_eq. rewrite Hc.
    erewrite sbind_done by reflexivity.
    unfold script. destruct (uploaded u) as [f|]; [|reflexivity].
    cbn zeta. unfold when_pressed at 1. rewrite Hp.
    erewrite sbind_done by (apply extract_button_failed, Hfail).
    eapply (hoare_run (same_as (session w) (swatch_metadata w))
                      _ (fun _ => same_as (session w) (swatch_metadata w))
                      (same_as (session w) (swatch_metadata w))).
    + apply after_extract_quiet; [right; exact Hp|right; exact Ht].
    + split; reflexivity.
    + intros _ w' H. exact H.
  - intros [f Hf]. unfold rerun. rewrite interaction_eq. rewrite Hc.
    erewrite sbind_done by reflexivity.
    unfold script. rewrite Hf.
    cbn zeta. unfold when_pressed at 1. rewrite Hp.
    erewrite sbind_done by (apply extract_button_failed, Hfail).
    set (shown := [StError ("Metadata extraction failed: " +:+ exn_str ex)]).
    eapply (hoare_run (keeps (heap w) shown) _ (fun _ => keeps (heap w) shown)
                      (keeps (heap w) shown)).
    + apply after_extract_keeps.
    + split; reflexivity.
    + intros _ w' H. exact H.
Qed.

Lemma lookup_setdefault (d : dict) (k : string) (v : value) (k' : string) :
  dict_lookup (dict_setdefault d k v) k'
  = match dict_lookup d k' with
    | Some x => Some x
    | None => if String.eqb k' k then Some v else None
    end.
Proof.
  induction d as [|[k0 v0] d IH]; cbn [dict_setdefault dict_lookup].
  - destruct (String.eqb k' k); reflexivity.
  - destruct (String.eqb k k0) eqn:Ek; cbn [dict_lookup];
      destruct (String.eqb k' k0) eqn:Ek'; try reflexivity; try exact IH.
    apply String.eqb_eq in Ek. apply String.eqb_neq in Ek'. subst k0.
    destruct (dict_lookup d k'); [reflexivity|].
    apply String.eqb_neq in Ek'. rewrite Ek'. reflexivity.
Qed.

Lemma with_defaults_present (d : dict) (k : string) (v : value) :
  dict_lookup d k = Some v -> dict_lookup (with_defaults d) k = Some v.
Proof.
  intros H. unfold with_defaults. rewrite !lookup_setdefault, H. reflexivity.
Qed.

Lemma with_defaults_missing (d : dict) (k : string) (v : value) :
  (k, v) ∈ defaults -> dict_lookup d k = None ->
  dict_lookup (with_defaults d) k = Some v.
Proof.
  intros Hin H. unfold with_defaults. rewrite !lookup_setdefault, H.
  unfold defaults in Hin.
  repeat (apply elem_of_cons in Hin as [[= -> ->]|Hin]);
    [ .. | apply elem_of_nil in Hin; contradiction ]; reflexivity.
Qed.

Lemma with_defaults_other (d : dict) (k : string) :
  k ∉ defaults.*1 -> dict_lookup (with_defaults d) k = dict_lookup d k.
Proof.
  intros Hk. unfold with_defaults. rewrite !lookup_setdefault.
  destruct (dict_lookup d k); [reflexivity|].
  cbn in Hk.
  repeat match goal with
         | |- context [String.eqb k ?c] =>
             destruct (String.eqb_spec k c) as [->|?];
             [exfalso; apply Hk; set_solver|]
         end.
  reflexivity.
Qed.

(** The run of a successful extraction. *)
Lemma extraction_run (e : env) (u : ui) (w : world) (f : string) (d : dict) :
  uploaded u = Some f ->
  pressed u = Some BtnExtract ->
  extract_metadata (vision_reply e) = Ok (VDict d) ->
  session (rerun e u w) = SessionState (Some (length (heap w))) None false "" None
  ∧ contents (heap (rerun e u w)) (length (heap w)) = with_defaults d.
Proof.
  intros Hf Hp Hd.
  set (s2 := SessionState (Some (length (heap w))) None false "" None).
  set (w2 := World s2 (heap w ++ [with_defaults d]) (swatch_metadata w) []).
  assert (Hrun : interaction e u (set_out [] w)
                 = after_extract e u (swatch_id_of (swatch_id_input u) f) f w2).
  { rewrite interaction_eq.
    assert (Hcb : ∃ s1, (if on_change u then _mark_dirty else pass) (set_out [] w)
                        = (Done tt, set_session s1 (set_out [] w))).
    { destruct (on_change u).
      - eexists. apply mark_dirty_eq.
      - exists (session w). unfold pass, sret, set_session, set_out. cbn.
        reflexivity. }
    destruct Hcb as [s1 Hcb]. erewrite sbind_done by exact Hcb.
    unfold script. rewrite Hf. cbn zeta. unfold when_pressed at 1. rewrite Hp.
    erewrite sbind_done by (apply extract_button_ok, Hd). reflexivity. }
  unfold rerun. rewrite Hrun. split.
  - eapply (hoare_run (same_as s2 (swatch_metadata w)) _
                      (fun _ => same_as s2 (swatch_metadata w))
                      (same_as s2 (swatch_metadata w)) w2).
    + apply after_extract_quiet; [right; exact Hp|left; reflexivity].
    + split; reflexivity.
    + intros _ w' H. exact H.
  - transitivity (contents (heap w2) (length (heap w)));
      [|apply contents_new].
    apply prefix_contents; [|subst w2; cbn [heap]; rewrite length_app; cbn; lia].
    eapply (hoare_run (keeps (heap w2) []) _ (fun _ => keeps (heap w2) [])
                      (keeps (heap w2) []) w2).
    + apply after_extract_keeps.
    + split; [reflexivity|apply prefix_nil].
    + intros _ w' H. exact H.
Qed.

(** C5.  When an Extract click obtains a parsed JSON object [d], the new
    draft holds every key of [d] with the value [d] gives it (whatever that
    value is, lists included, order and repetitions kept), and each of the
    five keys that [d] lacks with its default: the empty string, or the empty
    list for [secondary_colors]. *)
Theorem extraction_defaults_missing_keys
    (e : env) (u : ui) (w : world) (f : string) (d : dict) :
  uploaded u = Some f ->
  pressed u = Some BtnExtract ->
  extract_metadata (vision_reply e) = Ok (VDict d) ->
  ∃ ld,
    draft_meta (session (rerun e u w)) = Some ld
    ∧ let draft := contents (heap (rerun e u w)) ld in
      (∀ k v, dict_lookup d k = Some v -> dict_lookup draft k = Some v)
      ∧ (∀ k v, (k, v) ∈ defaults -> dict_lookup d k = None ->
                dict_lookup draft k = Some v)
      ∧ (∀ k, k ∉ defaults.*1 -> dict_lookup draft k = dict_lookup d k).
Proof.
  intros Hf Hp Hd.
  destruct (extraction_run e u w f d Hf Hp Hd) as [Hs Hc].
  exists (length (heap w)). rewrite Hs. split; [reflexivity|].
  cbv zeta. rewrite Hc.
  split; [apply with_defaults_present|].
  split; [apply with_defaults_missing|apply with_defaults_other].
Qed.

(* ------------------------------------------------------------------ *)
(** ** The accepted snapshot is categorically valid *)

Lemma index_of_lookup (s : string) (l : list string) (i : nat) :
  index_of s l = Some i -> l !! i = Some s.
Proof.
  revert i. induction l as [|a l IH]; intros i; cbn [index_of]; [discriminate|].
  destruct (String.eqb_spec a s) as [->|Hne].
  - intros [= <-]. reflexivity.
  - destruct (index_of s l) as [j|]; [|discriminate].
    intros [= <-]. cbn. apply IH. reflexivity.
Qed.

Lemma index_of_none (s : string) (l : list string) :
  index_of s l = None -> s ∉ l.
Proof.
  induction l as [|a l IH]; cbn [index_of]; [intros _; apply not_elem_of_nil|].
  destruct (String.eqb_spec a s) as [->|Hne]; [discriminate|].
  destruct (index_of s l); [discriminate|].
  intros _ [->|Hin]%elem_of_cons; [congruence|]. apply IH; [reflexivity|exact Hin].
Qed.

(** An option of the list is found at its first position; any other value
    falls back to position 0. *)
Lemma safe_index_member (options : list string) (s : string) :
  s ∈ options -> options !! safe_index options (VStr s) = Some s.
Proof.
  intros Hin. unfold safe_index, list_index.
  destruct (index_of s options) as [i|] eqn:E.
  - apply index_of_lookup, E.
  - exfalso. exact (index_of_none _ _ E Hin).
Qed.

Lemma safe_index_fallback (options : list string) (v : value) :
  ¬ member_of options v -> safe_index options v = 0%nat.
Proof.
  intros Hv. unfold safe_index, list_index.
  destruct v; try reflexivity.
  destruct (index_of s options) as [i|] eqn:E; [|reflexivity].
  exfalso. apply Hv. exists s. split; [reflexivity|].
  apply list_elem_of_lookup. exists i. apply index_of_lookup, E.
Qed.

Lemma safe_index_in_range (options : list string) (v : value) :
  options ≠ [] -> ∃ s, options !! safe_index options v = Some s.
Proof.
  intros Hne. unfold safe_index, list_index.
  assert (H0 : ∃ s, options !! 0%nat = Some s)
    by (destruct options; [congruence|eauto]).
  destruct v; try exact H0.
  destruct (index_of s options) as [i|] eqn:E; [|exact H0].
  exists s. apply index_of_lookup, E.
Qed.

Lemma selectbox_member (options : list string) (v : value) (pick : option string) :
  options ≠ [] -> pick_ok options pick ->
  member_of options (selectbox options (safe_index options v) pick).
Proof.
  intros Hne Hpick. unfold selectbox. destruct pick as [s|].
  - exists s. split; [reflexivity|exact Hpick].
  - destruct (safe_index_in_range options v Hne) as [s Hs]. rewrite Hs.
    exists s. split; [reflexivity|]. apply list_elem_of_lookup. eauto.
Qed.

Lemma set_contains_true (options : list string) (x : value) :
  set_contains (list_to_set options) x = Ok true -> member_of options x.
Proof.
  destruct x; cbn [set_contains]; try discriminate.
  intros [= H]. apply bool_decide_eq_true_1 in H.
  exists s. split; [reflexivity|]. apply elem_of_list_to_set in H. exact H.
Qed.

Lemma set_contains_member (options : list string) (x : value) :
  member_of options x -> set_contains (list_to_set options) x = Ok true.
Proof.
  intros (s & -> & Hs). cbn [set_contains].
  rewrite bool_decide_eq_true_2; [reflexivity|]. apply elem_of_list_to_set, Hs.
Qed.

Lemma keep_members_sound (options : list string) (xs chosen : list value) :
  keep_members (list_to_set options) xs = Ok chosen ->
  Forall (member_of options) chosen.
Proof.
  revert chosen. induction xs as [|x xs IH]; intros chosen; cbn [keep_members].
  - intros [= <-]. constructor.
  - destruct (set_contains (list_to_set options) x) as [b|] eqn:Ex; [|discriminate].
    cbn [rbind].
    destruct (keep_members (list_to_set options) xs) as [r|]; [|discriminate].
    cbn [rbind]. intros [= <-]. destruct b.
    + constructor; [apply set_contains_true, Ex|apply IH; reflexivity].
    + apply IH. reflexivity.
Qed.

Lemma secondary_default_members (draft : dict) (chosen : list value) :
  secondary_default draft = Ok chosen -> Forall (member_of color_opts) chosen.
Proof.
  unfold secondary_default.
  destruct (iterate _) as [xs|]; [|discriminate]. cbn [rbind].
  apply keep_members_sound.
Qed.

Lemma final_meta_valid (u : ui) (draft : dict) (chosen : list value) :
  color_opts ≠ [] -> design_opts ≠ [] -> theme_opts ≠ [] ->
  ui_ok u -> secondary_default draft = Ok chosen ->
  categorically_valid (final_meta u draft chosen).
Proof.
  intros Hc Hd Ht (Hp & Hds & Hth & Hsec) Hs.
  unfold categorically_valid, final_meta, dict_get.
  cbn [dict_lookup String.eqb Ascii.eqb Bool.eqb default from_option id].
  split; [apply selectbox_member; assumption|].
  split; [apply selectbox_member; assumption|].
  split; [apply selectbox_member; assumption|].
  eexists. split; [reflexivity|].
  unfold multiselect. destruct (secondary_pick u) as [l|].
  - apply Forall_fmap. eapply Forall_impl; [exact Hsec|].
    intros s Hin. exists s. split; [reflexivity|exact Hin].
  - eapply secondary_default_members, Hs.
Qed.

Lemma keep_strangers_members (options : list string) (items : list value) :
  Forall (member_of options) items ->
  keep_strangers (list_to_set options) items = Ok [].
Proof.
  induction 1 as [|x items Hx _ IH]; cbn [keep_strangers]; [reflexivity|].
  rewrite (set_contains_member _ _ Hx), IH. reflexivity.
Qed.

Lemma validate_categorical_valid (snapshot : dict) :
  categorically_valid snapshot ->
  validate_categorical snapshot color_set design_set theme_set = Ok [].
Proof.
  intros (Hp & Hd & Ht & items & Hitems & Hall).
  unfold validate_categorical, color_set, design_set, theme_set.
  rewrite (set_contains_member _ _ Hp), (set_contains_member _ _ Hd),
    (set_contains_member _ _ Ht), Hitems.
  cbn [rbind]. rewrite (keep_strangers_members _ _ Hall). reflexivity.
Qed.

(** C9.  With non-empty option lists, in every reachable world that holds an
    accepted snapshot, the snapshot's primary colour, design style and theme
    are options of their lists and every secondary colour is a colour option;
    [validate_categorical] has nothing to report on it. *)
Theorem accepted_snapshot_is_valid (w : world) (la : loc) :
  color_opts ≠ [] -> design_opts ≠ [] -> theme_opts ≠ [] ->
  reachable w ->
  accepted_meta (session w) = Some la ->
  categorically_valid (contents (heap w) la)
  ∧ validate_categorical (contents (heap w) la) color_set design_set theme_set
    = Ok [].
Proof.
  intros Hc Hd Ht Hreach Hla.
  assert (Hvalid : categorically_valid (contents (heap w) la)).
  { destruct (inv_accepted _ _ (reachable_invariant w Hreach) la Hla)
      as (_ & _ & ld & u0 & chosen & _ & _ & Hu & _ & Hs & ->).
    apply final_meta_valid; assumption. }
  split; [exact Hvalid|apply validate_categorical_valid, Hvalid].
Qed.

(* ------------------------------------------------------------------ *)
(** ** Accept *)

Lemma callback_eq (u : ui) (w : world) :
  (if on_change u then _mark_dirty else pass) w
  = (Done tt, set_session (if on_change u then dirtied (session w) else session w) w).
Proof.
  destruct (on_change u); [apply mark_dirty_eq|].
  unfold pass, sret, set_session. rewrite world_eta. reflexivity.
Qed.

Lemma dirtied_draft (s : session_state) : draft_meta (dirtied s) = draft_meta s.
Proof. unfold dirtied. destruct (accepted_meta s); reflexivity. Qed.

(** The world after a run in which Accept was pressed and the controls could
    be shown. *)
Lemma accept_run (e : env) (u : ui) (w : world) (f : string) (ld : loc) errs chosen :
  uploaded u = Some f ->
  pressed u = Some BtnAccept ->
  draft_meta (session w) = Some ld ->
  validate_categorical (contents (heap w) ld) color_set design_set theme_set
    = Ok errs ->
  secondary_default (contents (heap w) ld) = Ok chosen ->
  ∃ desc basis shown,
    rerun e u w
    = World (SessionState (Some ld) (Some (length (heap w))) false desc basis)
            (heap w ++ [final_meta u (contents (heap w) ld) chosen])
            (swatch_metadata w) shown.
Proof.
  intros Hf Hp Hld Hv Hs. unfold rerun. rewrite interaction_eq.
  erewrite sbind_done by apply callback_eq.
  set (s1 := if on_change u then _ else _).
  assert (Hld1 : draft_meta s1 = Some ld).
  { subst s1. destruct (on_change u); [rewrite dirtied_draft|]; exact Hld. }
  unfold script. rewrite Hf. cbn zeta. unfold when_pressed at 1. rewrite Hp.
  erewrite sbind_done by reflexivity.
  unfold after_extract.
  erewrite sbind_done by reflexivity.
  cbn [set_session set_out session]. rewrite Hld1.
  erewrite sbind_done by (apply edit_controls_ok; [exact Hv|exact Hs]).
  unfold when_pressed. rewrite Hp.
  erewrite sbind_done by apply accept_button_eq.
  erewrite sbind_done by reflexivity.
  cbn [session heap swatch_metadata out meta_dirty].
  erewrite sbind_done by reflexivity.
  erewrite sbind_done by reflexivity.
  cbn [session accepted_meta].
  erewrite sbind_done by reflexivity.
  erewrite sbind_done by apply description_editor_eq.
  unfold pass, sret. cbn [snd set_session session heap swatch_metadata out
    set_description draft_meta accepted_meta meta_dirty desc_based_on_meta].
  rewrite Hld1. eauto.
Qed.

Lemma keep_members_strings (options : list string) (l : list string) :
  Forall (fun c => c ∈ (list_to_set options : gset string)) l ->
  keep_members (list_to_set options) (VStr <$> l) = Ok (VStr <$> l).
Proof.
  induction 1 as [|c l Hc _ IH]; [reflexivity|].
  cbn [fmap list_fmap keep_members set_contains rbind].
  change (list_fmap string value VStr l) with (VStr <$> l).
  rewrite IH, bool_decide_eq_true_2 by exact Hc. reflexivity.
Qed.

Lemma valid_draft_is_kept (u : ui) (draft : dict) (r : MetadataRecord) :
  holds_record draft r ->
  valid_record r color_set design_set theme_set ->
  untouched u ->
  secondary_default draft = Ok (VStr <$> secondary_colors r)
  ∧ final_meta u draft (VStr <$> secondary_colors r) = meta_dict r.
Proof.
  intros Hd (Hpc & Hds & Hth & Hsc) (Hp1 & Hp2 & Hp3 & Hp4 & Hp5).
  assert (Hget : ∀ k, k ∈ defaults.*1 -> dict_get draft k = dict_get (meta_dict r) k).
  { intros k Hk. unfold dict_get. rewrite (Hd k Hk). reflexivity. }
  assert (Hk1 : dict_get draft "primary_color" = VStr (primary_color r))
    by (rewrite Hget by (cbn; set_solver); reflexivity).
  assert (Hk2 : dict_get draft "secondary_colors"
                = VList (VStr <$> secondary_colors r))
    by (rewrite Hget by (cbn; set_solver); reflexivity).
  assert (Hk3 : dict_get draft "design_style" = VStr (design_style r))
    by (rewrite Hget by (cbn; set_solver); reflexivity).
  assert (Hk4 : dict_get draft "theme" = VStr (theme r))
    by (rewrite Hget by (cbn; set_solver); reflexivity).
  assert (Hk5 : dict_get draft "suitable_for" = VStr (suitable_for r))
    by (rewrite Hget by (cbn; set_solver); reflexivity).
  split.
  - unfold secondary_default. rewrite Hk2. unfold py_or.
    destruct (secondary_colors r) as [|c l] eqn:El; [reflexivity|].
    cbn [fmap list_fmap truthy iterate rbind].
    exact (keep_members_strings color_opts (c :: l) Hsc).
  - unfold final_meta, meta_dict. rewrite Hk1, Hk3, Hk4, Hk5, Hp1, Hp2, Hp3, Hp4, Hp5.
    unfold selectbox, multiselect, text_input.
    unfold color_set, design_set, theme_set in *.
    apply elem_of_list_to_set in Hpc, Hds, Hth.
    rewrite !safe_index_member by assumption.
    unfold py_or. destruct (suitable_for r); reflexivity.
Qed.

(** C3 (amended).  When Accept is pressed in a run that shows the controls,
    the accepted snapshot is a new object, distinct from the draft, that holds
    the current values of the five controls ([final_meta]); the draft
    reference is unchanged; no later run changes the contents of that object;
    and the snapshot equals the draft's five fields when these are a valid
    typed record and no control was touched. *)
Theorem accept_freezes_control_values
    (e : env) (u : ui) (w : world) (f : string) (ld : loc) errs chosen :
  uploaded u = Some f ->
  pressed u = Some BtnAccept ->
  draft_meta (session w) = Some ld ->
  (ld < length (heap w))%nat ->
  validate_categorical (contents (heap w) ld) color_set design_set theme_set
    = Ok errs ->
  secondary_default (contents (heap w) ld) = Ok chosen ->
  let w' := rerun e u w in
  let la := length (heap w) in
  let snapshot := final_meta u (contents (heap w) ld) chosen in
  accepted_meta (session w') = Some la
  ∧ draft_meta (session w') = Some ld
  ∧ la ≠ ld
  ∧ contents (heap w') ld = contents (heap w) ld
  ∧ contents (heap w') la = snapshot
  ∧ (∀ steps, contents (heap (reruns steps w')) la = snapshot)
  ∧ (∀ r, holds_record (contents (heap w) ld) r ->
          valid_record r color_set design_set theme_set ->
          untouched u -> snapshot = meta_dict r).
Proof.
  intros Hf Hp Hld Hlt Hv Hs w' la snapshot.
  destruct (accept_run e u w f ld errs chosen Hf Hp Hld Hv Hs)
    as (desc & basis & shown & Hrun).
  fold w' in Hrun.
  assert (Hnew : contents (heap w') la = snapshot).
  { rewrite Hrun. cbn [heap]. apply contents_new. }
  split; [rewrite Hrun; reflexivity|].
  split; [rewrite Hrun; reflexivity|].
  split; [subst la; lia|].
  split; [rewrite Hrun; cbn [heap]; apply contents_app_l, Hlt|].
  split; [exact Hnew|].
  split.
  - intros steps. rewrite <- Hnew.
    apply prefix_contents; [apply reruns_heap_prefix|].
    rewrite Hrun. cbn [heap]. rewrite length_app. cbn. subst la. lia.
  - intros r Hr Hvalid Hu.
    destruct (valid_draft_is_kept u _ r Hr Hvalid Hu) as [Hs' Hfm].
    rewrite Hs in Hs'. injection Hs' as ->. exact Hfm.
Qed.

(* ------------------------------------------------------------------ *)
(** ** Save *)

Lemma review_messages_no_upsert (errs : list string) :
  filter (fun x => is_upsert x = true) (review_messages errs) = [].
Proof. destruct errs; reflexivity. Qed.

Lemma save_payload_final (sid f d : string) (u0 : ui) (draft : dict) chosen :
  save_payload sid f (final_meta u0 draft chosen) d
  = Ok (snapshot_payload sid f (final_meta u0 draft chosen) d).
Proof. reflexivity. Qed.

(** The world in which the Save button runs: the controls were shown and the
    description editor has written its text back. *)
Lemma save_run (e : env) (u : ui) (w : world) (f : string) (la : loc) :
  invariant w ->
  uploaded u = Some f ->
  pressed u = Some BtnSave ->
  on_change u = false ->
  accepted_meta (session w) = Some la ->
  ∃ more shown,
    filter (fun x => is_upsert x = true) shown = []
    ∧ rerun e u w
      = (save_button e (swatch_id_of (swatch_id_input u) f) f la
           (World (set_description
                     (text_area (description (session w)) (description_typed u))
                     (session w))
                  (heap w ++ more) (swatch_metadata w) shown)).2.
Proof.
  intros Hinv Hf Hp Hc Hla.
  destruct (inv_accepted _ _ Hinv la Hla)
    as (Hlt & Hdirty & ld & u0 & chosen & Hld & Hlt' & Hu0 & Hr & Hs & Hcont).
  destruct (renders_ok _ Hr) as (errs & chosen' & Hv & Hs').
  exists [final_meta u (contents (heap w) ld) chosen'], (review_messages errs).
  split; [apply review_messages_no_upsert|].
  unfold rerun. rewrite interaction_eq. rewrite Hc.
  erewrite sbind_done by reflexivity.
  unfold script. rewrite Hf. cbn zeta. unfold when_pressed at 1. rewrite Hp.
  erewrite sbind_done by reflexivity.
  unfold after_extract.
  erewrite sbind_done by reflexivity.
  cbn [set_out session]. rewrite Hld.
  erewrite sbind_done by (apply edit_controls_ok; [exact Hv|exact Hs']).
  unfold when_pressed. rewrite Hp.
  erewrite sbind_done by reflexivity.
  erewrite sbind_done by reflexivity.
  cbn [session heap swatch_metadata out set_out]. rewrite Hdirty.
  erewrite sbind_done by reflexivity.
  erewrite sbind_done by reflexivity.
  cbn [session]. rewrite Hla.
  erewrite sbind_done by reflexivity.
  erewrite sbind_done by apply description_editor_eq.
  reflexivity.
Qed.

Lemma save_click (e : env) (u : ui) (w : world) (f : string) (la : loc) :
  invariant w ->
  uploaded u = Some f ->
  pressed u = Some BtnSave ->
  on_change u = false ->
  accepted_meta (session w) = Some la ->
  let d := text_area (description (session w)) (description_typed u) in
  let sid := swatch_id_of (swatch_id_input u) f in
  strip d ≠ "" ->
  session (rerun e u w) = set_description d (session w)
  ∧ save_outcome e w (rerun e u w) la
                 (snapshot_payload sid f (contents (heap w) la) d).
Proof.
  intros Hinv Hf Hp Hc Hla d sid Hd.
  destruct (save_run e u w f la Hinv Hf Hp Hc Hla) as (more & shown & Hshown & Hrun).
  fold d sid in Hrun. rewrite Hrun. clear Hrun.
  set (W := World (set_description d (session w)) (heap w ++ more)
                  (swatch_metadata w) shown).
  destruct (inv_accepted _ _ Hinv la Hla)
    as (Hlt & _ & ld & u0 & chosen & _ & _ & _ & _ & _ & Hcont).
  assert (HcW : contents (heap W) la = contents (heap w) la)
    by (apply contents_app_l, Hlt).
  assert (HdW : strip (description (session W)) ≠ "") by exact Hd.
  assert (Hpay : save_payload sid f (contents (heap W) la) (description (session W))
                 = Ok (snapshot_payload sid f (contents (heap w) la) d)).
  { rewrite HcW, Hcont. apply save_payload_final. }
  split.
  { pose proof (save_button_frame e sid f la W) as [H _]. exact H. }
  destruct (desc_based_on_meta (session w)) as [basis|] eqn:Eb.
  - destruct (decide (basis = fingerprint (contents (heap w) la))) as [Heq|Hne].
    + assert (Hagree : basis_agrees W la).
      { unfold basis_agrees. cbn [W session set_description desc_based_on_meta].
        rewrite Eb, HcW. exact Heq. }
      assert (Hagree' : basis_agrees w la)
        by (unfold basis_agrees; rewrite Eb; exact Heq).
      rewrite (save_button_pass e sid f la W _ HdW Hagree Hpay).
      unfold saved. cbn [snd W swatch_metadata out session heap].
      destruct (upsert_swatch _ _ _ _) as [t|ex] eqn:Eu.
      * eapply save_stored; eauto.
      * eapply save_store_failed; eauto.
    + rewrite (save_button_stale e sid f la W basis HdW).
      * eapply save_refused_stale; eauto.
      * cbn [W session set_description desc_based_on_meta]. exact Eb.
      * rewrite HcW. exact Hne.
  - assert (Hagree : basis_agrees W la).
    { unfold basis_agrees. cbn [W session set_description desc_based_on_meta].
      rewrite Eb. exact I. }
    assert (Hagree' : basis_agrees w la)
      by (unfold basis_agrees; rewrite Eb; exact I).
    rewrite (save_button_pass e sid f la W _ HdW Hagree Hpay).
    unfold saved. cbn [snd W swatch_metadata out session heap].
    destruct (upsert_swatch _ _ _ _) as [t|ex] eqn:Eu.
    + eapply save_stored; eauto.
    + eapply save_store_failed; eauto.
Qed.

Lemma upserts_stored (shown : list effect) (payload : dict) (x : effect) :
  upserts shown = [] -> is_upsert x = false ->
  upserts (shown ++ [Upsert payload; x]) = [Upsert payload].
Proof.
  intros Hs Hx. unfold upserts in *. rewrite filter_app, Hs.
  rewrite filter_cons_True by reflexivity.
  rewrite filter_cons_False by (rewrite Hx; discriminate). reflexivity.
Qed.

Lemma upserts_refused (shown : list effect) (x : effect) :
  upserts shown = [] -> is_upsert x = false -> upserts (shown ++ [x]) = [].
Proof.
  intros Hs Hx. unfold upserts in *. rewrite filter_app, Hs.
  rewrite filter_cons_False by (rewrite Hx; discriminate). reflexivity.
Qed.

Lemma save_outcome_agreeing (e : env) (w w' : world) (la : loc) (payload : dict) :
  basis_agrees w la -> save_outcome e w w' la payload ->
  upserts (out w') = [Upsert payload].
Proof.
  intros Hb [basis shown Eb Hne _ _ _|shown t _ Hs _ -> _|shown ex _ Hs _ -> _].
  - unfold basis_agrees in Hb. rewrite Eb in Hb. contradiction.
  - apply upserts_stored; [exact Hs|reflexivity].
  - apply upserts_stored; [exact Hs|reflexivity].
Qed.

Lemma save_outcome_stale (e : env) (w w' : world) (la : loc) (payload : dict) basis :
  desc_based_on_meta (session w) = Some basis ->
  basis ≠ fingerprint (contents (heap w) la) ->
  save_outcome e w w' la payload ->
  last (out w') = Some (StWarning stale_basis_text)
  ∧ upserts (out w') = []
  ∧ swatch_metadata w' = swatch_metadata w.
Proof.
  intros Eb Hne [basis' shown _ _ Hs -> Ht|shown t Hb _ _ _ _|shown ex Hb _ _ _ _].
  - split; [apply last_snoc|]. split; [|exact Ht].
    apply upserts_refused; [exact Hs|reflexivity].
  - unfold basis_agrees in Hb. rewrite Eb in Hb. contradiction.
  - unfold basis_agrees in Hb. rewrite Eb in Hb. contradiction.
Qed.

(** C1.  In a reachable world with an accepted snapshot, a description basis
    and a description that is not blank, a Save click is decided by the
    fingerprint of the snapshot.  If it differs from the basis, the run ends
    with the warning to regenerate the description, calls [upsert_swatch]
    not at all and leaves the table alone.  If it equals the basis, the run
    calls [upsert_swatch] exactly once, the snapshot, the basis and the
    description stay in the session, and a further Save click calls
    [upsert_swatch] again. *)
Theorem save_gated_by_fingerprint
    (e : env) (u : ui) (w : world) (f : string) (la : loc) (basis : string) :
  reachable w -> ui_ok u ->
  uploaded u = Some f ->
  pressed u = Some BtnSave ->
  on_change u = false ->
  accepted_meta (session w) = Some la ->
  desc_based_on_meta (session w) = Some basis ->
  let d := text_area (description (session w)) (description_typed u) in
  strip d ≠ "" ->
  let w' := rerun e u w in
  (basis ≠ fingerprint (contents (heap w) la) ->
     last (out w') = Some (StWarning stale_basis_text)
     ∧ upserts (out w') = []
     ∧ swatch_metadata w' = swatch_metadata w)
  ∧ (basis = fingerprint (contents (heap w) la) ->
     (∃ payload, upserts (out w') = [Upsert payload])
     ∧ accepted_meta (session w') = Some la
     ∧ desc_based_on_meta (session w') = Some basis
     ∧ description (session w') = d
     ∧ ∀ e2 u2 f2,
         uploaded u2 = Some f2 -> pressed u2 = Some BtnSave ->
         on_change u2 = false -> description_typed u2 = None ->
         ∃ payload2, upserts (out (rerun e2 u2 w')) = [Upsert payload2]).
Proof.
  intros Hreach Hu Hf Hp Hc Hla Hb d Hd w'.
  pose proof (reachable_invariant w Hreach) as Hinv.
  destruct (save_click e u w f la Hinv Hf Hp Hc Hla Hd) as [Hsess Hout].
  fold d w' in Hsess, Hout.
  split.
  - intros Hne. eapply save_outcome_stale; eauto.
  - intros Heq.
    assert (Hagree : basis_agrees w la)
      by (unfold basis_agrees; rewrite Hb; exact Heq).
    split; [eexists; eapply save_outcome_agreeing; eauto|].
    rewrite Hsess. cbn [set_description accepted_meta desc_based_on_meta description].
    split; [exact Hla|]. split; [exact Hb|]. split; [reflexivity|].
    intros e2 u2 f2 Hf2 Hp2 Hc2 Ht2.
    assert (Hinv' : invariant w') by (apply rerun_invariant; assumption).
    assert (Hla' : accepted_meta (session w') = Some la) by (rewrite Hsess; exact Hla).
    assert (Hd' : strip (text_area (description (session w')) (description_typed u2))
                  ≠ "").
    { rewrite Ht2, Hsess. exact Hd. }
    destruct (save_click e2 u2 w' f2 la Hinv' Hf2 Hp2 Hc2 Hla' Hd') as [_ Hout2].
    eexists. eapply save_outcome_agreeing; [|exact Hout2].
    unfold basis_agrees. rewrite Hsess.
    cbn [set_description desc_based_on_meta]. rewrite Hb.
    rewrite (prefix_contents (heap w) (heap w') la);
      [exact Heq|apply rerun_heap_prefix|].
    apply (inv_accepted _ _ Hinv la Hla).
Qed.

(* ------------------------------------------------------------------ *)
(** ** The default swatch id *)

Lemma append_nil_r (s : string) : s +:+ "" = s.
Proof. induction s as [|a s IH]; [reflexivity|]. change (String a (s +:+ "") = String a s). congruence. Qed.

Lemma substring_all (s : string) : substring 0 (String.length s) s = s.
Proof. induction s as [|a s IH]; cbn; congruence. Qed.

Lemma substring_nil (n : nat) (s : string) : substring n 0 s = ""%string.
Proof. revert n. induction s as [|a s IH]; intros [|n]; cbn; auto. Qed.

Lemma substring_split (s : string) (n : nat) :
  (n <= String.length s)%nat ->
  substring 0 n s +:+ substring n (String.length s - n) s = s.
Proof.
  revert n. induction s as [|a s IH]; intros n Hn.
  - cbn in Hn. assert (n = 0%nat) as -> by lia. reflexivity.
  - destruct n as [|n].
    + rewrite substring_nil, Nat.sub_0_r. apply substring_all.
    + cbn [substring String.length Nat.sub].
      change (String a (substring 0 n s +:+ substring n (String.length s - n) s)
              = String a s).
      f_equal. apply IH. cbn in Hn. lia.
Qed.

Lemma get_Some_lt (s : string) (n : nat) (c : ascii) :
  String.get n s = Some c -> (n < String.length s)%nat.
Proof.
  revert n. induction s as [|a s IH]; intros n; [destruct n; discriminate|].
  destruct n as [|n]; cbn; [lia|]. intros H. apply IH in H. lia.
Qed.

Lemma get_lt_Some (s : string) (n : nat) :
  (n < String.length s)%nat -> ∃ c, String.get n s = Some c.
Proof.
  revert n. induction s as [|a s IH]; intros n Hn; [cbn in Hn; lia|].
  destruct n as [|n]; cbn; [eauto|]. apply IH. cbn in Hn. lia.
Qed.

(** The greatest index that holds [c] is what [str_rfind] returns. *)
Lemma str_rfind_unique (s : string) (c : ascii) (i : nat) :
  String.get i s = Some c ->
  (∀ n, (i < n)%nat -> String.get n s ≠ Some c) ->
  str_rfind s c = Z.of_nat i.
Proof.
  intros Hi Hafter.
  destruct (str_rfind_spec s c) as [[_ Hnone]|(H0 & Hget & Hlast)].
  - exfalso. exact (Hnone i Hi).
  - destruct (Nat.lt_trichotomy i (Z.to_nat (str_rfind s c))) as [Hlt|[Heq|Hgt]].
    + exfalso. exact (Hafter _ Hlt Hget).
    + lia.
    + exfalso. exact (Hlast _ Hgt Hi).
Qed.

Lemma str_rfind_lacks (s : string) (c : ascii) : lacks s c -> str_rfind s c = -1.
Proof.
  intros Hs. destruct (str_rfind_spec s c) as [[H _]|(_ & Hget & _)]; [exact H|].
  exfalso. exact (Hs _ Hget).
Qed.

(** [os.path.splitext] cuts the name in two parts that make up the name. *)
Lemma str_rfind_range (s : string) (c : ascii) :
  -1 <= str_rfind s c < Z.of_nat (String.length s).
Proof.
  destruct (str_rfind_spec s c) as [[-> _]|(H0 & Hget & _)]; [lia|].
  apply get_Some_lt in Hget. lia.
Qed.

Lemma splitext_join (p : string) : (splitext p).1 +:+ (splitext p).2 = p.
Proof.
  unfold splitext.
  destruct (str_rfind p "/" <? str_rfind p ".") eqn:Hlt; cbn [andb];
    [|cbn [fst snd]; apply append_nil_r].
  destruct (existsb _ _); [|cbn [fst snd]; apply append_nil_r].
  cbn [fst snd]. unfold slice, str_len. apply Z.ltb_lt in Hlt.
  pose proof (str_rfind_range p "/"%char).
  pose proof (str_rfind_range p "."%char).
  rewrite Z.sub_0_r.
  replace (Z.to_nat (Z.of_nat (String.length p) - str_rfind p "."))
    with (String.length p - Z.to_nat (str_rfind p "."))%nat by lia.
  apply substring_split. lia.
Qed.

(** The first part is empty only for the empty name. *)
Lemma splitext_root_empty (p : string) : (splitext p).1 = ""%string -> p = ""%string.
Proof.
  unfold splitext.
  destruct (str_rfind p "/" <? str_rfind p ".") eqn:Hlt; cbn [andb];
    [|cbn; auto].
  destruct (existsb _ _) eqn:Hex; [|cbn; auto].
  cbn [fst]. apply Z.ltb_lt in Hlt.
  unfold slice in *.
  destruct (str_rfind_spec p "/"%char) as [[Es _]|(Hs0 & _)];
  destruct (str_rfind_spec p "."%char) as [[Ed _]|(Hd0 & Hget & _)]; try lia.
  - (* no separator *)
    rewrite Es in Hex.
    destruct (Z.to_nat (str_rfind p "." - 0)) as [|k] eqn:Ek.
    + replace (str_rfind p "." - (-1 + 1)) with (str_rfind p "." - 0) in Hex by lia.
      rewrite Ek, substring_nil in Hex. discriminate Hex.
    + destruct p; [destruct (Z.to_nat (str_rfind "" ".")); discriminate Hget|].
      discriminate.
  - destruct (Z.to_nat (str_rfind p "." - 0)) as [|k] eqn:Ek; [lia|].
    destruct p; [destruct (Z.to_nat (str_rfind "" ".")); discriminate Hget|].
    discriminate.
Qed.

Lemma get_chars (s : string) (n : nat) (c : ascii) :
  String.get n s = Some c -> In c (chars s).
Proof.
  revert n. induction s as [|a s IH]; intros [|n]; cbn; try discriminate.
  - intros [= ->]. auto.
  - intros H. right. exact (IH n H).
Qed.

(** A text lacks a character that is none of its characters. *)
Lemma lacks_chars (s : string) (c : ascii) :
  forallb (fun x => negb (Ascii.eqb x c)) (chars s) = true -> lacks s c.
Proof.
  intros H n Hget. apply get_chars in Hget.
  rewrite forallb_forall in H. specialize (H c Hget).
  rewrite Ascii.eqb_refl in H. discriminate H.
Qed.

Lemma substring_append_l (s t : string) :
  substring 0 (String.length s) (s +:+ t) = s.
Proof.
  induction s as [|a s IH]; [apply substring_nil|].
  cbn [String.length]. change (String a s +:+ t) with (String a (s +:+ t)).
  cbn [substring]. congruence.
Qed.

Lemma length_append (s t : string) :
  String.length (s +:+ t) = (String.length s + String.length t)%nat.
Proof.
  induction s as [|a s IH]; [reflexivity|].
  change (String a s +:+ t) with (String a (s +:+ t)). cbn. congruence.
Qed.

Lemma get_append_r (s t : string) (n : nat) :
  String.get (String.length s + n) (s +:+ t) = String.get n t.
Proof.
  rewrite Nat.add_comm. symmetry. apply append_correct2.
Qed.

Lemma get_append_l (s t : string) (n : nat) :
  (n < String.length s)%nat -> String.get n (s +:+ t) = String.get n s.
Proof. intros H. symmetry. apply append_correct1, H. Qed.

(** The two parts of a bare file name [stem.ext]. *)
Lemma splitext_stem (stem ext : string) :
  lacks stem "/"%char -> has_other_than stem "."%char ->
  lacks ext "."%char -> lacks ext "/"%char ->
  splitext (stem +:+ String "."%char ext) = (stem, String "."%char ext).
Proof.
  intros Hsep (n0 & x & Hx & Hdot) Hext1 Hext2.
  set (p := stem +:+ String "."%char ext).
  assert (Hd : str_rfind p "."%char = Z.of_nat (String.length stem)).
  { apply str_rfind_unique.
    - subst p. rewrite <- (Nat.add_0_r (String.length stem)), get_append_r.
      reflexivity.
    - intros n Hn. subst p.
      replace n with (String.length stem + S (n - S (String.length stem)))%nat by lia.
      rewrite get_append_r. cbn [String.get]. apply Hext1. }
  assert (Hs : str_rfind p "/"%char = -1).
  { apply str_rfind_lacks. intros n. subst p.
    destruct (Nat.lt_ge_cases n (String.length stem)) as [Hn|Hn].
    - rewrite get_append_l by exact Hn. apply Hsep.
    - replace n with (String.length stem + (n - String.length stem))%nat by lia.
      rewrite get_append_r.
      destruct (n - String.length stem)%nat as [|m]; cbn [String.get];
        [discriminate|apply Hext2]. }
  assert (Hroot : slice p 0 (Z.of_nat (String.length stem)) = stem).
  { unfold slice. rewrite Z.sub_0_r, Nat2Z.id. apply substring_append_l. }
  pose proof (splitext_join p) as Hjoin.
  unfold splitext in Hjoin |- *. rewrite Hd, Hs in Hjoin |- *.
  replace (-1 + 1) with 0 in Hjoin |- * by lia. rewrite Hroot in Hjoin |- *.
  assert (Hex : existsb (fun c => negb (Ascii.eqb c "."%char)) (chars stem) = true).
  { apply existsb_exists. exists x. split; [eapply get_chars, Hx|].
    apply negb_true_iff, Ascii.eqb_neq, Hdot. }
  rewrite Hex in Hjoin |- *.
  assert (Hlt : (-1 <? Z.of_nat (String.length stem)) = true) by (apply Z.ltb_lt; lia).
  rewrite Hlt in Hjoin |- *. cbn [andb fst snd] in Hjoin |- *.
  f_equal. subst p. eapply String.app_inj, Hjoin.
Qed.

Lemma splitext_plain (p : string) :
  lacks p "."%char -> splitext p = (p, "").
Proof.
  intros H. unfold splitext. rewrite (str_rfind_lacks p "."%char H).
  pose proof (str_rfind_range p "/"%char) as Hr.
  destruct (str_rfind p "/"%char <? -1) eqn:E; [|reflexivity].
  apply Z.ltb_lt in E. lia.
Qed.

Lemma only_dots (stem : string) :
  ¬ has_other_than stem "."%char ->
  existsb (fun c => negb (Ascii.eqb c "."%char)) (chars stem) = false.
Proof.
  induction stem as [|a stem IH]; intros H; [reflexivity|].
  change (chars (String a stem)) with (a :: chars stem). cbn [existsb].
  destruct (Ascii.eqb a "."%char) eqn:E.
  - cbn [negb orb]. apply IH. intros (n & x & Hx & Hne).
    apply H. exists (S n), x. split; [exact Hx|exact Hne].
  - exfalso. apply H. exists 0%nat, a. split; [reflexivity|].
    apply Ascii.eqb_neq, E.
Qed.

(** Leading dots are not an extension. *)
Lemma splitext_dots (stem ext : string) :
  ¬ has_other_than stem "."%char ->
  lacks ext "."%char -> lacks ext "/"%char ->
  splitext (stem +:+ String "."%char ext) = (stem +:+ String "."%char ext, "").
Proof.
  intros Hdots Hext1 Hext2.
  set (p := stem +:+ String "."%char ext).
  assert (Hsep : lacks stem "/"%char).
  { intros n Hn. apply Hdots. exists n, "/"%char. split; [exact Hn|discriminate]. }
  assert (Hd : str_rfind p "."%char = Z.of_nat (String.length stem)).
  { apply str_rfind_unique.
    - subst p. rewrite <- (Nat.add_0_r (String.length stem)), get_append_r.
      reflexivity.
    - intros n Hn. subst p.
      replace n with (String.length stem + S (n - S (String.length stem)))%nat by lia.
      rewrite get_append_r. cbn [String.get]. apply Hext1. }
  assert (Hs : str_rfind p "/"%char = -1).
  { apply str_rfind_lacks. intros n. subst p.
    destruct (Nat.lt_ge_cases n (String.length stem)) as [Hn|Hn].
    - rewrite get_append_l by exact Hn. apply Hsep.
    - replace n with (String.length stem + (n - String.length stem))%nat by lia.
      rewrite get_append_r.
      destruct (n - String.length stem)%nat as [|m]; cbn [String.get];
        [discriminate|apply Hext2]. }
  assert (Hroot : slice p 0 (Z.of_nat (String.length stem)) = stem).
  { unfold slice. rewrite Z.sub_0_r, Nat2Z.id. apply substring_append_l. }
  unfold splitext. rewrite Hd, Hs.
  replace (-1 + 1) with 0 by lia. rewrite Hroot, (only_dots stem Hdots).
  rewrite andb_false_r. reflexivity.
Qed.

(** X3.  For an uploaded file with a name, the swatch id is never the empty
    text: it is the stripped input when that is not blank, and else the file
    name without its extension, which is empty only for the empty name. *)
Theorem swatch_id_not_empty (swatch_id_input filename : string) :
  filename ≠ "" -> swatch_id_of swatch_id_input filename ≠ "".
Proof.
  intros Hf. unfold swatch_id_of.
  destruct (strip swatch_id_input) eqn:E; cbn [str_is_empty negb].
  - intros H. apply Hf, splitext_root_empty, H.
  - discriminate.
Qed.

(** X4.  With a blank ID input, the swatch id of a bare file name [stem.ext]
    is [stem]: two uploads that differ in the extension only get the same
    id, so saving the second overwrites the row of the first. *)
Theorem default_id_drops_extension (swatch_id_input stem ext : string) :
  strip swatch_id_input = "" ->
  lacks stem "/"%char -> has_other_than stem "."%char ->
  lacks ext "."%char -> lacks ext "/"%char ->
  swatch_id_of swatch_id_input (stem +:+ String "."%char ext) = stem.
Proof.
  intros Hblank H1 H2 H3 H4. unfold swatch_id_of. rewrite Hblank.
  cbn [str_is_empty negb]. rewrite splitext_stem by assumption. reflexivity.
Qed.

(* ------------------------------------------------------------------ *)
(** ** What is stored *)

Lemma lstrip_first (s : string) (c : ascii) :
  first_char (lstrip s) = Some c -> isspace c = false.
Proof.
  induction s as [|a s IH]; cbn [lstrip]; [discriminate|].
  destruct (isspace a) eqn:Ea; [exact IH|].
  cbn. intros [= <-]. exact Ea.
Qed.

Lemma rstrip_first (s : string) (c : ascii) :
  first_char (rstrip s) = Some c -> first_char s = Some c.
Proof.
  destruct s as [|a s]; cbn [rstrip]; [discriminate|].
  destruct (rstrip s); [destruct (isspace a); [discriminate|]|]; cbn; auto.
Qed.

Lemma rstrip_last (s : string) (c : ascii) :
  last_char (rstrip s) = Some c -> isspace c = false.
Proof.
  induction s as [|a s IH]; cbn [rstrip]; [discriminate|].
  destruct (rstrip s) as [|b r] eqn:Er.
  - destruct (isspace a) eqn:Ea; [discriminate|].
    cbn. intros [= <-]. exact Ea.
  - cbn [last_char] in *. destruct (last_char r); exact IH.
Qed.

Lemma strip_trimmed (s : string) : trimmed (strip s).
Proof.
  unfold strip. split.
  - intros c Hc. apply rstrip_first in Hc. eapply lstrip_first, Hc.
  - apply rstrip_last.
Qed.

(** C10.  In a reachable world, a Save click that passes both checks calls
    [upsert_swatch] once, with a dictionary whose five metadata fields are
    read from the accepted snapshot, whose description is the session's
    description stripped (so it has no white space at either end), whose
    [image_filename] is the uploaded file's name and whose [swatch_id] is the
    stripped ID input, or the file name without its extension when that is
    blank: [stem] for a file named [stem.ext], and the whole name when it
    has no dot or nothing but dots before its last dot.  When the store does
    not fail, the stored row carries that dictionary. *)
Theorem saved_row_comes_from_snapshot
    (e : env) (u : ui) (w : world) (f : string) (la : loc) :
  reachable w ->
  uploaded u = Some f ->
  pressed u = Some BtnSave ->
  on_change u = false ->
  accepted_meta (session w) = Some la ->
  let d := text_area (description (session w)) (description_typed u) in
  let sid := swatch_id_of (swatch_id_input u) f in
  let acc := contents (heap w) la in
  strip d ≠ "" ->
  basis_agrees w la ->
  let w' := rerun e u w in
  ∃ payload,
    upserts (out w') = [Upsert payload]
    ∧ (∀ k, k ∈ defaults.*1 -> dict_lookup payload k = dict_lookup acc k)
    ∧ dict_lookup payload "description" = Some (VStr (strip d))
    ∧ trimmed (strip d)
    ∧ dict_lookup payload "image_filename" = Some (VStr f)
    ∧ dict_lookup payload "swatch_id" = Some (VStr sid)
    ∧ sid = (if str_is_empty (strip (swatch_id_input u))
             then (splitext f).1 else strip (swatch_id_input u))
    ∧ (strip (swatch_id_input u) = "" ->
       (∀ stem ext,
          f = stem +:+ String "."%char ext ->
          lacks stem "/"%char -> has_other_than stem "."%char ->
          lacks ext "."%char -> lacks ext "/"%char ->
          sid = stem)
       ∧ (∀ dots ext,
            f = dots +:+ String "."%char ext ->
            ¬ has_other_than dots "."%char ->
            lacks ext "."%char -> lacks ext "/"%char ->
            sid = f)
       ∧ (lacks f "."%char -> sid = f))
    ∧ (db_fault e = None ->
       ∃ r, swatch_metadata w' !! sid = Some r ∧ carries r payload (now e)).
Proof.
  intros Hreach Hf Hp Hc Hla d sid acc Hd Hb w'.
  pose proof (reachable_invariant w Hreach) as Hinv.
  destruct (save_click e u w f la Hinv Hf Hp Hc Hla Hd) as [Hsess Hout].
  fold d sid acc w' in Hsess, Hout.
  exists (snapshot_payload sid f acc d).
  split; [eapply save_outcome_agreeing; eauto|].
  destruct (inv_accepted _ _ Hinv la Hla)
    as (_ & _ & ld & u0 & chosen & _ & _ & _ & _ & _ & Hcont).
  fold acc in Hcont.
  split.
  { intros k Hk. rewrite Hcont. cbn in Hk.
    repeat (apply elem_of_cons in Hk as [->|Hk]);
      [ .. | apply elem_of_nil in Hk; contradiction ]; reflexivity. }
  split; [reflexivity|]. split; [apply strip_trimmed|].
  split; [reflexivity|]. split; [reflexivity|].
  split.
  { subst sid. unfold swatch_id_of.
    destruct (str_is_empty (strip (swatch_id_input u))); reflexivity. }
  split.
  { intros Hblank. subst sid. unfold swatch_id_of. rewrite Hblank.
    cbn [str_is_empty negb]. split.
    - intros stem ext -> H1 H2 H3 H4.
      rewrite splitext_stem by assumption. reflexivity.
    - split.
      + intros dots ext -> H1 H2 H3.
        rewrite splitext_dots by assumption. reflexivity.
      + intros Hdot. rewrite splitext_plain by exact Hdot. reflexivity. }
  intros Hfault.
  assert (Hkeys : has_required_keys (snapshot_payload sid f acc d) sid).
  { rewrite Hcont. repeat split; cbn; eauto. }
  destruct (upsert_swatch_row (now e) _ sid (swatch_metadata w) Hkeys)
    as (r & Hup & Hcarries).
  exists r. split; [|exact Hcarries].
  destruct Hout as [basis shown Eb Hne _ _ _|shown t _ _ Hu _ ->|shown ex _ _ Hu _ _].
  - unfold basis_agrees in Hb. rewrite Eb in Hb. contradiction.
  - rewrite Hfault, Hup in Hu. injection Hu as <-. apply lookup_insert_eq.
  - rewrite Hfault, Hup in Hu. discriminate Hu.
Qed.

(* ------------------------------------------------------------------ *)
(** ** The image sent to the vision model *)

Lemma below_forall (P : N -> bool) (k : nat) :
  forallb P (map N.of_nat (seq 0 k)) = true ->
  ∀ n, (n < N.of_nat k)%N -> P n = true.
Proof.
  intros H n Hn. rewrite forallb_forall in H. apply H.
  apply in_map_iff. exists (N.to_nat n). split; [lia|]. apply in_seq. lia.
Qed.

Lemma byte_forall (P : N -> bool) :
  forallb P (map N.of_nat (seq 0 256)) = true -> ∀ a, P (Byte.to_N a) = true.
Proof.
  intros H a. apply (below_forall P 256 H).
  pose proof (Byte.to_N_bounded a). lia.
Qed.

Lemma byte_forall2 (P : N -> N -> bool) :
  forallb (fun a => forallb (P a) (map N.of_nat (seq 0 256)))
          (map N.of_nat (seq 0 256)) = true ->
  ∀ a b, P (Byte.to_N a) (Byte.to_N b) = true.
Proof.
  intros H a b.
  apply (byte_forall (P (Byte.to_N a))).
  exact (byte_forall (fun a => forallb (P a) (map N.of_nat (seq 0 256))) H a).
Qed.

Lemma same_group_eq x n : same_group x n = true -> x = Some n.
Proof. destruct x as [m|]; cbn; [|discriminate]. intros ->%N.eqb_eq. reflexivity. Qed.

(** A six-bit group is found again from its character, which is not the
    padding character. *)
Lemma b64_index_char (n : N) :
  (n < 64)%N ->
  b64_index (b64_char n) = Some n ∧ Ascii.eqb (b64_char n) "="%char = false.
Proof.
  intros Hn.
  pose proof (below_forall
    (fun n => same_group (b64_index (b64_char n)) n
              && negb (Ascii.eqb (b64_char n) "="%char)) 64
    ltac:(vm_compute; reflexivity) n Hn) as H.
  cbv beta in H. apply andb_prop in H as [H1 H2].
  split; [apply same_group_eq, H1|apply negb_true_iff, H2].
Qed.

Lemma group_bounds (a b : Byte.byte) :
  let x := Byte.to_N a in
  let y := Byte.to_N b in
  (N.shiftr x 2 < 64
   ∧ N.shiftl (N.land x 3) 4 < 64
   ∧ N.lor (N.shiftl (N.land x 3) 4) (N.shiftr y 4) < 64
   ∧ N.shiftl (N.land x 15) 2 < 64
   ∧ N.lor (N.shiftl (N.land x 15) 2) (N.shiftr y 6) < 64
   ∧ N.land x 63 < 64)%N.
Proof.
  pose proof (byte_forall2
    (fun x y =>
       (N.shiftr x 2 <? 64) && (N.shiftl (N.land x 3) 4 <? 64)
       && (N.lor (N.shiftl (N.land x 3) 4) (N.shiftr y 4) <? 64)
       && (N.shiftl (N.land x 15) 2 <? 64)
       && (N.lor (N.shiftl (N.land x 15) 2) (N.shiftr y 6) <? 64)
       && (N.land x 63 <? 64))%N
    ltac:(vm_compute; reflexivity) a b) as H.
  cbv beta in H.
  repeat (apply andb_prop in H as [H ?]).
  repeat match goal with H : (_ <? _)%N = true |- _ => apply N.ltb_lt in H end.
  cbv zeta. auto 10.
Qed.

Lemma groups_give_bytes (a b : Byte.byte) :
  let x := Byte.to_N a in
  let y := Byte.to_N b in
  (N.lor (N.shiftl (N.shiftr x 2) 2) (N.shiftr (N.shiftl (N.land x 3) 4) 4) = x
   ∧ N.lor (N.shiftl (N.shiftr x 2) 2)
           (N.shiftr (N.lor (N.shiftl (N.land x 3) 4) (N.shiftr y 4)) 4) = x
   ∧ N.land (N.lor (N.shiftl (N.land x 3) 4) (N.shiftr y 4)) 15 = N.shiftr y 4
   ∧ N.lor (N.shiftl (N.shiftr x 4) 4) (N.shiftr (N.shiftl (N.land x 15) 2) 2) = x
   ∧ N.lor (N.shiftl (N.shiftr x 4) 4)
           (N.shiftr (N.lor (N.shiftl (N.land x 15) 2) (N.shiftr y 6)) 2) = x
   ∧ N.lor (N.shiftl (N.land (N.lor (N.shiftl (N.land x 15) 2) (N.shiftr y 6)) 3) 6)
           (N.land y 63) = y)%N.
Proof.
  pose proof (byte_forall2
    (fun x y =>
       (N.lor (N.shiftl (N.shiftr x 2) 2) (N.shiftr (N.shiftl (N.land x 3) 4) 4) =? x)
       && (N.lor (N.shiftl (N.shiftr x 2) 2)
                 (N.shiftr (N.lor (N.shiftl (N.land x 3) 4) (N.shiftr y 4)) 4) =? x)
       && (N.land (N.lor (N.shiftl (N.land x 3) 4) (N.shiftr y 4)) 15 =? N.shiftr y 4)
       && (N.lor (N.shiftl (N.shiftr x 4) 4)
                 (N.shiftr (N.shiftl (N.land x 15) 2) 2) =? x)
       && (N.lor (N.shiftl (N.shiftr x 4) 4)
                 (N.shiftr (N.lor (N.shiftl (N.land x 15) 2) (N.shiftr y 6)) 2) =? x)
       && (N.lor (N.shiftl (N.land (N.lor (N.shiftl (N.land x 15) 2) (N.shiftr y 6)) 3) 6)
                 (N.land y 63) =? y))%N
    ltac:(vm_compute; reflexivity) a b) as H.
  cbv beta in H.
  repeat (apply andb_prop in H as [H ?]).
  repeat match goal with H : (_ =? _)%N = true |- _ => apply N.eqb_eq in H end.
  cbv zeta. auto 10.
Qed.

Lemma b64decode_encode (bs : list Byte.byte) : b64decode (b64encode bs) = Some bs.
Proof.
  assert (H : ∀ n bs, (length bs <= n)%nat -> b64decode (b64encode bs) = Some bs).
  { clear bs. induction n as [|n IH]; intros bs Hn.
    - destruct bs; [reflexivity|cbn in Hn; lia].
    - destruct bs as [|a [|b [|c rest]]]; [reflexivity| | |].
      + pose proof (group_bounds a a) as (B0 & B1 & _).
        pose proof (groups_give_bytes a a) as (G0 & _).
        cbn [b64encode b64decode].
        destruct (b64_index_char _ B0) as [-> _].
        destruct (b64_index_char _ B1) as [-> _].
        cbn [mbind option_bind]. rewrite G0, Byte.of_to_N. reflexivity.
      + pose proof (group_bounds a b) as (B0 & _ & B1 & _).
        pose proof (group_bounds b b) as (_ & _ & _ & B2 & _).
        pose proof (groups_give_bytes a b) as (_ & G0 & G1 & _).
        pose proof (groups_give_bytes b b) as (_ & _ & _ & G2 & _).
        cbn [b64encode b64decode].
        destruct (b64_index_char _ B0) as [-> _].
        destruct (b64_index_char _ B1) as [-> _].
        destruct (b64_index_char _ B2) as [-> ->].
        cbn [mbind option_bind]. rewrite G0, Byte.of_to_N.
        cbn [mbind option_bind]. rewrite G1, G2, Byte.of_to_N. reflexivity.
      + pose proof (group_bounds a b) as (B0 & _ & B1 & _).
        pose proof (group_bounds b c) as (_ & _ & _ & _ & B2 & _).
        pose proof (group_bounds c c) as (_ & _ & _ & _ & _ & B3).
        pose proof (groups_give_bytes a b) as (_ & G0 & G1 & _).
        pose proof (groups_give_bytes b c) as (_ & _ & _ & _ & G2 & G3).
        cbn [b64encode b64decode].
        destruct (b64_index_char _ B0) as [-> _].
        destruct (b64_index_char _ B1) as [-> _].
        destruct (b64_index_char _ B2) as [-> ->].
        destruct (b64_index_char _ B3) as [-> ->].
        cbn [mbind option_bind]. rewrite G0, Byte.of_to_N.
        cbn [mbind option_bind]. rewrite G1, G2, Byte.of_to_N.
        cbn [mbind option_bind]. rewrite G3, Byte.of_to_N.
        cbn [mbind option_bind]. rewrite IH by (cbn in Hn; lia). reflexivity. }
  apply (H (length bs)). lia.
Qed.

(** X1.  Two images with the same encoding are the same bytes: the text
    sent to the vision model determines the image. *)
Theorem b64_image_injective (a b : list Byte.byte) :
  _b64_image a = _b64_image b -> a = b.
Proof.
  unfold _b64_image. intros H.
  pose proof (b64decode_encode a) as Ha. rewrite H, b64decode_encode in Ha.
  congruence.
Qed.

Lemma b64_char_ok (n : N) : (n < 64)%N -> is_b64_char (b64_char n) = true.
Proof.
  intros Hn. unfold is_b64_char. destruct (b64_index_char n Hn) as [-> _].
  rewrite bool_decide_eq_true_2 by eauto. reflexivity.
Qed.

(** X2.  The encoding of an image of [n] bytes has [4 * ceil(n / 3)]
    characters, each a letter, a digit, [+], [/] or the padding [=]: it is
    ASCII, so decoding it as UTF-8 cannot fail. *)
Theorem b64_image_shape (image_bytes : list Byte.byte) :
  String.length (_b64_image image_bytes)
  = (4 * ((length image_bytes + 2) / 3))%nat
  ∧ forallb is_b64_char (chars (_b64_image image_bytes)) = true.
Proof.
  unfold _b64_image.
  assert (H : ∀ n bs, (length bs <= n)%nat ->
            String.length (b64encode bs) = (4 * ((length bs + 2) / 3))%nat
            ∧ forallb is_b64_char (chars (b64encode bs)) = true).
  { induction n as [|n IH]; intros bs Hn.
    - destruct bs; [split; reflexivity|cbn in Hn; lia].
    - destruct bs as [|a [|b [|c rest]]]; [split; reflexivity| | |].
      + pose proof (group_bounds a a) as (B0 & B1 & _).
        split; [reflexivity|].
        cbn [b64encode chars list_ascii_of_string forallb].
        rewrite !b64_char_ok by assumption. reflexivity.
      + pose proof (group_bounds a b) as (B0 & _ & B1 & _).
        pose proof (group_bounds b b) as (_ & _ & _ & B2 & _).
        split; [reflexivity|].
        cbn [b64encode chars list_ascii_of_string forallb].
        rewrite !b64_char_ok by assumption. reflexivity.
      + pose proof (group_bounds a b) as (B0 & _ & B1 & _).
        pose proof (group_bounds b c) as (_ & _ & _ & _ & B2 & _).
        pose proof (group_bounds c c) as (_ & _ & _ & _ & _ & B3).
        destruct (IH rest ltac:(cbn in Hn; lia)) as [IHl IHc].
        split.
        * cbn [b64encode String.length length]. rewrite IHl.
          replace (S (S (S (length rest))) + 2)%nat with (length rest + 2 + 1 * 3)%nat by lia.
          rewrite Nat.div_add by lia. lia.
        * cbn [b64encode chars list_ascii_of_string forallb].
          rewrite !b64_char_ok by assumption. exact IHc. }
  apply (H (length image_bytes)). lia.
Qed.

(* ------------------------------------------------------------------ *)
(** ** The option lists *)

Lemma elem_of_unique (l : list string) (s : string) : s ∈ unique l ↔ s ∈ l.
Proof.
  clear json_loads.
  induction l as [|x l IH]; cbn [unique]; [reflexivity|].
  rewrite !elem_of_cons, list_elem_of_filter, IH.
  destruct (decide (s = x)); naive_solver.
Qed.

Lemma NoDup_unique (l : list string) : NoDup (unique l).
Proof.
  clear json_loads.
  induction l as [|x l IH]; cbn [unique]; constructor.
  - rewrite list_elem_of_filter. naive_solver.
  - apply NoDup_filter, IH.
Qed.

Lemma elem_of_option_values (column : list value) (s : string) :
  s ∈ option_values column ↔ offered column s.
Proof.
  clear json_loads.
  unfold option_values, offered, cell_text.
  rewrite elem_of_unique, list_elem_of_filter.
  change (map strip (map py_str ?l)) with (strip <$> (py_str <$> l)).
  rewrite <- list_fmap_compose, list_elem_of_fmap.
  setoid_rewrite list_elem_of_filter. cbn. naive_solver.
Qed.

Lemma elem_of_sort_strings (l : list string) (s : string) :
  s ∈ sort_strings l ↔ s ∈ l.
Proof. unfold sort_strings. rewrite merge_sort_Permutation. reflexivity. Qed.

Lemma lstrip_fixed (s : string) :
  (∀ c, first_char s = Some c -> isspace c = false) -> lstrip s = s.
Proof.
  destruct s as [|a s]; [reflexivity|]. intros H. cbn [lstrip].
  rewrite (H a eq_refl). reflexivity.
Qed.

Lemma rstrip_idem (s : string) : rstrip (rstrip s) = rstrip s.
Proof.
  induction s as [|a s IH]; [reflexivity|]. cbn [rstrip].
  destruct (rstrip s) as [|b r] eqn:Er.
  - destruct (isspace a) eqn:Ea; [reflexivity|]. cbn [rstrip]. rewrite Ea. reflexivity.
  - cbn [rstrip] in *. rewrite IH. reflexivity.
Qed.

(** Stripping a stripped text changes nothing. *)
Lemma strip_idem (s : string) : strip (strip s) = strip s.
Proof.
  unfold strip at 1. rewrite lstrip_fixed by apply strip_trimmed.
  unfold strip. apply rstrip_idem.
Qed.

Lemma normal_sort_option_values (column : list value) :
  normal_options (sort_strings (option_values column)).
Proof.
  unfold normal_options. split; [apply Sorted_merge_sort, _|]. split.
  - unfold sort_strings. rewrite merge_sort_Permutation.
    apply NoDup_unique.
  - apply Forall_forall. intros s Hs.
    apply elem_of_sort_strings, elem_of_option_values in Hs
      as (Hne & v & _ & _ & <-).
    split; [exact Hne|apply strip_idem].
Qed.

(** Two option lists in normal form with the same entries are equal. *)
Lemma normal_options_unique (l1 l2 : list string) :
  normal_options l1 -> normal_options l2 ->
  (∀ s, s ∈ l1 ↔ s ∈ l2) -> l1 = l2.
Proof.
  intros (S1 & N1 & _) (S2 & N2 & _) H.
  apply (Sorted_unique String.le); [exact S1|exact S2|].
  apply NoDup_Permutation; assumption.
Qed.


Lemma load_options_ok (c d t : result frame) colors designs themes :
  load_options c d t = Ok (colors, designs, themes) ->
  ∃ cf df tf cc dc tc,
    c = Ok cf ∧ d = Ok df ∧ t = Ok tf
    ∧ cf !! "GENERIC NAMES" = Some cc
    ∧ df !! "DESIGN STYLE" = Some dc
    ∧ tf !! "THEMES" = Some tc
    ∧ colors = sort_strings (option_values cc)
    ∧ designs = sort_strings (option_values dc)
    ∧ themes = sort_strings (option_values tc).
Proof.
  unfold load_options.
  destruct c as [cf|]; [|discriminate]. destruct d as [df|]; [|discriminate].
  destruct t as [tf|]; [|discriminate]. cbn [rbind].
  destruct (cf !! _) as [cc|] eqn:Ec; [|discriminate].
  destruct (df !! _) as [dc|] eqn:Ed; [|discriminate].
  destruct (tf !! _) as [tc|] eqn:Et; [|discriminate].
  intros [= <- <- <-]. exists cf, df, tf, cc, dc, tc.
  repeat split; assumption.
Qed.

(** X5.  Each list that [load_options] returns is ascending by code points,
    has no repeated entry, and holds only stripped, non-empty texts. *)
Theorem load_options_normal (c d t : result frame) colors designs themes :
  load_options c d t = Ok (colors, designs, themes) ->
  normal_options colors ∧ normal_options designs ∧ normal_options themes.
Proof.
  intros H. apply load_options_ok in H
    as (cf & df & tf & cc & dc & tc & _ & _ & _ & _ & _ & _ & -> & -> & ->).
  repeat split; apply normal_sort_option_values.
Qed.

(** X6.  The lists that [load_options] returns hold exactly the texts that
    their columns offer: the stripped [str] of every cell that is neither
    missing nor blank, and nothing else. *)
Theorem load_options_offers (cf df tf : frame) colors designs themes :
  load_options (Ok cf) (Ok df) (Ok tf) = Ok (colors, designs, themes) ->
  ∃ cc dc tc,
    cf !! "GENERIC NAMES" = Some cc
    ∧ df !! "DESIGN STYLE" = Some dc
    ∧ tf !! "THEMES" = Some tc
    ∧ (∀ s, s ∈ colors ↔ offered cc s)
    ∧ (∀ s, s ∈ designs ↔ offered dc s)
    ∧ (∀ s, s ∈ themes ↔ offered tc s).
Proof.
  intros H. apply load_options_ok in H
    as (cf' & df' & tf' & cc & dc & tc & [= <-] & [= <-] & [= <-]
        & Hc & Hd & Ht & -> & -> & ->).
  exists cc, dc, tc.
  split; [exact Hc|]. split; [exact Hd|]. split; [exact Ht|].
  split; [|split]; intros s;
    rewrite elem_of_sort_strings, elem_of_option_values; reflexivity.
Qed.

Lemma offered_Permutation (c1 c2 : list value) (s : string) :
  c1 ≡ₚ c2 -> offered c1 s -> offered c2 s.
Proof.
  intros Hp (Hne & v & Hv & Hna & Hs). split; [exact Hne|].
  exists v. rewrite <- Hp. auto.
Qed.

Lemma option_values_Permutation (c1 c2 : list value) :
  c1 ≡ₚ c2 ->
  sort_strings (option_values c1) = sort_strings (option_values c2).
Proof.
  intros Hp. apply normal_options_unique; try apply normal_sort_option_values.
  intros s. rewrite !elem_of_sort_strings, !elem_of_option_values.
  split; apply offered_Permutation; [exact Hp|symmetry; exact Hp].
Qed.

(** X7.  The result of [load_options] does not depend on the order of the
    rows of the three files: frames whose columns are rearrangements of one
    another give the same lists, or the same error. *)
Theorem load_options_row_order (cf df tf cf' df' tf' : frame) :
  option_Forall2 (≡ₚ) (cf !! "GENERIC NAMES") (cf' !! "GENERIC NAMES") ->
  option_Forall2 (≡ₚ) (df !! "DESIGN STYLE") (df' !! "DESIGN STYLE") ->
  option_Forall2 (≡ₚ) (tf !! "THEMES") (tf' !! "THEMES") ->
  load_options (Ok cf) (Ok df) (Ok tf) = load_options (Ok cf') (Ok df') (Ok tf').
Proof.
  intros Hc Hd Ht. unfold load_options. cbn [rbind].
  destruct Hc as [cc cc' Hc|]; [|reflexivity].
  destruct Hd as [dc dc' Hd|]; [|reflexivity].
  destruct Ht as [tc tc' Ht|]; [|reflexivity].
  rewrite (option_values_Permutation _ _ Hc), (option_values_Permutation _ _ Hd),
    (option_values_Permutation _ _ Ht). reflexivity.
Qed.

Lemma normal_options_fixed (l : list string) :
  normal_options l -> sort_strings (option_values (VStr <$> l)) = l.
Proof.
  intros Hl. apply normal_options_unique;
    [apply normal_sort_option_values|exact Hl|].
  intros s. rewrite elem_of_sort_strings, elem_of_option_values.
  destruct Hl as (_ & _ & Hall). rewrite Forall_forall in Hall.
  unfold offered, cell_text. split.
  - intros (Hne & v & Hv & _ & <-).
    apply list_elem_of_fmap in Hv as (x & -> & Hx). cbn [py_str].
    rewrite (proj2 (Hall x Hx)). exact Hx.
  - intros Hs. destruct (Hall s Hs) as [Hne Hst]. split; [exact Hne|].
    exists (VStr s). split; [apply list_elem_of_fmap; eauto|]. split; [reflexivity|].
    exact Hst.
Qed.

(** X8.  The lists that [load_options] returns are in normal form: files
    that hold these lists give the same lists again. *)
Theorem load_options_reload (c d t : result frame) colors designs themes :
  load_options c d t = Ok (colors, designs, themes) ->
  load_options (Ok {[ "GENERIC NAMES" := VStr <$> colors ]})
               (Ok {[ "DESIGN STYLE" := VStr <$> designs ]})
               (Ok {[ "THEMES" := VStr <$> themes ]})
  = Ok (colors, designs, themes).
Proof.
  intros H. apply (load_options_normal c d t) in H as (Hc & Hd & Ht).
  unfold load_options. cbn [rbind]. rewrite !lookup_singleton_eq.
  rewrite !normal_options_fixed by assumption. reflexivity.
Qed.

(* ------------------------------------------------------------------ *)
(** ** The export of the stored rows *)

#[local] Instance newer_first_trans : Transitive newer_first.
Proof.
  intros r1 r2 r3. unfold newer_first.
  destruct (stamp r1), (stamp r2), (stamp r3); try tauto; lia.
Qed.

#[local] Instance newer_first_total : Total newer_first.
Proof.
  intros r1 r2. unfold newer_first.
  destruct (stamp r1), (stamp r2); try tauto; lia.
Qed.

(** X9.  Without a fault, [fetch_all] returns every row of the table exactly
    once, rows with a later time stamp before rows with an earlier one; it
    returns no row exactly when the table is empty (the sidebar then says
    that there are no saved records). *)
Theorem fetch_all_rows (t : table) :
  ∃ rows,
    fetch_all None t = Ok rows
    ∧ rows ≡ₚ (map_to_list t).*2
    ∧ StronglySorted newer_first rows
    ∧ (rows = [] ↔ t = ∅).
Proof.
  eexists. split; [reflexivity|].
  split; [apply merge_sort_Permutation|].
  split; [apply StronglySorted_merge_sort; apply _|].
  split.
  - intros H. apply map_to_list_empty_iff.
    pose proof (merge_sort_Permutation newer_first (map snd (map_to_list t))) as Hp.
    rewrite H in Hp. symmetry in Hp. apply Permutation_nil_r in Hp.
    apply fmap_nil_inv in Hp. exact Hp.
  - intros ->. rewrite map_to_list_empty. reflexivity.
Qed.

Lemma elem_of_rows (t : table) (r : row) :
  r ∈ (map_to_list t).*2 ↔ ∃ k, t !! k = Some r.
Proof.
  rewrite list_elem_of_fmap. split.
  - intros ([k r'] & -> & H). exists k. apply elem_of_map_to_list in H. exact H.
  - intros [k H]. exists (k, r). split; [reflexivity|]. apply elem_of_map_to_list, H.
Qed.

(** X10.  After [upsert_swatch] at a time later than the time stamp of every
    other row, [fetch_all] returns the row just written first. *)
Theorem fetch_all_latest_first
    (now_ : Z) (payload : dict) (sid : string) (t : table) :
  has_required_keys payload sid ->
  (∀ k r, t !! k = Some r -> k ≠ sid -> ∃ ts, stamp r = Some ts ∧ ts < now_) ->
  ∃ t' r rest,
    upsert_swatch None now_ payload t = Ok t'
    ∧ fetch_all None t' = Ok (r :: rest)
    ∧ t' !! sid = Some r
    ∧ carries r payload now_.
Proof.
  intros Hkeys Hold.
  destruct (upsert_swatch_row now_ payload sid t Hkeys) as (r & Hup & Hc).
  exists (<[sid := r]> t).
  assert (Hstamp : stamp r = Some now_).
  { unfold stamp. destruct Hc as [_ ->]. reflexivity. }
  destruct (fetch_all_rows (<[sid := r]> t)) as (rows & Hrows & Hperm & Hsorted & Hnil).
  destruct rows as [|h rest].
  { exfalso. destruct Hnil as [Hnil _]. specialize (Hnil eq_refl).
    apply (f_equal (lookup sid)) in Hnil.
    rewrite lookup_insert_eq, lookup_empty in Hnil. discriminate. }
  assert (Hin : r ∈ h :: rest).
  { rewrite Hperm. apply elem_of_rows. exists sid. apply lookup_insert_eq. }
  assert (Hh : h ∈ (map_to_list (<[sid := r]> t)).*2).
  { rewrite <- Hperm. left. }
  apply elem_of_rows in Hh as [k Hk].
  assert (h = r) as ->.
  { destruct (decide (k = sid)) as [->|Hne].
    - rewrite lookup_insert_eq in Hk. congruence.
    - rewrite lookup_insert_ne in Hk by congruence.
      destruct (Hold k h Hk Hne) as (ts & Hts & Hlt).
      apply elem_of_cons in Hin as [->|Hin]; [reflexivity|].
      apply StronglySorted_inv in Hsorted as [_ Hall].
      rewrite Forall_forall in Hall. specialize (Hall r Hin).
      unfold newer_first in Hall. rewrite Hts, Hstamp in Hall. lia. }
  exists r, rest. split; [exact Hup|]. split; [exact Hrows|].
  split; [apply lookup_insert_eq|exact Hc].
Qed.

Lemma join_items_strings (i : Z) (l : list string) :
  join_items i (VStr <$> l) = Ok l.
Proof.
  revert i. induction l as [|s l IH]; intros i; [reflexivity|].
  cbn [fmap list_fmap join_items].
  change (list_fmap string value VStr l) with (VStr <$> l).
  rewrite IH. reflexivity.
Qed.

(** X11.  For the cell that [upsert_swatch] stores for a list of strings,
    [pretty_secondary] shows the strings joined by a comma and a space,
    provided [json.loads] reads back what [json.dumps] wrote for that
    list. *)
Theorem pretty_secondary_stored (payload : dict) (l : list string) :
  dict_get payload "secondary_colors" = VList (VStr <$> l) ->
  json_loads (json_dumps false false (VList (VStr <$> l))) = Ok (VList (VStr <$> l)) ->
  pretty_secondary (bound_param payload "secondary_colors") = join ", " l.
Proof.
  intros Hp Hj. unfold bound_param. cbn [String.eqb Ascii.eqb Bool.eqb].
  rewrite Hp. unfold pretty_secondary. rewrite Hj. cbn [rbind].
  unfold py_join. rewrite join_items_strings. reflexivity.
Qed.

Lemma join_items_other (i : Z) (items : list value) :
  forallb is_str items = false -> ∃ msg, join_items i items = Raise (TypeError msg).
Proof.
  revert i. induction items as [|v items IH]; intros i; cbn [forallb]; [discriminate|].
  destruct v; cbn [is_str andb join_items]; eauto.
  intros H. destruct (IH (i + 1) H) as [msg ->]. cbn [rbind]. eauto.
Qed.

(** X12.  Where [pretty_secondary] cannot show a list of strings it falls back:
    a cell that is no text (a missing cell, a number) is shown as the empty
    text, its [str] is never used; a text that is no JSON, or is JSON for
    something other than a list of strings, is shown as it is. *)
Theorem pretty_secondary_falls_back (x : value) :
  ((∀ s, x ≠ VStr s) -> pretty_secondary x = "")
  ∧ (∀ s, x = VStr s ->
          match json_loads s with
          | Ok (VList items) => forallb is_str items = false
          | _ => True
          end ->
          pretty_secondary x = s).
Proof.
  split.
  - intros H. destruct x; try reflexivity. exfalso. exact (H s eq_refl).
  - intros s -> H. unfold pretty_secondary.
    destruct (json_loads s) as [[]|]; try reflexivity.
    cbn [rbind]. unfold py_join.
    destruct (join_items_other 0 items H) as [msg ->]. reflexivity.
Qed.

(* ------------------------------------------------------------------ *)
(** ** The fingerprint tells snapshots apart *)

Lemma append_assoc (a b c : string) : (a +:+ b) +:+ c = a +:+ (b +:+ c).
Proof.
  induction a as [|x a IH]; [reflexivity|].
  change (String x ((a +:+ b) +:+ c) = String x (a +:+ (b +:+ c))). congruence.
Qed.

Lemma unescape_head_escape (ensure_ascii : bool) (c : ascii) (rest : string) :
  unescape_head (json_escape ensure_ascii c +:+ rest) = Some (c, rest).
Proof.
  destruct ensure_ascii; destruct c as [[] [] [] [] [] [] [] []]; reflexivity.
Qed.

Lemma concat_escape_cons (ensure_ascii : bool) (c : ascii) (l : list ascii) (rest : string) :
  String.concat "" (map (json_escape ensure_ascii) (c :: l)) +:+ rest
  = json_escape ensure_ascii c
    +:+ (String.concat "" (map (json_escape ensure_ascii) l) +:+ rest).
Proof.
  cbn [map String.concat]. destruct (map _ l) as [|x xs] eqn:E.
  - reflexivity.
  - rewrite append_assoc. reflexivity.
Qed.

Lemma escaped_body_inj (ensure_ascii : bool) (l1 l2 : list ascii) (r1 r2 : string) :
  String.concat "" (map (json_escape ensure_ascii) l1) +:+ String dquote r1
  = String.concat "" (map (json_escape ensure_ascii) l2) +:+ String dquote r2 ->
  l1 = l2 ∧ r1 = r2.
Proof.
  revert l2. induction l1 as [|c1 l1 IH]; intros [|c2 l2] H.
  - cbn in H. injection H as ->. auto.
  - rewrite concat_escape_cons in H. apply (f_equal unescape_head) in H.
    rewrite unescape_head_escape in H. discriminate H.
  - rewrite concat_escape_cons in H. apply (f_equal unescape_head) in H.
    rewrite unescape_head_escape in H. discriminate H.
  - rewrite !concat_escape_cons in H. apply (f_equal unescape_head) in H.
    rewrite !unescape_head_escape in H. injection H as -> H.
    destruct (IH _ H) as [-> ->]. auto.
Qed.

(** A quoted text at the front of a text determines the text quoted and what
    follows it. *)
Lemma json_quote_inj (ensure_ascii : bool) (s1 s2 r1 r2 : string) :
  json_quote ensure_ascii s1 +:+ r1 = json_quote ensure_ascii s2 +:+ r2 ->
  s1 = s2 ∧ r1 = r2.
Proof.
  unfold json_quote. intros H.
  rewrite !append_assoc in H.
  change (String dquote "" +:+ r1) with (String dquote r1) in H.
  change (String dquote "" +:+ r2) with (String dquote r2) in H.
  injection H as H.
  apply escaped_body_inj in H as [Hl ->]. split; [|reflexivity].
  unfold chars in Hl.
  rewrite <- (string_of_list_ascii_of_string s1), Hl.
  apply string_of_list_ascii_of_string.
Qed.


Lemma join_cons_append (sep p : string) (rest : list string) (r : string) :
  join sep (p :: rest) +:+ r
  = p +:+ match rest with
          | [] => r
          | _ => sep +:+ (join sep rest +:+ r)
          end.
Proof.
  destruct rest as [|q rest]; [reflexivity|].
  change (join sep (p :: q :: rest)) with (p +:+ sep +:+ join sep (q :: rest)).
  rewrite !append_assoc. reflexivity.
Qed.

Lemma quoted_list_inj (ensure_ascii : bool) (l1 l2 : list string) (r1 r2 : string) :
  join ", " (map (json_quote ensure_ascii) l1) +:+ String "]" r1
  = join ", " (map (json_quote ensure_ascii) l2) +:+ String "]" r2 ->
  l1 = l2 ∧ r1 = r2.
Proof.
  revert l2. induction l1 as [|x l1 IH]; intros [|y l2] H.
  - injection H as ->. auto.
  - exfalso. cbn [map] in H. rewrite join_cons_append in H.
    apply (f_equal (String.get 0)) in H. discriminate H.
  - exfalso. cbn [map] in H. rewrite join_cons_append in H.
    apply (f_equal (String.get 0)) in H. discriminate H.
  - cbn [map] in H. rewrite !join_cons_append in H.
    apply json_quote_inj in H as [-> H].
    destruct l1 as [|x1 l1], l2 as [|y1 l2]; cbn [map] in H.
    + injection H as ->. auto.
    + exfalso. apply (f_equal (String.get 0)) in H. discriminate H.
    + exfalso. apply (f_equal (String.get 0)) in H. discriminate H.
    + apply String.app_inj in H. apply (IH (y1 :: l2)) in H as [[= -> ->] ->]. auto.
Qed.

Lemma dumps_strings (ensure_ascii sort_keys : bool) (l : list string) :
  map (json_dumps ensure_ascii sort_keys) (VStr <$> l) = map (json_quote ensure_ascii) l.
Proof. induction l as [|s l IH]; [reflexivity|]. cbn. f_equal. exact IH. Qed.

Lemma sort_by_key_record (a b c d e : string) :
  sort_by_key [("primary_color", a); ("secondary_colors", b); ("design_style", c);
               ("theme", d); ("suitable_for", e)]
  = [("design_style", c); ("primary_color", a); ("secondary_colors", b);
     ("suitable_for", e); ("theme", d)].
Proof. reflexivity. Qed.

(** The fingerprint of a typed record, written out. *)
Lemma fingerprint_typed (r : MetadataRecord) :
  fingerprint (meta_dict r)
  = "{" +:+ json_quote true "design_style" +:+ ": "
        +:+ json_quote true (design_style r) +:+ ", "
        +:+ json_quote true "primary_color" +:+ ": "
        +:+ json_quote true (primary_color r) +:+ ", "
        +:+ json_quote true "secondary_colors" +:+ ": " +:+ "["
        +:+ join ", " (map (json_quote true) (secondary_colors r)) +:+ "], "
        +:+ json_quote true "suitable_for" +:+ ": "
        +:+ json_quote true (suitable_for r) +:+ ", "
        +:+ json_quote true "theme" +:+ ": "
        +:+ json_quote true (theme r) +:+ "}".
Proof.
  unfold fingerprint, meta_dict. cbn [json_dumps map fst snd].
  change (list_fmap string value VStr (secondary_colors r)) with (VStr <$> secondary_colors r).
  rewrite dumps_strings, sort_by_key_record.
  cbn [map join fst snd]. rewrite !append_assoc. reflexivity.
Qed.

(** X13.  Two typed records with the same fingerprint are the same record:
    the comparison of line 265 cannot take a changed snapshot for the one
    the description was written for. *)
Theorem fingerprint_injective (r1 r2 : MetadataRecord) :
  fingerprint (meta_dict r1) = fingerprint (meta_dict r2) -> r1 = r2.
Proof.
  rewrite !fingerprint_typed. intros H.
  apply String.app_inj in H.
  apply json_quote_inj in H as [_ H]. apply String.app_inj in H.
  apply json_quote_inj in H as [Hds H]. apply String.app_inj in H.
  apply json_quote_inj in H as [_ H]. apply String.app_inj in H.
  apply json_quote_inj in H as [Hpc H]. apply String.app_inj in H.
  apply json_quote_inj in H as [_ H]. apply String.app_inj in H.
  apply String.app_inj in H.
  change ("], " +:+ ?x) with (String "]" (", " +:+ x)) in H.
  apply quoted_list_inj in H as [Hsc H]. apply String.app_inj in H.
  apply json_quote_inj in H as [_ H]. apply String.app_inj in H.
  apply json_quote_inj in H as [Hsf H]. apply String.app_inj in H.
  apply json_quote_inj in H as [_ H]. apply String.app_inj in H.
  apply json_quote_inj in H as [Hth _].
  destruct r1, r2; cbn in *; congruence.
Qed.

(* ------------------------------------------------------------------ *)
(** ** Recovery of an object from the text around it *)

(** The least index that holds [c] is what [str_find] returns. *)
Lemma str_find_unique (s : string) (c : ascii) (i : nat) :
  String.get i s = Some c ->
  (∀ n, (n < i)%nat -> String.get n s ≠ Some c) ->
  str_find s c = Z.of_nat i.
Proof.
  intros Hi Hbefore.
  destruct (str_find_spec s c) as [[_ Hnone]|(H0 & Hget & Hfirst)].
  - exfalso. exact (Hnone i Hi).
  - destruct (Nat.lt_trichotomy i (Z.to_nat (str_find s c))) as [Hlt|[Heq|Hgt]].
    + exfalso. exact (Hfirst _ Hlt Hi).
    + lia.
    + exfalso. exact (Hbefore _ Hgt Hget).
Qed.

Lemma substring_append_r (s t : string) (n : nat) :
  substring (String.length s) n (s +:+ t) = substring 0 n t.
Proof.
  induction s as [|a s IH]; [reflexivity|].
  change (String a s +:+ t) with (String a (s +:+ t)). cbn. exact IH.
Qed.

(** The text from the first opening to the last closing brace of
    [prefix{body}suffix]. *)
Lemma braced_object (prefix body suffix : string) :
  lacks prefix "{"%char -> lacks suffix "}"%char ->
  braced (prefix +:+ String "{"%char (body +:+ String "}"%char suffix))
  = Some (String "{"%char (body +:+ "}")).
Proof.
  intros Hpre Hsuf.
  set (text := prefix +:+ String "{"%char (body +:+ String "}"%char suffix)).
  assert (Hfirst : str_find text "{"%char = Z.of_nat (String.length prefix)).
  { apply str_find_unique.
    - subst text. rewrite <- (Nat.add_0_r (String.length prefix)), get_append_r.
      reflexivity.
    - intros n Hn. subst text. rewrite get_append_l by exact Hn. apply Hpre. }
  assert (Hlast : str_rfind text "}"%char
                  = Z.of_nat (String.length prefix + S (String.length body))).
  { apply str_rfind_unique.
    - subst text. rewrite get_append_r. cbn [String.get].
      rewrite <- (Nat.add_0_r (String.length body)), get_append_r. reflexivity.
    - intros n Hn. subst text.
      replace n with (String.length prefix
                      + S (String.length body + S (n - String.length prefix
                                                   - S (S (String.length body)))))%nat
        by lia.
      rewrite get_append_r. cbn [String.get]. rewrite get_append_r.
      cbn [String.get]. apply Hsuf. }
  unfold braced. fold text. rewrite Hfirst, Hlast.
  replace ((0 <=? Z.of_nat (String.length prefix))
           && (Z.of_nat (String.length prefix)
               <? Z.of_nat (String.length prefix + S (String.length body))))
    with true
    by (symmetry; apply andb_true_intro; split;
        [apply Z.leb_le|apply Z.ltb_lt]; lia).
  f_equal. unfold slice.
  replace (Z.to_nat (Z.of_nat (String.length prefix + S (String.length body)) + 1
                     - Z.of_nat (String.length prefix)))
    with (S (S (String.length body))) by lia.
  rewrite Nat2Z.id. subst text. rewrite substring_append_r.
  cbn [substring]. f_equal.
  replace (S (String.length body)) with (String.length (body +:+ "}"))
    by (rewrite length_append; cbn; lia).
  change (String "}"%char suffix) with ("}" +:+ suffix).
  rewrite <- append_assoc. apply substring_append_l.
Qed.

(** X14.  A JSON object with text around it is recovered: for a text
    [prefix{body}suffix] whose prefix has no opening and whose suffix has no
    closing brace, [_safe_json_load] returns the direct parse when that
    succeeds and otherwise the parse, or the error, of [{body}]. *)
Theorem object_recovered_from_prose (prefix body suffix : string) :
  lacks prefix "{"%char -> lacks suffix "}"%char ->
  let object := String "{"%char (body +:+ "}") in
  let text := prefix +:+ object +:+ suffix in
  _safe_json_load text
  = match json_loads text with
    | Ok v => Ok v
    | Raise _ => json_loads object
    end.
Proof.
  intros Hpre Hsuf object text.
  assert (Htext : text = prefix +:+ String "{"%char (body +:+ String "}"%char suffix)).
  { subst text object. f_equal.
    change (String "{"%char (body +:+ "}") +:+ suffix)
      with (String "{"%char ((body +:+ "}") +:+ suffix)).
    rewrite append_assoc. reflexivity. }
  rewrite safe_json_load_policy.
  destruct (json_loads text); [reflexivity|].
  rewrite Htext, (braced_object prefix body suffix Hpre Hsuf). reflexivity.
Qed.

(* ------------------------------------------------------------------ *)
(** ** The validator on values of the wrong type *)

Lemma set_contains_other (s : gset string) (v : value) (b : bool) :
  (∀ t, v ≠ VStr t) -> set_contains s v = Ok b -> b = false.
Proof.
  intros Hv. destruct v; cbn [set_contains]; try congruence.
  exfalso. exact (Hv s0 eq_refl).
Qed.

(** X15.  Whenever [validate_categorical] returns, a categorical field that
    holds no string (a number, a boolean, [None], also for a missing key) is
    reported with its value, and a [secondary_colors] that is no list is
    reported as such. *)
Theorem validate_categorical_reports_types
    (meta : dict) (colors designs themes : gset string) (errs : list string) :
  validate_categorical meta colors designs themes = Ok errs ->
  ((∀ s, dict_get meta "primary_color" ≠ VStr s) ->
   "primary_color not in options: " +:+ py_str (dict_get meta "primary_color")
     ∈ errs)
  ∧ ((∀ items, dict_get meta "secondary_colors" ≠ VList items) ->
     "secondary_colors must be a list" ∈ errs)
  ∧ ((∀ s, dict_get meta "design_style" ≠ VStr s) ->
     "design_style not in options: " +:+ py_str (dict_get meta "design_style")
       ∈ errs)
  ∧ ((∀ s, dict_get meta "theme" ≠ VStr s) ->
     "theme not in options: " +:+ py_str (dict_get meta "theme") ∈ errs).
Proof.
  unfold validate_categorical.
  destruct (set_contains colors _) as [b1|] eqn:E1; [|discriminate].
  cbn [rbind].
  set (e1 := if b1 then _ else _).
  destruct (match dict_get meta "secondary_colors" with
            | VList items => _ | _ => _ end) as [e2|] eqn:E2; [|discriminate].
  cbn [rbind].
  destruct (set_contains designs _) as [b3|] eqn:E3; [|discriminate].
  cbn [rbind].
  destruct (set_contains themes _) as [b4|] eqn:E4; [|discriminate].
  cbn [rbind]. intros [= <-].
  assert (H12 : ∀ m, m ∈ e1 -> m ∈ e2).
  { intros m Hm. destruct (dict_get meta "secondary_colors");
      try (injection E2 as <-; apply elem_of_app; auto).
    destruct (keep_strangers colors items) as [bad|]; [|discriminate E2].
    cbn [rbind] in E2. injection E2 as <-.
    destruct bad; [|apply elem_of_app]; auto. }
  assert (H23 : ∀ m, m ∈ e2 ->
            m ∈ (if b3 then e2
                 else e2 ++ ["design_style not in options: "
                             +:+ py_str (dict_get meta "design_style")])).
  { intros m Hm. destruct b3; [|apply elem_of_app]; auto. }
  assert (H34 : ∀ (e3 : list string) m, m ∈ e3 ->
            m ∈ (if b4 then e3
                 else e3 ++ ["theme not in options: "
                             +:+ py_str (dict_get meta "theme")])).
  { intros e3 m Hm. destruct b4; [|apply elem_of_app]; auto. }
  split; [|split; [|split]].
  - intros Hv. apply H34, H23, H12.
    subst e1. rewrite (set_contains_other _ _ _ Hv E1).
    apply list_elem_of_singleton. reflexivity.
  - intros Hv. apply H34, H23.
    destruct (dict_get meta "secondary_colors");
      try (injection E2 as <-; apply elem_of_app; right;
           apply list_elem_of_singleton; reflexivity).
    exfalso. exact (Hv items eq_refl).
  - intros Hv. apply H34.
    rewrite (set_contains_other _ _ _ Hv E3).
    apply elem_of_app. right. apply list_elem_of_singleton. reflexivity.
  - intros Hv. rewrite (set_contains_other _ _ _ Hv E4).
    apply elem_of_app. right. apply list_elem_of_singleton. reflexivity.
Qed.

(* ------------------------------------------------------------------ *)
(** ** More on the store *)

(** X16.  [upsert_swatch] reads five keys with [row[...]].  When
    [secondary_colors] is missing it raises [KeyError] before it opens a
    connection; when the connection is sound and one of the five is missing
    it raises [KeyError] for a missing key.  In both cases no statement is
    executed. *)
Theorem upsert_swatch_missing_key
    (fault : option exn) (now_ : Z) (payload : dict) (t : table) (k : string) :
  k ∈ required_keys ->
  dict_lookup payload k = None ->
  (dict_lookup payload "secondary_colors" = None ->
   upsert_swatch fault now_ payload t = Raise (KeyError "secondary_colors"))
  ∧ (fault = None ->
     ∃ k', k' ∈ required_keys ∧ dict_lookup payload k' = None
           ∧ upsert_swatch fault now_ payload t = Raise (KeyError k')).
Proof.
  intros Hk Hnone. split.
  - intros Hsc. unfold upsert_swatch, dict_item. rewrite Hsc. reflexivity.
  - intros ->. unfold upsert_swatch, dict_item, required_keys in *.
    destruct (dict_lookup payload "secondary_colors") eqn:E1;
      [|exists "secondary_colors"; split; [|split; [exact E1|reflexivity]];
        apply list_elem_of_here].
    destruct (dict_lookup payload "swatch_id") eqn:E2;
      [|exists "swatch_id"; split; [|split; [exact E2|reflexivity]];
        apply list_elem_of_further, list_elem_of_here].
    destruct (dict_lookup payload "primary_color") eqn:E3;
      [|exists "primary_color"; split; [|split; [exact E3|reflexivity]];
        do 2 apply list_elem_of_further; apply list_elem_of_here].
    destruct (dict_lookup payload "design_style") eqn:E4;
      [|exists "design_style"; split; [|split; [exact E4|reflexivity]];
        do 3 apply list_elem_of_further; apply list_elem_of_here].
    destruct (dict_lookup payload "theme") eqn:E5;
      [|exists "theme"; split; [|split; [exact E5|reflexivity]];
        do 4 apply list_elem_of_further; apply list_elem_of_here].
    exfalso.
    repeat (apply elem_of_cons in Hk as [->|Hk]; [congruence|]).
    apply elem_of_nil in Hk. exact Hk.
Qed.

Lemma upsert_swatch_update
    (now_ : Z) (payload : dict) (sid : string) (t : table) (existing : row) :
  has_required_keys payload sid ->
  t !! sid = Some existing ->
  upsert_swatch None now_ payload t
  = Ok (<[sid := updated_row payload now_ existing]> t).
Proof.
  intros (Hid & [pc Hpc] & [sc Hsc] & [ds Hds] & [th Hth]) Hex.
  unfold upsert_swatch, dict_item. rewrite Hsc, Hid, Hpc, Hds, Hth.
  cbn [rbind]. unfold execute, upsert_sql.
  cbn [insert_columns insert_values conflict_target update_set proposed_row
       eval_sql dict_lookup String.eqb Ascii.eqb Bool.eqb rbind].
  rewrite lookup_insert_eq, Hex.
  cbn [apply_set eval_sql rbind]. lookup_columns.
  repeat (cbn [rbind]; lookup_columns).
  unfold updated_row, payload_columns, bound_param, dict_get.
  cbn [foldr String.eqb Ascii.eqb Bool.eqb].
  rewrite Hpc, Hsc, Hds, Hth. reflexivity.
Qed.

Lemma updated_row_fixed (payload : dict) (now_ : Z) (r : row) :
  carries r payload now_ -> updated_row payload now_ r = r.
Proof.
  intros [Hcols Hstamp]. unfold updated_row, payload_columns in *.
  cbn [foldr].
  rewrite (insert_id r "updated_at") by exact Hstamp.
  rewrite (insert_id r "image_filename")
    by (apply Hcols; do 6 apply list_elem_of_further; apply list_elem_of_here).
  rewrite (insert_id r "description")
    by (apply Hcols; do 5 apply list_elem_of_further; apply list_elem_of_here).
  rewrite (insert_id r "suitable_for")
    by (apply Hcols; do 4 apply list_elem_of_further; apply list_elem_of_here).
  rewrite (insert_id r "theme")
    by (apply Hcols; do 3 apply list_elem_of_further; apply list_elem_of_here).
  rewrite (insert_id r "design_style")
    by (apply Hcols; do 2 apply list_elem_of_further; apply list_elem_of_here).
  rewrite (insert_id r "secondary_colors")
    by (apply Hcols; apply list_elem_of_further, list_elem_of_here).
  rewrite (insert_id r "primary_color") by (apply Hcols, list_elem_of_here).
  reflexivity.
Qed.

(** X17.  Saving the same payload again at the same statement time changes
    nothing: the second call leaves the table as the first call left it. *)
Theorem upsert_swatch_idempotent
    (now_ : Z) (payload : dict) (sid : string) (t : table) :
  has_required_keys payload sid ->
  ∃ t1, upsert_swatch None now_ payload t = Ok t1
        ∧ upsert_swatch None now_ payload t1 = Ok t1.
Proof.
  intros Hkeys.
  destruct (upsert_swatch_row now_ payload sid t Hkeys) as (r & Hup & Hc).
  exists (<[sid := r]> t). split; [exact Hup|].
  rewrite (upsert_swatch_update now_ payload sid _ r Hkeys)
    by apply lookup_insert_eq.
  rewrite (updated_row_fixed _ _ _ Hc), insert_insert_eq. reflexivity.
Qed.

(* ------------------------------------------------------------------ *)
(** ** What a run can change *)

Lemma upserts_app (a b : list effect) : upserts (a ++ b) = upserts a ++ upserts b.
Proof. unfold upserts. apply filter_app. Qed.

Lemma observe_shown Inv (w : world) (shown : list effect) :
  upserts shown = [] -> observe Inv w -> observe Inv (set_out (out w ++ shown) w).
Proof.
  intros Hs Hw. unfold observe in *. cbn [set_out session swatch_metadata out].
  rewrite upserts_app, Hs, app_nil_r. exact Hw.
Qed.

Lemma emit_observe Inv (x : effect) :
  is_upsert x = false ->
  hoare (observe Inv) (emit x) (fun _ => observe Inv) (observe Inv).
Proof.
  intros Hx w Hw. apply observe_shown; [|exact Hw].
  unfold upserts. rewrite filter_cons_False by (rewrite Hx; discriminate).
  reflexivity.
Qed.

Lemma extract_button_observe (e : env) (u : ui) Inv :
  run_closed u Inv -> pressed u = Some BtnExtract ->
  hoare (observe Inv) (extract_button e) (fun _ => observe Inv) (observe Inv).
Proof.
  intros Hc Hp. apply hoare_step. intros w Hw. exists tt.
  destruct (extraction_failure (extract_metadata (vision_reply e))) as [ex|] eqn:E.
  - eexists. split; [apply extract_button_failed, E|].
    apply observe_shown; [reflexivity|exact Hw].
  - destruct (extract_metadata (vision_reply e)) as [[]|] eqn:Em;
      try discriminate E.
    eexists. split; [apply extract_button_ok, Em|].
    unfold observe. cbn [session swatch_metadata out].
    apply (closed_extract u Inv Hc Hp (session w)), Hw.
Qed.

Lemma edit_controls_observe (u : ui) (ld : loc) Inv :
  hoare (observe Inv) (edit_controls u ld) (fun _ => observe Inv) (observe Inv).
Proof.
  intros w Hw.
  assert (Hrev : ∀ errs, observe Inv (set_out (out w ++ review_messages errs) w)).
  { intros errs. apply observe_shown; [apply review_messages_no_upsert|exact Hw]. }
  unfold edit_controls.
  erewrite sbind_done by reflexivity. unfold lift at 1.
  destruct (validate_categorical _ _ _ _) as [errs|ex] eqn:Hv; [|exact Hw].
  erewrite sbind_done by reflexivity.
  erewrite sbind_done by apply review_warning_eq.
  unfold lift. cbn [heap set_out].
  destruct (secondary_default _) as [chosen|ex] eqn:Hs; [|apply Hrev].
  exact (Hrev errs).
Qed.

Lemma save_button_observe (e : env) (u : ui) (sid f : string) (la : loc) Inv :
  run_closed u Inv -> pressed u = Some BtnSave ->
  hoare (fun w => observe Inv w ∧ accepted_meta (session w) = Some la)
        (save_button e sid f la) (fun _ => observe Inv) (observe Inv).
Proof.
  intros Hc Hp w [Hw Hla].
  pose proof (save_button_frame e sid f la w) as [Hs _].
  assert (H : observe Inv (save_button e sid f la w).2).
  { unfold observe. rewrite Hs.
    apply (closed_save u Inv Hc Hp _ _ _ _ _ Hw). rewrite Hla. eauto. }
  destruct (save_button e sid f la w) as [[a|h] w']; exact H.
Qed.

Lemma after_extract_observe (e : env) (u : ui) (sid f : string) Inv :
  run_closed u Inv ->
  hoare (observe Inv) (after_extract e u sid f) (fun _ => observe Inv)
        (observe Inv).
Proof.
  intros Hc. unfold after_extract.
  eapply hoare_bind; [apply hoare_read_session|].
  intros s. destruct (draft_meta s) as [ld|].
  2:{ eapply hoare_bind with (R := fun _ => observe Inv).
      - eapply hoare_weaken; [apply (emit_observe Inv); reflexivity| | |];
          [intros w [Hw _]; exact Hw|intros ? ? Hq; exact Hq|intros ? Hq; exact Hq].
      - intros ?; cbv beta. apply hoare_stop. }
  eapply hoare_bind with (R := fun _ => observe Inv).
  { eapply hoare_weaken; [apply (edit_controls_observe u ld Inv)| | |];
      [intros w [Hw _]; exact Hw|intros ? ? Hq; exact Hq|intros ? Hq; exact Hq]. }
  intros fm. eapply hoare_bind with (R := fun _ => observe Inv).
  { unfold when_pressed. destruct (pressed u) as [[]|] eqn:Hp;
      try exact (hoare_pass _ _).
    apply hoare_step. intros w Hw. exists tt. eexists.
    split; [apply accept_button_eq|].
    unfold observe. cbn [session swatch_metadata out].
    rewrite upserts_app, app_nil_r.
    apply (closed_accept u Inv Hc Hp), Hw. }
  intros ?; cbv beta. eapply hoare_bind; [apply hoare_read_session|].
  intros s1. eapply hoare_bind with (R := fun _ => observe Inv).
  { eapply hoare_weaken with (P := observe Inv) (Q := fun _ => observe Inv)
                             (H := observe Inv);
      [|intros w [Hw _]; exact Hw|intros ? ? Hq; exact Hq|intros ? Hq; exact Hq].
    destruct (meta_dirty s1); [apply emit_observe; reflexivity|apply hoare_pass]. }
  intros ?; cbv beta. eapply hoare_bind; [apply hoare_read_session|].
  intros s2. destruct (accepted_meta s2) as [la|] eqn:Ela.
  2:{ eapply hoare_bind with (R := fun _ => observe Inv).
      - eapply hoare_weaken; [apply (emit_observe Inv); reflexivity| | |];
          [intros w [Hw _]; exact Hw|intros ? ? Hq; exact Hq|intros ? Hq; exact Hq].
      - intros ?; cbv beta. apply hoare_stop. }
  set (Q := fun w => observe Inv w ∧ accepted_meta (session w) = Some la).
  eapply hoare_weaken with (P := Q) (Q := fun _ => observe Inv) (H := observe Inv);
    [|intros w [Hw ->]; split; [exact Hw|exact Ela]
     |intros ? ? Hq; exact Hq|intros ? Hq; exact Hq].
  eapply hoare_bind with (R := fun _ => Q).
  { eapply hoare_weaken with (P := Q) (Q := fun _ => Q) (H := Q);
      [|intros ? Hq; exact Hq|intros ? ? Hq; exact Hq|intros ? [Hq _]; exact Hq].
    unfold when_pressed. destruct (pressed u) as [[]|] eqn:Hp;
      try exact (hoare_pass _ _).
    intros w [Hw Hla]. rewrite generate_button_eq.
    destruct (generate_description _ _) as [desc|ex].
    - split; [|exact Hla]. unfold observe.
      cbn [set_session session swatch_metadata out].
      apply (closed_generate u Inv Hc Hp); [exact Hw|rewrite Hla; eauto].
    - split; [|exact Hla]. apply observe_shown; [reflexivity|exact Hw]. }
  intros ?; cbv beta. eapply hoare_bind with (R := fun _ => Q).
  { eapply hoare_weaken with (P := Q) (Q := fun _ => Q) (H := Q);
      [|intros ? Hq; exact Hq|intros ? ? Hq; exact Hq|intros ? [Hq _]; exact Hq].
    apply hoare_step. intros w [Hw Hla]. exists tt. eexists.
    split; [apply description_editor_eq|].
    split; [|exact Hla]. unfold observe.
    cbn [set_session session swatch_metadata out].
    apply (closed_editor u Inv Hc); [exact Hw|rewrite Hla; eauto]. }
  intros ?; cbv beta.
  unfold when_pressed. destruct (pressed u) as [[]|] eqn:Hp;
    try (intros w [Hw _]; exact Hw).
  exact (save_button_observe e u sid f la Inv Hc Hp).
Qed.

(** A property closed under the assignments of a run holds after the run,
    whatever the query of the sidebar meets. *)
Lemma rerun_with_closed (fetch_fault : option exn) (e : env) (u : ui)
    (w : world) Inv :
  run_closed u Inv ->
  Inv (session w) (swatch_metadata w) [] ->
  observe Inv (rerun_with fetch_fault e u w).
Proof.
  intros Hc Hw. unfold rerun_with.
  assert (Hi : hoare (observe Inv) (page fetch_fault e u) (fun _ => observe Inv)
                     (observe Inv)).
  { unfold page.
    eapply hoare_bind with (R := fun _ => observe Inv).
    - destruct (on_change u) eqn:Hch; [|apply hoare_pass].
      apply hoare_step. intros w0 Hw0. exists tt. eexists.
      split; [apply mark_dirty_eq|].
      unfold observe. cbn [set_session session swatch_metadata out].
      apply (closed_callback u Inv Hc Hch), Hw0.
    - intros ?; cbv beta.
      eapply hoare_bind with (R := fun _ => observe Inv);
        [apply hoare_sidebar|].
      intros ?; cbv beta. unfold script.
      destruct (uploaded u) as [filename|].
      2:{ eapply hoare_bind; [apply emit_observe; reflexivity|].
          intros ?; cbv beta. apply hoare_stop. }
      eapply hoare_bind with (R := fun _ => observe Inv);
        [|intros ?; cbv beta; apply after_extract_observe, Hc].
      unfold when_pressed. destruct (pressed u) as [[]|] eqn:Hp;
        try exact (hoare_pass _ _).
      apply (extract_button_observe e u Inv Hc Hp). }
  specialize (Hi (set_out [] w) Hw).
  destruct (page fetch_fault e u (set_out [] w)) as [[a|h] w']; exact Hi.
Qed.

Lemma rerun_closed (e : env) (u : ui) (w : world) Inv :
  run_closed u Inv ->
  Inv (session w) (swatch_metadata w) [] ->
  observe Inv (rerun e u w).
Proof. exact (rerun_with_closed None e u w Inv). Qed.

Lemma tidy_closed (u : ui) : run_closed u (fun s _ _ => tidy s).
Proof.
  split; unfold tidy.
  - intros _ s _ _ Hs. unfold dirtied.
    destruct (accepted_meta s) eqn:E; [cbn; auto|].
    intros _. apply Hs. reflexivity.
  - cbn. auto.
  - cbn. discriminate.
  - intros _ s _ _ desc basis _ [la Hla]. cbn. rewrite Hla. discriminate.
  - intros s _ _ _ [la Hla]. cbn. rewrite Hla. discriminate.
  - intros _ s _ _ _ _ Hs _. exact Hs.
Qed.

(** X18.  In every reachable world, a description and a description basis are
    only kept together with an accepted snapshot, and the dirty flag is only
    set while there is none: whatever clears the snapshot clears the
    description with it. *)
Theorem description_needs_snapshot (w : world) :
  reachable w ->
  (accepted_meta (session w) = None ->
   description (session w) = "" ∧ desc_based_on_meta (session w) = None)
  ∧ (meta_dirty (session w) = true -> accepted_meta (session w) = None).
Proof.
  intros Hreach. split.
  - induction Hreach as [t|e u w Hreach IH Hu|ex e u w Hreach IH];
      [cbn; auto| |].
    + exact (rerun_closed e u w _ (tidy_closed u) IH).
    + exact (rerun_with_closed (Some ex) e u w _ (tidy_closed u) IH).
  - intros Hdirty. destruct (accepted_meta (session w)) as [la|] eqn:Hla;
      [|reflexivity].
    destruct (inv_accepted _ _ (reachable_invariant w Hreach) la Hla)
      as (_ & Hclean & _).
    congruence.
Qed.

Lemma draft_closed (u : ui) (d0 : option loc) :
  pressed u ≠ Some BtnExtract ->
  run_closed u (fun s _ _ => draft_meta s = d0).
Proof.
  intros Hp. split; try (cbn; auto; fail).
  - intros _ s _ _ Hs. rewrite dirtied_draft. exact Hs.
  - intros H. contradiction.
Qed.

(** X19.  Only an Extract click gives the session another draft: over any
    runs in which Extract is not pressed, the draft reference stays the same,
    and no run ever changes the contents of a dictionary made by an earlier
    run.  Editing a control therefore never changes the draft. *)
Theorem draft_changes_only_by_extract (steps : list (env * ui)) (w : world) :
  Forall (fun step => pressed step.2 ≠ Some BtnExtract) steps ->
  draft_meta (session (reruns steps w)) = draft_meta (session w)
  ∧ ∀ l, (l < length (heap w))%nat ->
         contents (heap (reruns steps w)) l = contents (heap w) l.
Proof.
  intros Hsteps. split.
  - revert w. induction Hsteps as [|[e u] steps Hp _ IH]; intros w; [reflexivity|].
    cbn [reruns foldl]. cbn [fst snd] in *.
    etransitivity; [apply IH|].
    exact (rerun_closed e u w _ (draft_closed u (draft_meta (session w)) Hp) eq_refl).
  - intros l Hl. apply prefix_contents; [apply reruns_heap_prefix|exact Hl].
Qed.

Lemma unwritten_closed (u : ui) (t0 : table) :
  pressed u ≠ Some BtnSave ->
  run_closed u (fun _ t c => t = t0 ∧ c = []).
Proof.
  intros Hp. split; try (cbn; auto; fail).
  intros H. contradiction.
Qed.

(** X20.  Only the Save button writes: a run in which Save is not pressed calls
    [upsert_swatch] not at all and leaves the table as it is, from any
    world. *)
Theorem only_save_writes (e : env) (u : ui) (w : world) :
  pressed u ≠ Some BtnSave ->
  upserts (out (rerun e u w)) = []
  ∧ swatch_metadata (rerun e u w) = swatch_metadata w.
Proof.
  intros Hp.
  destruct (rerun_closed e u w _ (unwritten_closed u (swatch_metadata w) Hp)
                         (conj eq_refl eq_refl)) as [Ht Hc].
  split; [exact Hc|exact Ht].
Qed.

Lemma idle_closed (u : ui) (s0 : session_state) (t0 : table) :
  accepted_meta s0 = None ->
  pressed u ≠ Some BtnExtract -> pressed u ≠ Some BtnAccept ->
  run_closed u (fun s t c => s = s0 ∧ t = t0 ∧ c = []).
Proof.
  intros Hnone He Ha. split.
  - intros _ s t c (-> & -> & ->). unfold dirtied. rewrite Hnone. auto.
  - intros H. contradiction.
  - intros H. contradiction.
  - intros _ s t c desc basis (-> & _) [la Hla]. congruence.
  - intros s t c (-> & _) [la Hla]. congruence.
  - intros _ s t c t' c' (-> & _) [la Hla]. congruence.
Qed.

(** X21.  While no snapshot is accepted, a run that presses neither Extract nor
    Accept changes nothing: a Generate or a Save click, a typed description,
    a changed control leave the session state and the table as they are and
    call [upsert_swatch] not at all. *)
Theorem nothing_without_snapshot (e : env) (u : ui) (w : world) :
  accepted_meta (session w) = None ->
  pressed u ≠ Some BtnExtract -> pressed u ≠ Some BtnAccept ->
  session (rerun e u w) = session w
  ∧ swatch_metadata (rerun e u w) = swatch_metadata w
  ∧ upserts (out (rerun e u w)) = [].
Proof.
  intros Hnone He Ha.
  exact (rerun_closed e u w _
           (idle_closed u (session w) (swatch_metadata w) Hnone He Ha)
           (conj eq_refl (conj eq_refl eq_refl))).
Qed.

(** X22.  A successful Extract starts over: the draft is a new dictionary, the
    accepted snapshot, the description and its basis are dropped and the
    dirty flag is off, whatever they were before; the dictionaries of earlier
    runs are unchanged and nothing is written to the table. *)
Theorem extraction_starts_over
    (e : env) (u : ui) (w : world) (f : string) (d : dict) :
  uploaded u = Some f ->
  pressed u = Some BtnExtract ->
  extract_metadata (vision_reply e) = Ok (VDict d) ->
  session (rerun e u w)
  = SessionState (Some (length (heap w))) None false "" None
  ∧ (∀ l, (l < length (heap w))%nat ->
          contents (heap (rerun e u w)) l = contents (heap w) l)
  ∧ swatch_metadata (rerun e u w) = swatch_metadata w
  ∧ upserts (out (rerun e u w)) = [].
Proof.
  intros Hf Hp Hd.
  destruct (extraction_run e u w f d Hf Hp Hd) as [Hs _].
  split; [exact Hs|]. split.
  - intros l Hl. apply prefix_contents; [apply rerun_heap_prefix|exact Hl].
  - assert (Hns : pressed u ≠ Some BtnSave) by congruence.
    destruct (rerun_closed e u w _ (unwritten_closed u (swatch_metadata w) Hns)
                           (conj eq_refl eq_refl)) as [Ht Hc].
    split; [exact Ht|exact Hc].
Qed.

(* ------------------------------------------------------------------ *)
(** ** Generate *)

(** The world after a Generate click. *)
Lemma generate_run (e : env) (u : ui) (w : world) (f : string) (la : loc) :
  invariant w ->
  uploaded u = Some f ->
  pressed u = Some BtnGenerate ->
  on_change u = false ->
  accepted_meta (session w) = Some la ->
  ∃ more shown,
    upserts shown = []
    ∧ rerun e u w
      = match generate_description (writer e) (contents (heap w) la) with
        | Ok desc =>
            World (SessionState (draft_meta (session w)) (Some la) false
                                (text_area desc (description_typed u))
                                (Some (fingerprint (contents (heap w) la))))
                  (heap w ++ more) (swatch_metadata w) shown
        | Raise ex =>
            World (set_description
                     (text_area (description (session w)) (description_typed u))
                     (session w))
                  (heap w ++ more) (swatch_metadata w)
                  (shown ++ [StError ("Description generation failed: "
                                      +:+ exn_str ex)])
        end.
Proof.
  intros Hinv Hf Hp Hc Hla.
  destruct (inv_accepted _ _ Hinv la Hla)
    as (Hlt & Hdirty & ld & u0 & chosen & Hld & Hlt' & Hu0 & Hr & Hs & Hcont).
  destruct (renders_ok _ Hr) as (errs & chosen' & Hv & Hs').
  exists [final_meta u (contents (heap w) ld) chosen'], (review_messages errs).
  split; [apply review_messages_no_upsert|].
  unfold rerun. rewrite interaction_eq. rewrite Hc.
  erewrite sbind_done by reflexivity.
  unfold script. rewrite Hf. cbn zeta. unfold when_pressed at 1. rewrite Hp.
  erewrite sbind_done by reflexivity.
  unfold after_extract.
  erewrite sbind_done by reflexivity.
  cbn [set_out session]. rewrite Hld.
  erewrite sbind_done by (apply edit_controls_ok; [exact Hv|exact Hs']).
  unfold when_pressed. rewrite Hp.
  erewrite sbind_done by reflexivity.
  erewrite sbind_done by reflexivity.
  cbn [session heap swatch_metadata out set_out]. rewrite Hdirty.
  erewrite sbind_done by reflexivity.
  erewrite sbind_done by reflexivity.
  cbn [session]. rewrite Hla.
  erewrite sbind_done by apply generate_button_eq.
  erewrite sbind_done by apply description_editor_eq.
  cbn [heap]. rewrite contents_app_l by exact Hlt.
  destruct (generate_description _ _) as [desc|ex];
    cbn [pass sret snd set_session set_out set_description session heap
         swatch_metadata out description draft_meta accepted_meta meta_dirty
         desc_based_on_meta app];
    rewrite ?Hla, ?Hdirty, ?Hld; reflexivity.
Qed.

(** X23.  A Generate click whose model call succeeds stores the stripped answer
    as description and the fingerprint of the accepted snapshot as its
    basis.  The editor below the button is then created with the answer as
    its value: an edit made in the text area that was on the page, created
    with another value, is dropped, and the description is the answer; only
    an edit of a text area that was itself created with this very answer is
    returned in its place.  The snapshot stays, nothing is written to the
    table, and the fingerprint check of Save holds in the resulting world. *)
Theorem generate_records_the_basis
    (e : env) (u : ui) (w : world) (f : string) (la : loc)
    (output_text : option string) :
  reachable w ->
  uploaded u = Some f ->
  pressed u = Some BtnGenerate ->
  on_change u = false ->
  accepted_meta (session w) = Some la ->
  writer e (json_dumps false false (VDict (contents (heap w) la)))
    = Ok output_text ->
  let answer := strip (default "" output_text) in
  let w' := rerun e u w in
  accepted_meta (session w') = Some la
  ∧ description (session w') = text_area answer (description_typed u)
  ∧ (description_typed u = None -> description (session w') = answer)
  ∧ (∀ shown typed,
       description_typed u = Some (shown, typed) ->
       description (session w') = if String.eqb shown answer then typed else answer)
  ∧ (∀ shown typed,
       description_typed u = Some (shown, typed) -> shown ≠ answer ->
       description (session w') = answer)
  ∧ desc_based_on_meta (session w')
    = Some (fingerprint (contents (heap w) la))
  ∧ basis_agrees w' la
  ∧ swatch_metadata w' = swatch_metadata w.
Proof.
  intros Hreach Hf Hp Hc Hla Hw answer w'.
  pose proof (reachable_invariant w Hreach) as Hinv.
  destruct (generate_run e u w f la Hinv Hf Hp Hc Hla) as (more & shown & _ & Hrun).
  unfold generate_description in Hrun. rewrite Hw in Hrun. cbn [rbind] in Hrun.
  fold answer in Hrun. subst w'. rewrite Hrun.
  cbn [session accepted_meta description desc_based_on_meta swatch_metadata].
  split; [reflexivity|]. split; [reflexivity|].
  split; [intros ->; reflexivity|].
  split; [intros v0 t ->; reflexivity|].
  split.
  { intros v0 t -> Hne. cbn [text_area].
    destruct (String.eqb v0 answer) eqn:E; [|reflexivity].
    apply String.eqb_eq in E. contradiction. }
  split; [reflexivity|].
  split; [|reflexivity].
  unfold basis_agrees. cbn [session desc_based_on_meta heap].
  rewrite contents_app_l; [reflexivity|].
  apply (inv_accepted _ _ Hinv la Hla).
Qed.

(** X24.  A Generate click whose model call fails shows the error and changes
    neither the snapshot nor the description basis nor the table; the
    description is what the editor holds. *)
Theorem failed_generation_keeps_the_basis
    (e : env) (u : ui) (w : world) (f : string) (la : loc) (ex : exn) :
  reachable w ->
  uploaded u = Some f ->
  pressed u = Some BtnGenerate ->
  on_change u = false ->
  accepted_meta (session w) = Some la ->
  writer e (json_dumps false false (VDict (contents (heap w) la))) = Raise ex ->
  let w' := rerun e u w in
  last (out w')
  = Some (StError ("Description generation failed: " +:+ exn_str ex))
  ∧ session w'
    = set_description
        (text_area (description (session w)) (description_typed u)) (session w)
  ∧ swatch_metadata w' = swatch_metadata w.
Proof.
  intros Hreach Hf Hp Hc Hla Hw w'.
  pose proof (reachable_invariant w Hreach) as Hinv.
  destruct (generate_run e u w f la Hinv Hf Hp Hc Hla) as (more & shown & _ & Hrun).
  unfold generate_description in Hrun. rewrite Hw in Hrun. cbn [rbind] in Hrun.
  subst w'. rewrite Hrun. cbn [session swatch_metadata out].
  split; [apply last_snoc|]. split; reflexivity.
Qed.

(* ------------------------------------------------------------------ *)
(** ** The description editor *)

(** The world after a run in which no button is pressed, with a snapshot
    accepted: the editor has written its text back. *)
Lemma idle_run (e : env) (u : ui) (w : world) (f : string) (la : loc) :
  invariant w ->
  uploaded u = Some f ->
  pressed u = None ->
  on_change u = false ->
  accepted_meta (session w) = Some la ->
  ∃ more shown,
    rerun e u w
    = World (set_description
               (text_area (description (session w)) (description_typed u))
               (session w))
            (heap w ++ more) (swatch_metadata w) shown.
Proof.
  intros Hinv Hf Hp Hc Hla.
  destruct (inv_accepted _ _ Hinv la Hla)
    as (Hlt & Hdirty & ld & u0 & chosen & Hld & Hlt' & Hu0 & Hr & Hs & Hcont).
  destruct (renders_ok _ Hr) as (errs & chosen' & Hv & Hs').
  exists [final_meta u (contents (heap w) ld) chosen'], (review_messages errs).
  unfold rerun. rewrite interaction_eq. rewrite Hc.
  erewrite sbind_done by reflexivity.
  unfold script. rewrite Hf. cbn zeta. unfold when_pressed at 1. rewrite Hp.
  erewrite sbind_done by reflexivity.
  unfold after_extract.
  erewrite sbind_done by reflexivity.
  cbn [set_out session]. rewrite Hld.
  erewrite sbind_done by (apply edit_controls_ok; [exact Hv|exact Hs']).
  unfold when_pressed. rewrite Hp.
  erewrite sbind_done by reflexivity.
  erewrite sbind_done by reflexivity.
  cbn [session heap swatch_metadata out set_out]. rewrite Hdirty.
  erewrite sbind_done by reflexivity.
  erewrite sbind_done by reflexivity.
  cbn [session]. rewrite Hla.
  erewrite sbind_done by reflexivity.
  erewrite sbind_done by apply description_editor_eq.
  reflexivity.
Qed.

(** X30.  Of two edits made one after the other in the description editor,
    the second is lost.  The text area on the page was created with the
    session's description as its value; the first edit is returned and
    written back.  In the next run the script creates the text area with the
    written-back text, which makes it a new one: a further edit of the text
    area on the page is dropped, and the description stays the first
    edit. *)
Theorem second_edit_is_lost
    (e1 e2 : env) (u1 u2 : ui) (w : world) (f1 f2 : string) (la : loc)
    (first second : string) :
  reachable w -> ui_ok u1 ->
  uploaded u1 = Some f1 -> pressed u1 = None -> on_change u1 = false ->
  uploaded u2 = Some f2 -> pressed u2 = None -> on_change u2 = false ->
  accepted_meta (session w) = Some la ->
  description_typed u1 = Some (description (session w), first) ->
  description_typed u2 = Some (description (session w), second) ->
  first ≠ description (session w) ->
  let w1 := rerun e1 u1 w in
  let w2 := rerun e2 u2 w1 in
  description (session w1) = first
  ∧ description (session w2) = first
  ∧ accepted_meta (session w2) = Some la
  ∧ desc_based_on_meta (session w2) = desc_based_on_meta (session w)
  ∧ swatch_metadata w2 = swatch_metadata w.
Proof.
  intros Hreach Hu1 Hf1 Hp1 Hc1 Hf2 Hp2 Hc2 Hla Ht1 Ht2 Hne w1 w2.
  pose proof (reachable_invariant w Hreach) as Hinv.
  destruct (idle_run e1 u1 w f1 la Hinv Hf1 Hp1 Hc1 Hla) as (more1 & shown1 & Hrun1).
  fold w1 in Hrun1. rewrite Ht1 in Hrun1. cbn [text_area] in Hrun1.
  rewrite String.eqb_refl in Hrun1.
  assert (Hinv1 : invariant w1) by (apply rerun_invariant; assumption).
  assert (Hla1 : accepted_meta (session w1) = Some la)
    by (rewrite Hrun1; exact Hla).
  assert (Hd1 : description (session w1) = first) by (rewrite Hrun1; reflexivity).
  destruct (idle_run e2 u2 w1 f2 la Hinv1 Hf2 Hp2 Hc2 Hla1)
    as (more2 & shown2 & Hrun2).
  fold w2 in Hrun2. rewrite Ht2, Hd1 in Hrun2. cbn [text_area] in Hrun2.
  assert (E : String.eqb (description (session w)) first = false).
  { apply String.eqb_neq. congruence. }
  rewrite E in Hrun2.
  split; [exact Hd1|]. rewrite Hrun2.
  cbn [session description accepted_meta desc_based_on_meta swatch_metadata
       set_description].
  split; [reflexivity|]. split; [exact Hla1|].
  rewrite Hrun1. split; reflexivity.
Qed.

(* ------------------------------------------------------------------ *)
(** ** Save: the other ways it ends *)

(** X25.  A Save click with a blank description is refused: the run ends with
    the error that the description is empty, calls [upsert_swatch] not at all
    and leaves the table and the snapshot as they are. *)
Theorem save_needs_a_description
    (e : env) (u : ui) (w : world) (f : string) (la : loc) :
  reachable w ->
  uploaded u = Some f ->
  pressed u = Some BtnSave ->
  on_change u = false ->
  accepted_meta (session w) = Some la ->
  let d := text_area (description (session w)) (description_typed u) in
  strip d = "" ->
  let w' := rerun e u w in
  last (out w') = Some (StError empty_description_text)
  ∧ upserts (out w') = []
  ∧ swatch_metadata w' = swatch_metadata w
  ∧ session w' = set_description d (session w).
Proof.
  intros Hreach Hf Hp Hc Hla d Hd w'.
  pose proof (reachable_invariant w Hreach) as Hinv.
  destruct (save_run e u w f la Hinv Hf Hp Hc Hla) as (more & shown & Hshown & Hrun).
  fold d in Hrun. subst w'. rewrite Hrun.
  rewrite save_button_empty by exact Hd.
  cbn [snd set_out session swatch_metadata out].
  split; [apply last_snoc|]. split; [|split; reflexivity].
  apply upserts_refused; [exact Hshown|reflexivity].
Qed.

(** X26.  A Save that passed both checks, in a run that meets a fault of the
    store.  When the query of the sidebar has returned and [upsert_swatch]
    then raises, the run has called [upsert_swatch] once and shows the error
    as "Save failed: ...".  When the query of the sidebar itself raises, the
    run ends there: [upsert_swatch] is not called, the script shows none of
    its messages, and the session is as it was.  In both cases the table, the
    snapshot, the description and its basis are kept, so that the same Save
    can be tried again. *)
Theorem failed_save_can_be_retried
    (fetch_fault : option exn) (e : env) (u : ui) (w : world) (f : string)
    (la : loc) :
  reachable w ->
  uploaded u = Some f ->
  pressed u = Some BtnSave ->
  on_change u = false ->
  accepted_meta (session w) = Some la ->
  let d := text_area (description (session w)) (description_typed u) in
  strip d ≠ "" ->
  basis_agrees w la ->
  is_Some fetch_fault ∨ is_Some (db_fault e) ->
  let w' := rerun_with fetch_fault e u w in
  (∀ ex, fetch_fault = None -> db_fault e = Some ex ->
     (∃ payload, upserts (out w') = [Upsert payload])
     ∧ last (out w') = Some (StError ("Save failed: " +:+ exn_str ex))
     ∧ session w' = set_description d (session w))
  ∧ (is_Some fetch_fault -> out w' = [] ∧ session w' = session w)
  ∧ swatch_metadata w' = swatch_metadata w
  ∧ accepted_meta (session w') = Some la
  ∧ desc_based_on_meta (session w') = desc_based_on_meta (session w)
  ∧ description (session w')
    = match fetch_fault with
      | None => d
      | Some _ => description (session w)
      end.
Proof.
  intros Hreach Hf Hp Hc Hla d Hd Hb Hfault w'.
  destruct fetch_fault as [ex0|].
  { (* the query of the sidebar raises *)
    subst w'. rewrite rerun_with_fault, Hc. cbn [out session set_out swatch_metadata].
    split; [intros ex H; discriminate H|].
    split; [intros _; split; reflexivity|].
    split; [reflexivity|]. split; [exact Hla|]. split; [reflexivity|].
    reflexivity. }
  destruct Hfault as [[? H]|[ex Hfault]]; [discriminate H|].
  change (rerun_with None e u w) with (rerun e u w) in w'.
  pose proof (reachable_invariant w Hreach) as Hinv.
  destruct (save_click e u w f la Hinv Hf Hp Hc Hla Hd) as [Hsess Hout].
  fold d w' in Hsess, Hout.
  assert (Hlast : last (out w') = Some (StError ("Save failed: " +:+ exn_str ex))).
  { destruct Hout as [basis shown Eb Hne _ _ _|shown t _ _ Hu _ _|shown ex' _ _ Hu -> _].
    - unfold basis_agrees in Hb. rewrite Eb in Hb. contradiction.
    - rewrite Hfault in Hu. discriminate Hu.
    - rewrite Hfault in Hu. injection Hu as <-.
      rewrite (last_app_cons shown). reflexivity. }
  assert (Htable : swatch_metadata w' = swatch_metadata w).
  { destruct Hout as [basis shown Eb Hne _ _ _|shown t _ _ Hu _ _|shown ex' _ _ _ _ Ht].
    - unfold basis_agrees in Hb. rewrite Eb in Hb. contradiction.
    - rewrite Hfault in Hu. discriminate Hu.
    - exact Ht. }
  split.
  { intros ex' _ Hex. rewrite Hfault in Hex. injection Hex as <-.
    split; [eexists; eapply save_outcome_agreeing; eauto|].
    split; [exact Hlast|exact Hsess]. }
  split; [intros [? H]; discriminate H|].
  split; [exact Htable|]. rewrite Hsess.
  split; [exact Hla|]. split; [reflexivity|]. reflexivity.
Qed.

(** X29.  When [fetch_all] raises in the sidebar, nobody catches the
    exception and the run ends at line 50, whatever was pressed: the script
    shows none of its messages, no button handler runs, [upsert_swatch] is
    not called, and the table and every dictionary are as before.  Only the
    callback of a changed control has run by then, so the session is as
    [_mark_dirty] left it. *)
Theorem failed_query_ends_the_run (ex : exn) (e : env) (u : ui) (w : world) :
  let w' := rerun_with (Some ex) e u w in
  (page (Some ex) e u (set_out [] w)).1 = Halt (Uncaught ex)
  ∧ out w' = []
  ∧ heap w' = heap w
  ∧ swatch_metadata w' = swatch_metadata w
  ∧ session w' = (if on_change u then dirtied (session w) else session w)
  ∧ (on_change u = true -> is_Some (accepted_meta (session w)) ->
     session w' = SessionState (draft_meta (session w)) None true "" None).
Proof.
  intros w'.
  split.
  { unfold page, sbind. destruct (on_change u); [rewrite mark_dirty_eq|];
      reflexivity. }
  subst w'. rewrite rerun_with_fault.
  destruct (on_change u); cbn [out heap swatch_metadata session set_session set_out];
    repeat (split; [reflexivity|]).
  - intros _ [la Hla]. unfold dirtied. rewrite Hla. reflexivity.
  - intros H. discriminate H.
Qed.

(* ------------------------------------------------------------------ *)
(** ** Accepting again, and the whole workflow *)

Lemma basis_closed (u : ui) (b0 : option string) :
  on_change u = false -> pressed u = Some BtnAccept ->
  run_closed u (fun s _ _ => desc_based_on_meta s = b0).
Proof.
  intros Hc Hp. split; try (cbn; auto; fail).
  - intros H. congruence.
  - intros H. congruence.
  - intros H. congruence.
Qed.

(** X27.  Accept leaves the description basis alone.  Accepting again the
    values that are already accepted therefore keeps the fingerprint check
    of Save satisfied: the new snapshot is another dictionary with the same
    contents, and no new description is needed. *)
Theorem accepting_again_keeps_the_basis
    (e : env) (u : ui) (w : world) (f : string) (ld la : loc) errs chosen :
  uploaded u = Some f ->
  pressed u = Some BtnAccept ->
  on_change u = false ->
  draft_meta (session w) = Some ld ->
  validate_categorical (contents (heap w) ld) color_set design_set theme_set
    = Ok errs ->
  secondary_default (contents (heap w) ld) = Ok chosen ->
  accepted_meta (session w) = Some la ->
  final_meta u (contents (heap w) ld) chosen = contents (heap w) la ->
  basis_agrees w la ->
  let w' := rerun e u w in
  let la' := length (heap w) in
  accepted_meta (session w') = Some la'
  ∧ contents (heap w') la' = contents (heap w) la
  ∧ desc_based_on_meta (session w') = desc_based_on_meta (session w)
  ∧ basis_agrees w' la'.
Proof.
  intros Hf Hp Hc Hld Hv Hs Hla Hsame Hb w' la'.
  destruct (accept_run e u w f ld errs chosen Hf Hp Hld Hv Hs)
    as (desc & basis & shown & Hrun).
  fold w' in Hrun.
  assert (Hbasis : desc_based_on_meta (session w') = desc_based_on_meta (session w)).
  { exact (rerun_closed e u w _
             (basis_closed u (desc_based_on_meta (session w)) Hc Hp) eq_refl). }
  assert (Hcont : contents (heap w') la' = contents (heap w) la).
  { rewrite Hrun. cbn [heap]. subst la'. rewrite contents_new. exact Hsame. }
  split; [rewrite Hrun; reflexivity|]. split; [exact Hcont|].
  split; [exact Hbasis|].
  unfold basis_agrees in *. rewrite Hbasis, Hcont. exact Hb.
Qed.

Lemma press_ok (f sid_input : string) (b : button) : ui_ok (press f sid_input b).
Proof. repeat split. Qed.

(** X28.  The whole workflow: from a new session, the four clicks Extract,
    Accept, Generate, Save, with the controls left alone, store one row under
    the swatch id.  The row carries the values that the controls showed for
    the extracted draft and the stripped description of the model; every
    other row of the table is as before.  It is assumed that the extraction
    returns an object whose values the validator can test, that the model
    writes a description that is not blank, and that the store does not
    fail. *)
Theorem workflow_stores_the_snapshot
    (e : env) (f sid_input : string) (t : table) (d : dict)
    (errs : list string) (chosen : list value) (output_text : option string) :
  extract_metadata (vision_reply e) = Ok (VDict d) ->
  validate_categorical (with_defaults d) color_set design_set theme_set
    = Ok errs ->
  secondary_default (with_defaults d) = Ok chosen ->
  let snapshot :=
    final_meta (press f sid_input BtnAccept) (with_defaults d) chosen in
  writer e (json_dumps false false (VDict snapshot)) = Ok output_text ->
  strip (default "" output_text) ≠ "" ->
  db_fault e = None ->
  let w :=
    reruns [(e, press f sid_input BtnExtract); (e, press f sid_input BtnAccept);
            (e, press f sid_input BtnGenerate); (e, press f sid_input BtnSave)]
           (init_world t) in
  let sid := swatch_id_of sid_input f in
  ∃ r, swatch_metadata w !! sid = Some r
       ∧ carries r (snapshot_payload sid f snapshot
                                     (strip (default "" output_text)))
                 (now e)
       ∧ ∀ k, k ≠ sid -> swatch_metadata w !! k = t !! k.
Proof.
  intros Hd Hv Hs snapshot Hw Hnb Hfault w sid.
  set (text := strip (default "" output_text)) in *.
  set (u1 := press f sid_input BtnExtract).
  set (u2 := press f sid_input BtnAccept).
  set (u3 := press f sid_input BtnGenerate).
  set (u4 := press f sid_input BtnSave).
  set (w1 := rerun e u1 (init_world t)).
  set (w2 := rerun e u2 w1).
  set (w3 := rerun e u3 w2).
  assert (Hwdef : w = rerun e u4 w3) by reflexivity.
  (* the extraction *)
  assert (R1 : reachable w1)
    by (apply reachable_rerun; [apply reachable_init|apply press_ok]).
  destruct (extraction_run e u1 (init_world t) f d eq_refl eq_refl Hd)
    as [Hs1 Hc1].
  fold w1 in Hs1, Hc1. cbn [init_world heap length] in Hs1, Hc1.
  assert (Ht1 : swatch_metadata w1 = t).
  { exact (proj1 (rerun_closed e u1 (init_world t) _
                    (unwritten_closed u1 t ltac:(discriminate))
                    (conj eq_refl eq_refl))). }
  assert (Hld1 : draft_meta (session w1) = Some 0%nat) by (rewrite Hs1; reflexivity).
  (* Accept *)
  assert (R2 : reachable w2) by (apply reachable_rerun; [exact R1|apply press_ok]).
  destruct (accept_run e u2 w1 f 0%nat errs chosen eq_refl eq_refl Hld1
              ltac:(rewrite Hc1; exact Hv) ltac:(rewrite Hc1; exact Hs))
    as (desc2 & basis2 & shown2 & Hrun2).
  fold w2 in Hrun2. rewrite Hc1 in Hrun2.
  change (final_meta u2 (with_defaults d) chosen) with snapshot in Hrun2.
  set (la := length (heap w1)) in *.
  assert (Hla2 : accepted_meta (session w2) = Some la) by (rewrite Hrun2; reflexivity).
  assert (Hc2 : contents (heap w2) la = snapshot).
  { rewrite Hrun2. cbn [heap]. apply contents_new. }
  assert (Ht2 : swatch_metadata w2 = t) by (rewrite Hrun2; exact Ht1).
  assert (Hlt2 : (la < length (heap w2))%nat).
  { apply (inv_accepted _ _ (reachable_invariant w2 R2) la Hla2). }
  (* Generate *)
  assert (R3 : reachable w3) by (apply reachable_rerun; [exact R2|apply press_ok]).
  destruct (generate_run e u3 w2 f la (reachable_invariant w2 R2)
              eq_refl eq_refl eq_refl Hla2) as (more3 & shown3 & _ & Hrun3).
  fold w3 in Hrun3. unfold generate_description in Hrun3.
  rewrite Hc2, Hw in Hrun3. cbn [rbind] in Hrun3. fold text in Hrun3.
  assert (Hla3 : accepted_meta (session w3) = Some la) by (rewrite Hrun3; reflexivity).
  assert (Hc3 : contents (heap w3) la = snapshot).
  { rewrite Hrun3. cbn [heap]. rewrite contents_app_l by exact Hlt2. exact Hc2. }
  assert (Ht3 : swatch_metadata w3 = t) by (rewrite Hrun3; exact Ht2).
  assert (Hd3 : text_area (description (session w3)) (description_typed u4) = text)
    by (rewrite Hrun3; reflexivity).
  assert (Hb3 : basis_agrees w3 la).
  { unfold basis_agrees. rewrite Hc3. rewrite Hrun3. reflexivity. }
  (* Save *)
  assert (Hnb4 : strip (text_area (description (session w3)) (description_typed u4))
                 ≠ "").
  { rewrite Hd3. subst text. rewrite strip_idem. exact Hnb. }
  destruct (save_click e u4 w3 f la (reachable_invariant w3 R3)
              eq_refl eq_refl eq_refl Hla3 Hnb4) as [_ Hout].
  rewrite Hd3, Hc3 in Hout. rewrite <- Hwdef in Hout.
  change (swatch_id_of (swatch_id_input u4) f) with sid in Hout.
  assert (Hkeys : has_required_keys (snapshot_payload sid f snapshot text) sid).
  { repeat split; cbn; eauto. }
  destruct (upsert_swatch_row (now e) _ sid t Hkeys) as (r & Hup & Hcarries).
  exists r.
  destruct Hout as [basis shown Eb Hne _ _ _|shown t' _ _ Hu _ Ht'|shown ex _ _ Hu _ _].
  - exfalso. unfold basis_agrees in Hb3. rewrite Eb in Hb3. contradiction.
  - rewrite Hfault, Ht3, Hup in Hu. injection Hu as <-. rewrite Ht'.
    split; [apply lookup_insert_eq|]. split; [exact Hcarries|].
    intros k Hk. apply lookup_insert_ne. congruence.
  - rewrite Hfault, Ht3, Hup in Hu. discriminate Hu.
Qed.

End Program.

(* ================================================================== *)
(** * Worked examples

    The development instantiated with the JSON decoder above and the small
    option lists. *)
(* ================================================================== *)

Definition demo_rerun : env -> ui -> world -> world :=
  rerun demo_float_repr json_subset_loads demo_colors demo_designs demo_themes.

Definition demo_rerun_with : option exn -> env -> ui -> world -> world :=
  rerun_with demo_float_repr json_subset_loads demo_colors demo_designs
             demo_themes.

Definition demo_reachable : world -> Prop :=
  reachable demo_float_repr json_subset_loads demo_colors demo_designs demo_themes.

Definition demo_dumps : value -> string := json_dumps demo_float_repr false false.

(** A model answer with a colour outside the list, a stray secondary colour
    and no [suitable_for], wrapped in prose. *)
Definition answer_purple : dict :=
  [("primary_color", VStr "Purple");
   ("secondary_colors", VList [VStr "White"; VStr "Pink"; VStr "White"; VStr "Grey"]);
   ("design_style", VStr "Modern");
   ("theme", VStr "Nature")].

Definition demo_env (output_text : string) : env :=
  Env (Ok (Some output_text))
      (fun meta_json => Ok (Some " A modern wallpaper in blue. "))
      None 100.

Definition env_purple : env :=
  demo_env ("Here you go: " +:+ demo_dumps (VDict answer_purple) +:+ " thanks").

Definition env_garbled : env := demo_env "Sorry, I cannot help with that.".

(** A click with every control untouched. *)
Definition click (b : button) : ui :=
  UI (Some "swatch_01.png") "" false (Some b) None None None None None None.

(** A control changed: the user picks "Red" as primary colour; no button. *)
Definition change_primary : ui :=
  UI (Some "swatch_01.png") "" true None (Some "Red") None None None None None.

(** A click while the primary colour control holds "Red", picked in an
    earlier run. *)
Definition click_red (b : button) : ui :=
  UI (Some "swatch_01.png") "" false (Some b) (Some "Red")
     None None None None None.

(** The uploader is cleared: the script stops at line 94, nothing below the
    uploader is on the page, and the controls lose what they held. *)
Definition no_upload : ui :=
  UI None "" false None None None None None None None.

(** The file is uploaded again: the controls are back with their
    defaults. *)
Definition upload_again : ui :=
  UI (Some "swatch_01.png") "" false None None None None None None None.

Definition w_extracted : world := demo_rerun env_purple (click BtnExtract) (init_world ∅).
Definition w_accepted : world := demo_rerun env_purple (click BtnAccept) w_extracted.
Definition w_described : world := demo_rerun env_purple (click BtnGenerate) w_accepted.

(** A way to a description basis that is out of date: "Red" is picked,
    accepted and described; then the uploader is cleared and the file
    uploaded again, and the defaults of the controls are accepted. *)
Definition w_red_picked : world := demo_rerun env_purple change_primary w_extracted.
Definition w_red_accepted : world :=
  demo_rerun env_purple (click_red BtnAccept) w_red_picked.
Definition w_red_described : world :=
  demo_rerun env_purple (click_red BtnGenerate) w_red_accepted.
Definition w_cleared : world := demo_rerun env_purple no_upload w_red_described.
Definition w_uploaded_again : world := demo_rerun env_purple upload_again w_cleared.
Definition w_reaccepted : world :=
  demo_rerun env_purple (click BtnAccept) w_uploaded_again.

Lemma click_ok (b : button) : ui_ok demo_colors demo_designs demo_themes (click b).
Proof. repeat split. Qed.

Lemma click_red_ok (b : button) :
  ui_ok demo_colors demo_designs demo_themes (click_red b).
Proof. repeat split. cbn. unfold demo_colors. set_solver. Qed.

Lemma pick_red_ok : ui_ok demo_colors demo_designs demo_themes change_primary.
Proof. repeat split. cbn. unfold demo_colors. set_solver. Qed.

Lemma w_extracted_reachable : demo_reachable w_extracted.
Proof. apply reachable_rerun; [apply reachable_init|apply click_ok]. Qed.

Lemma w_accepted_reachable : demo_reachable w_accepted.
Proof. apply reachable_rerun; [apply w_extracted_reachable|apply click_ok]. Qed.

Lemma w_described_reachable : demo_reachable w_described.
Proof. apply reachable_rerun; [apply w_accepted_reachable|apply click_ok]. Qed.

Lemma w_red_described_reachable : demo_reachable w_red_described.
Proof.
  apply reachable_rerun; [|apply click_red_ok].
  apply reachable_rerun; [|apply click_red_ok].
  apply reachable_rerun; [apply w_extracted_reachable|apply pick_red_ok].
Qed.

Lemma w_reaccepted_reachable : demo_reachable w_reaccepted.
Proof.
  apply reachable_rerun; [|apply click_ok].
  apply reachable_rerun; [|repeat split].
  apply reachable_rerun; [apply w_red_described_reachable|repeat split].
Qed.

(** Scenario D: the object is recovered from the surrounding prose. *)
Example recovered_from_prose :
  _safe_json_load json_subset_loads
    ("Here you go: " +:+ demo_dumps (VDict [("primary_color", VStr "Red")])
     +:+ " thanks")
  = Ok (VDict [("primary_color", VStr "Red")]).
Proof. vm_compute. reflexivity. Qed.

(** Scenario A and the defaults: the draft after extraction. *)
Example draft_after_extraction :
  session w_extracted = SessionState (Some 0%nat) None false "" None
  ∧ contents (heap w_extracted) 0
    = [("primary_color", VStr "Purple");
       ("secondary_colors", VList [VStr "White"; VStr "Pink"; VStr "White"; VStr "Grey"]);
       ("design_style", VStr "Modern");
       ("theme", VStr "Nature");
       ("suitable_for", VStr "")].
Proof. vm_compute. split; reflexivity. Qed.

(** Scenario B: an edit after Accept and Generate. *)
Example edit_after_generate :
  session (demo_rerun env_purple change_primary w_described)
  = SessionState (Some 0%nat) None true "" None.
Proof. vm_compute. reflexivity. Qed.

(** Scenario C: Save with an empty description. *)
Example save_with_empty_description :
  out (demo_rerun env_purple (click BtnSave) w_accepted)
  = [StWarning
       ("LLM output needs review (you can correct using dropdowns):" +:+ nl
        +:+ "- primary_color not in options: Purple" +:+ nl
        +:+ "- secondary_colors invalid values: ['Pink']");
     StError empty_description_text]
  ∧ swatch_metadata (demo_rerun env_purple (click BtnSave) w_accepted) = ∅.
Proof. vm_compute. split; reflexivity. Qed.

(** C3, as stated, fails: the extracted draft says "Purple" and keeps "Pink";
    the snapshot accepted with untouched controls says "Blue", the first
    colour option, and has dropped "Pink". *)
Lemma accepted_differs_from_draft :
  draft_meta (session w_accepted) = Some 0%nat
  ∧ accepted_meta (session w_accepted) = Some 2%nat
  ∧ dict_get (contents (heap w_accepted) 0) "primary_color" = VStr "Purple"
  ∧ dict_get (contents (heap w_accepted) 2) "primary_color" = VStr "Blue"
  ∧ dict_get (contents (heap w_accepted) 0) "secondary_colors"
    = VList [VStr "White"; VStr "Pink"; VStr "White"; VStr "Grey"]
  ∧ dict_get (contents (heap w_accepted) 2) "secondary_colors"
    = VList [VStr "White"; VStr "White"; VStr "Grey"]
  ∧ contents (heap w_accepted) 2 ≠ contents (heap w_accepted) 0.
Proof. vm_compute. repeat split; try reflexivity. discriminate. Qed.

(** A model answer whose [primary_color] is an array. *)
Definition answer_array : dict :=
  [("primary_color", VList [VStr "Blue"]);
   ("secondary_colors", VList []);
   ("design_style", VStr "Modern");
   ("theme", VStr "Nature");
   ("suitable_for", VStr "")].

Definition env_array : env := demo_env (demo_dumps (VDict answer_array)).

Definition w_array : world := demo_rerun env_array (click BtnExtract) (init_world ∅).

(** The validator raises on that answer, and so does every run of the script
    once the answer is the draft: the controls are never shown and Accept has
    no effect. *)
Example array_answer_stops_the_script :
  validate_categorical demo_float_repr answer_array (color_set demo_colors)
                       (design_set demo_designs) (theme_set demo_themes)
  = Raise (TypeError "unhashable type: 'list'")
  ∧ draft_meta (session w_array) = Some 0%nat
  ∧ contents (heap w_array) 0 = answer_array
  ∧ (interaction demo_float_repr json_subset_loads demo_colors demo_designs
                 demo_themes env_array (click BtnAccept) (set_out [] w_array)).1
    = @Halt unit (Uncaught (TypeError "unhashable type: 'list'"))
  ∧ accepted_meta (session (demo_rerun env_array (click BtnAccept) w_array)) = None.
Proof. vm_compute. repeat split; reflexivity. Qed.

(* ------------------------------------------------------------------ *)
(** ** The theorems at concrete inputs *)

Ltac in_list :=
  repeat first [ apply list_elem_of_here | apply list_elem_of_further ].

Definition demo_ui_ok : ui -> Prop := ui_ok demo_colors demo_designs demo_themes.

Definition demo_fingerprint : dict -> string := fingerprint demo_float_repr.

(** A stale basis: the description was generated for the snapshot at address
    2, the snapshot now accepted is the one at address 4. *)
Lemma save_gated_by_fingerprint_witness :
  demo_reachable w_reaccepted
  ∧ demo_ui_ok (click BtnSave)
  ∧ uploaded (click BtnSave) = Some "swatch_01.png"
  ∧ pressed (click BtnSave) = Some BtnSave
  ∧ on_change (click BtnSave) = false
  ∧ accepted_meta (session w_reaccepted) = Some 6%nat
  ∧ desc_based_on_meta (session w_reaccepted)
    = Some (demo_fingerprint (contents (heap w_red_described) 3))
  ∧ strip (text_area (description (session w_reaccepted))
                      (description_typed (click BtnSave))) ≠ ""
  ∧ demo_fingerprint (contents (heap w_red_described) 3)
    ≠ demo_fingerprint (contents (heap w_reaccepted) 6)
  ∧ last (out (demo_rerun env_purple (click BtnSave) w_reaccepted))
    = Some (StWarning stale_basis_text)
  ∧ upserts (out (demo_rerun env_purple (click BtnSave) w_reaccepted)) = []
  ∧ swatch_metadata (demo_rerun env_purple (click BtnSave) w_reaccepted)
    = swatch_metadata w_reaccepted.
Proof.
  assert (Hd : strip (text_area (description (session w_reaccepted))
                                 (description_typed (click BtnSave))) ≠ "")
    by (vm_compute; discriminate).
  assert (Hne : demo_fingerprint (contents (heap w_red_described) 3)
                ≠ demo_fingerprint (contents (heap w_reaccepted) 6))
    by (vm_compute; discriminate).
  assert (Hb : desc_based_on_meta (session w_reaccepted)
               = Some (demo_fingerprint (contents (heap w_red_described) 3)))
    by (vm_compute; reflexivity).
  split; [exact w_reaccepted_reachable|]. split; [exact (click_ok BtnSave)|].
  split; [reflexivity|]. split; [reflexivity|]. split; [reflexivity|].
  split; [vm_compute; reflexivity|]. split; [exact Hb|].
  split; [exact Hd|]. split; [exact Hne|].
  exact (proj1 (save_gated_by_fingerprint
                  demo_float_repr json_subset_loads demo_colors demo_designs
                  demo_themes env_purple (click BtnSave) w_reaccepted
                  "swatch_01.png" 6%nat _
                  w_reaccepted_reachable (click_ok BtnSave) eq_refl eq_refl eq_refl
                  ltac:(vm_compute; reflexivity) Hb Hd) Hne).
Defined.

(** The matching case: Save after Generate stores once and can be repeated. *)
Example save_after_generate :
  upserts (out (demo_rerun env_purple (click BtnSave) w_described))
  = [Upsert [("swatch_id", VStr "swatch_01");
             ("primary_color", VStr "Blue");
             ("secondary_colors", VList [VStr "White"; VStr "White"; VStr "Grey"]);
             ("design_style", VStr "Modern");
             ("theme", VStr "Nature");
             ("suitable_for", VStr "");
             ("description", VStr "A modern wallpaper in blue.");
             ("image_filename", VStr "swatch_01.png")]]
  ∧ session (demo_rerun env_purple (click BtnSave) w_described)
    = session w_described.
Proof. vm_compute. split; reflexivity. Qed.

Lemma edit_invalidates_snapshot_witness :
  on_change change_primary = true
  ∧ pressed change_primary = None
  ∧ is_Some (accepted_meta (session w_described))
  ∧ accepted_meta (session (demo_rerun env_purple change_primary w_described)) = None
  ∧ description (session (demo_rerun env_purple change_primary w_described)) = ""
  ∧ desc_based_on_meta (session (demo_rerun env_purple change_primary w_described))
    = None
  ∧ meta_dirty (session (demo_rerun env_purple change_primary w_described)) = true.
Proof.
  assert (Hacc : is_Some (accepted_meta (session w_described)))
    by (exists 2%nat; vm_compute; reflexivity).
  split; [reflexivity|]. split; [reflexivity|]. split; [exact Hacc|].
  exact (proj1 (edit_invalidates_snapshot
                  demo_float_repr json_subset_loads demo_colors demo_designs
                  demo_themes env_purple change_primary w_described
                  eq_refl eq_refl) Hacc).
Defined.

Lemma accept_freezes_control_values_witness :
  uploaded (click BtnAccept) = Some "swatch_01.png"
  ∧ pressed (click BtnAccept) = Some BtnAccept
  ∧ draft_meta (session w_extracted) = Some 0%nat
  ∧ (0 < length (heap w_extracted))%nat
  ∧ validate_categorical demo_float_repr (contents (heap w_extracted) 0)
      (color_set demo_colors) (design_set demo_designs) (theme_set demo_themes)
    = Ok ["primary_color not in options: Purple";
          "secondary_colors invalid values: ['Pink']"]
  ∧ secondary_default demo_colors (contents (heap w_extracted) 0)
    = Ok [VStr "White"; VStr "White"; VStr "Grey"]
  ∧ accepted_meta (session w_accepted) = Some (length (heap w_extracted))
  ∧ draft_meta (session w_accepted) = Some 0%nat
  ∧ contents (heap w_accepted) 0 = contents (heap w_extracted) 0
  ∧ ∀ steps,
      contents
        (heap (reruns demo_float_repr json_subset_loads demo_colors demo_designs
                      demo_themes steps w_accepted))
        (length (heap w_extracted))
      = final_meta demo_float_repr demo_colors demo_designs demo_themes
                   (click BtnAccept) (contents (heap w_extracted) 0)
                   [VStr "White"; VStr "White"; VStr "Grey"].
Proof.
  assert (Hlen : (0 < length (heap w_extracted))%nat) by (vm_compute; lia).
  assert (Hv : validate_categorical demo_float_repr (contents (heap w_extracted) 0)
      (color_set demo_colors) (design_set demo_designs) (theme_set demo_themes)
               = Ok ["primary_color not in options: Purple";
                     "secondary_colors invalid values: ['Pink']"])
    by (vm_compute; reflexivity).
  assert (Hs : secondary_default demo_colors (contents (heap w_extracted) 0)
               = Ok [VStr "White"; VStr "White"; VStr "Grey"])
    by (vm_compute; reflexivity).
  assert (Hld : draft_meta (session w_extracted) = Some 0%nat)
    by (vm_compute; reflexivity).
  pose proof (accept_freezes_control_values
                demo_float_repr json_subset_loads demo_colors demo_designs
                demo_themes env_purple (click BtnAccept) w_extracted
                "swatch_01.png" 0%nat
                ["primary_color not in options: Purple";
                 "secondary_colors invalid values: ['Pink']"]
                [VStr "White"; VStr "White"; VStr "Grey"]
                eq_refl eq_refl Hld Hlen Hv Hs)
    as (Hacc & Hdraft & _ & Hkeep & _ & Hlater & _).
  split; [reflexivity|]. split; [reflexivity|].
  split; [exact Hld|]. split; [exact Hlen|].
  split; [exact Hv|]. split; [exact Hs|].
  split; [exact Hacc|]. split; [exact Hdraft|]. split; [exact Hkeep|].
  exact Hlater.
Defined.

(** The values of that snapshot. *)
Example accepted_snapshot_values :
  contents (heap w_accepted) 2
  = [("primary_color", VStr "Blue");
     ("secondary_colors", VList [VStr "White"; VStr "White"; VStr "Grey"]);
     ("design_style", VStr "Modern");
     ("theme", VStr "Nature");
     ("suitable_for", VStr "")].
Proof. vm_compute. reflexivity. Qed.

Lemma failed_extraction_commits_nothing_witness :
  pressed (click BtnExtract) = Some BtnExtract
  ∧ on_change (click BtnExtract) = false
  ∧ description_typed (click BtnExtract) = None
  ∧ extraction_failure (extract_metadata json_subset_loads (vision_reply env_garbled))
    = Some (ValueError "Could not parse JSON from model output.")
  ∧ session (demo_rerun env_garbled (click BtnExtract) w_described)
    = session w_described
  ∧ swatch_metadata (demo_rerun env_garbled (click BtnExtract) w_described)
    = swatch_metadata w_described
  ∧ heap w_described
      `prefix_of` heap (demo_rerun env_garbled (click BtnExtract) w_described).
Proof.
  assert (Hfail : extraction_failure
                    (extract_metadata json_subset_loads (vision_reply env_garbled))
                  = Some (ValueError "Could not parse JSON from model output."))
    by (vm_compute; reflexivity).
  pose proof (failed_extraction_commits_nothing
                demo_float_repr json_subset_loads demo_colors demo_designs
                demo_themes env_garbled (click BtnExtract) w_described _
                eq_refl eq_refl eq_refl Hfail)
    as (_ & Hsess & Htab & Hheap & _).
  split; [reflexivity|]. split; [reflexivity|]. split; [reflexivity|].
  split; [exact Hfail|]. split; [exact Hsess|]. split; [exact Htab|].
  exact Hheap.
Defined.

Lemma extraction_defaults_missing_keys_witness :
  uploaded (click BtnExtract) = Some "swatch_01.png"
  ∧ pressed (click BtnExtract) = Some BtnExtract
  ∧ extract_metadata json_subset_loads (vision_reply env_purple)
    = Ok (VDict answer_purple)
  ∧ ∃ ld,
      draft_meta (session w_extracted) = Some ld
      ∧ dict_lookup (contents (heap w_extracted) ld) "suitable_for"
        = Some (VStr "")
      ∧ dict_lookup (contents (heap w_extracted) ld) "secondary_colors"
        = Some (VList [VStr "White"; VStr "Pink"; VStr "White"; VStr "Grey"]).
Proof.
  assert (Hparsed : extract_metadata json_subset_loads (vision_reply env_purple)
                    = Ok (VDict answer_purple))
    by (vm_compute; reflexivity).
  destruct (extraction_defaults_missing_keys
              demo_float_repr json_subset_loads demo_colors demo_designs
              demo_themes env_purple (click BtnExtract) (init_world ∅)
              "swatch_01.png" answer_purple eq_refl eq_refl Hparsed)
    as (ld & Hld & Hpresent & Hmissing & _).
  split; [reflexivity|]. split; [reflexivity|]. split; [exact Hparsed|].
  exists ld. split; [exact Hld|]. split.
  - apply Hmissing; [|reflexivity]. unfold defaults. in_list.
  - apply Hpresent. reflexivity.
Defined.

Definition payload_first : dict :=
  [("swatch_id", VStr "swatch_01"); ("primary_color", VStr "Blue");
   ("secondary_colors", VList [VStr "White"]); ("design_style", VStr "Modern");
   ("theme", VStr "Nature"); ("suitable_for", VStr "Bedroom");
   ("description", VStr "Blue and white."); ("image_filename", VStr "a.png")].

Definition payload_second : dict :=
  [("swatch_id", VStr "swatch_01"); ("primary_color", VStr "Red");
   ("secondary_colors", VList []); ("design_style", VStr "Classic");
   ("theme", VStr "Floral")].

Lemma upsert_swatch_overwrites_witness :
  has_required_keys payload_first "swatch_01"
  ∧ has_required_keys payload_second "swatch_01"
  ∧ ∃ t1 t2 r2,
      upsert_swatch demo_float_repr None 100 payload_first ∅ = Ok t1
      ∧ upsert_swatch demo_float_repr None 200 payload_second t1 = Ok t2
      ∧ t2 !! "swatch_01" = Some r2
      ∧ r2 !! "primary_color" = Some (Bound (VStr "Red"))
      ∧ r2 !! "secondary_colors" = Some (Bound (VStr "[]"))
      ∧ r2 !! "suitable_for" = Some (Bound VNone)
      ∧ r2 !! "description" = Some (Bound VNone)
      ∧ r2 !! "updated_at" = Some (Timestamp 200)
      ∧ dom t2 = {["swatch_01"]}.
Proof.
  assert (H1 : has_required_keys payload_first "swatch_01")
    by (repeat split; eexists; reflexivity).
  assert (H2 : has_required_keys payload_second "swatch_01")
    by (repeat split; eexists; reflexivity).
  destruct (upsert_swatch_overwrites demo_float_repr 100 200 payload_first
              payload_second "swatch_01" ∅ H1 H2)
    as (t1 & t2 & r1 & r2 & E1 & E2 & _ & _ & Hr2 & [Hcols Htime] & Hdom & _).
  split; [exact H1|]. split; [exact H2|].
  exists t1, t2, r2. split; [exact E1|]. split; [exact E2|]. split; [exact Hr2|].
  split; [apply (Hcols "primary_color"); unfold payload_columns; in_list|].
  split; [apply (Hcols "secondary_colors"); unfold payload_columns; in_list|].
  split; [apply (Hcols "suitable_for"); unfold payload_columns; in_list|].
  split; [apply (Hcols "description"); unfold payload_columns; in_list|].
  split; [exact Htime|].
  rewrite Hdom, dom_empty_L. apply union_empty_r_L.
Defined.

Lemma accepted_snapshot_is_valid_witness :
  demo_colors ≠ [] ∧ demo_designs ≠ [] ∧ demo_themes ≠ []
  ∧ demo_reachable w_accepted
  ∧ accepted_meta (session w_accepted) = Some 2%nat
  ∧ categorically_valid demo_colors demo_designs demo_themes
      (contents (heap w_accepted) 2)
  ∧ validate_categorical demo_float_repr (contents (heap w_accepted) 2)
      (color_set demo_colors) (design_set demo_designs) (theme_set demo_themes)
    = Ok [].
Proof.
  split; [discriminate|]. split; [discriminate|]. split; [discriminate|].
  split; [exact w_accepted_reachable|]. split; [vm_compute; reflexivity|].
  exact (accepted_snapshot_is_valid
           demo_float_repr json_subset_loads demo_colors demo_designs demo_themes
           w_accepted 2%nat ltac:(discriminate) ltac:(discriminate)
           ltac:(discriminate) w_accepted_reachable
           ltac:(vm_compute; reflexivity)).
Defined.

Lemma saved_row_comes_from_snapshot_witness :
  demo_reachable w_described
  ∧ uploaded (click BtnSave) = Some "swatch_01.png"
  ∧ pressed (click BtnSave) = Some BtnSave
  ∧ on_change (click BtnSave) = false
  ∧ accepted_meta (session w_described) = Some 2%nat
  ∧ strip (text_area (description (session w_described))
                      (description_typed (click BtnSave))) ≠ ""
  ∧ basis_agrees demo_float_repr w_described 2
  ∧ ∃ payload,
      upserts (out (demo_rerun env_purple (click BtnSave) w_described))
      = [Upsert payload]
      ∧ dict_lookup payload "primary_color"
        = dict_lookup (contents (heap w_described) 2) "primary_color"
      ∧ dict_lookup payload "description"
        = Some (VStr (strip (text_area (description (session w_described))
                                        (description_typed (click BtnSave)))))
      ∧ dict_lookup payload "swatch_id" = Some (VStr "swatch_01")
      ∧ dict_lookup payload "image_filename" = Some (VStr "swatch_01.png")
      ∧ ∃ r, swatch_metadata (demo_rerun env_purple (click BtnSave) w_described)
               !! "swatch_01"
             = Some r
             ∧ carries demo_float_repr r payload (now env_purple).
Proof.
  assert (Hd : strip (text_area (description (session w_described))
                                 (description_typed (click BtnSave))) ≠ "")
    by (vm_compute; discriminate).
  assert (Hb : basis_agrees demo_float_repr w_described 2)
    by (vm_compute; reflexivity).
  assert (Hla : accepted_meta (session w_described) = Some 2%nat)
    by (vm_compute; reflexivity).
  destruct (saved_row_comes_from_snapshot
              demo_float_repr json_subset_loads demo_colors demo_designs
              demo_themes env_purple (click BtnSave) w_described
              "swatch_01.png" 2%nat
              w_described_reachable eq_refl eq_refl eq_refl Hla Hd Hb)
    as (payload & Hcall & Hfields & Hdesc & _ & Hfile & Hsid & _ & Hname & Hrow).
  assert (Hstem : swatch_id_of (swatch_id_input (click BtnSave)) "swatch_01.png"
                  = "swatch_01").
  { apply (proj1 (Hname eq_refl) "swatch_01" "png" eq_refl).
    - apply lacks_chars. reflexivity.
    - exists 0%nat, "s"%char. split; [reflexivity|discriminate].
    - apply lacks_chars. reflexivity.
    - apply lacks_chars. reflexivity. }
  specialize (Hrow eq_refl). rewrite Hstem in Hsid, Hrow.
  split; [exact w_described_reachable|].
  split; [reflexivity|]. split; [reflexivity|]. split; [reflexivity|].
  split; [exact Hla|]. split; [exact Hd|]. split; [exact Hb|].
  exists payload. split; [exact Hcall|].
  split; [apply Hfields; cbn; in_list|].
  split; [exact Hdesc|]. split; [exact Hsid|]. split; [exact Hfile|].
  exact Hrow.
Defined.

(** The stored row of that run. *)
Example stored_row_values :
  let t := swatch_metadata (demo_rerun env_purple (click BtnSave) w_described) in
  let column c := t !! "swatch_01" ≫= (fun r : gmap string cell => r !! c) in
  column "swatch_id" = Some (Bound (VStr "swatch_01"))
  ∧ column "primary_color" = Some (Bound (VStr "Blue"))
  ∧ column "secondary_colors"
    = Some (Bound (VStr (demo_dumps (VList [VStr "White"; VStr "White"; VStr "Grey"]))))
  ∧ column "description" = Some (Bound (VStr "A modern wallpaper in blue."))
  ∧ column "image_filename" = Some (Bound (VStr "swatch_01.png"))
  ∧ column "updated_at" = Some (Timestamp 100).
Proof. vm_compute. repeat split; reflexivity. Qed.

(* ------------------------------------------------------------------ *)
(** ** Further theorems at concrete inputs *)

Definition demo_load_options :=
  load_options demo_float_repr.

(** The three files, with blank and repeated cells and cells to strip. *)
Definition color_frame : gmap string (list value) :=
  {[ "GENERIC NAMES" :=
       [VStr " Red "; VStr "Blue"; VNone; VStr "Red"; VStr "  "; VStr "White";
        VStr "Grey"] ]}.
Definition design_frame : gmap string (list value) :=
  {[ "DESIGN STYLE" := [VStr "Modern"; VStr "Classic"; VStr "Modern"] ]}.
Definition theme_frame : gmap string (list value) :=
  {[ "THEMES" := [VStr "Nature"; VStr "Floral"] ]}.

(** The colour file with its first two rows exchanged. *)
Definition color_frame_swapped : gmap string (list value) :=
  {[ "GENERIC NAMES" :=
       [VStr "Blue"; VStr " Red "; VNone; VStr "Red"; VStr "  "; VStr "White";
        VStr "Grey"] ]}.

Example demo_options_loaded :
  demo_load_options (Ok color_frame) (Ok design_frame) (Ok theme_frame)
  = Ok (demo_colors, demo_designs, demo_themes).
Proof. vm_compute. reflexivity. Qed.

Lemma b64_image_injective_witness :
  _b64_image [Byte.x48; Byte.x69] = _b64_image [Byte.x48; Byte.x69]
  ∧ [Byte.x48; Byte.x69] = [Byte.x48; Byte.x69].
Proof.
  split; [reflexivity|].
  exact (b64_image_injective [Byte.x48; Byte.x69] [Byte.x48; Byte.x69] eq_refl).
Defined.

(** The two bytes of "Hi". *)
Example b64_of_two_bytes : _b64_image [Byte.x48; Byte.x69] = "SGk=".
Proof. reflexivity. Qed.

Lemma swatch_id_not_empty_witness :
  "swatch_01.png" ≠ "" ∧ swatch_id_of "  " "swatch_01.png" ≠ "".
Proof.
  split; [discriminate|].
  exact (swatch_id_not_empty "  " "swatch_01.png" ltac:(discriminate)).
Defined.

Lemma default_id_drops_extension_witness :
  strip "  " = ""
  ∧ lacks "swatch_01" "/"%char ∧ has_other_than "swatch_01" "."%char
  ∧ lacks "jpg" "."%char ∧ lacks "jpg" "/"%char
  ∧ swatch_id_of "  " ("swatch_01" +:+ String "."%char "jpg") = "swatch_01".
Proof.
  assert (H1 : lacks "swatch_01" "/"%char) by (apply lacks_chars; reflexivity).
  assert (H2 : has_other_than "swatch_01" "."%char)
    by (exists 0%nat, "s"%char; split; [reflexivity|discriminate]).
  assert (H3 : lacks "jpg" "."%char) by (apply lacks_chars; reflexivity).
  assert (H4 : lacks "jpg" "/"%char) by (apply lacks_chars; reflexivity).
  split; [reflexivity|]. split; [exact H1|]. split; [exact H2|].
  split; [exact H3|]. split; [exact H4|].
  exact (default_id_drops_extension "  " "swatch_01" "jpg" eq_refl H1 H2 H3 H4).
Defined.

(** The same id as for [swatch_01.png]. *)
Example same_id_for_png_and_jpg :
  swatch_id_of "" "swatch_01.png" = swatch_id_of "" "swatch_01.jpg".
Proof. vm_compute. reflexivity. Qed.

Lemma load_options_normal_witness :
  demo_load_options (Ok color_frame) (Ok design_frame) (Ok theme_frame)
  = Ok (demo_colors, demo_designs, demo_themes)
  ∧ normal_options demo_colors ∧ normal_options demo_designs
  ∧ normal_options demo_themes.
Proof.
  split; [exact demo_options_loaded|].
  exact (load_options_normal demo_float_repr (Ok color_frame) (Ok design_frame)
           (Ok theme_frame) demo_colors demo_designs demo_themes
           demo_options_loaded).
Defined.

Lemma load_options_offers_witness :
  demo_load_options (Ok color_frame) (Ok design_frame) (Ok theme_frame)
  = Ok (demo_colors, demo_designs, demo_themes)
  ∧ ∃ cc dc tc,
      color_frame !! "GENERIC NAMES" = Some cc
      ∧ design_frame !! "DESIGN STYLE" = Some dc
      ∧ theme_frame !! "THEMES" = Some tc
      ∧ (∀ s, s ∈ demo_colors ↔ offered demo_float_repr cc s)
      ∧ (∀ s, s ∈ demo_designs ↔ offered demo_float_repr dc s)
      ∧ (∀ s, s ∈ demo_themes ↔ offered demo_float_repr tc s).
Proof.
  split; [exact demo_options_loaded|].
  exact (load_options_offers demo_float_repr color_frame design_frame theme_frame
           demo_colors demo_designs demo_themes demo_options_loaded).
Defined.

Lemma load_options_row_order_witness :
  option_Forall2 (≡ₚ) (color_frame !! "GENERIC NAMES")
                 (color_frame_swapped !! "GENERIC NAMES")
  ∧ option_Forall2 (≡ₚ) (design_frame !! "DESIGN STYLE")
                   (design_frame !! "DESIGN STYLE")
  ∧ option_Forall2 (≡ₚ) (theme_frame !! "THEMES") (theme_frame !! "THEMES")
  ∧ demo_load_options (Ok color_frame) (Ok design_frame) (Ok theme_frame)
    = demo_load_options (Ok color_frame_swapped) (Ok design_frame)
                        (Ok theme_frame).
Proof.
  assert (Hc : option_Forall2 (≡ₚ) (color_frame !! "GENERIC NAMES")
                              (color_frame_swapped !! "GENERIC NAMES")).
  { unfold color_frame, color_frame_swapped. rewrite !lookup_singleton_eq.
    constructor. apply perm_swap. }
  assert (Hd : option_Forall2 (≡ₚ) (design_frame !! "DESIGN STYLE")
                              (design_frame !! "DESIGN STYLE")).
  { unfold design_frame. rewrite !lookup_singleton_eq. constructor. reflexivity. }
  assert (Ht : option_Forall2 (≡ₚ) (theme_frame !! "THEMES")
                              (theme_frame !! "THEMES")).
  { unfold theme_frame. rewrite !lookup_singleton_eq. constructor. reflexivity. }
  split; [exact Hc|]. split; [exact Hd|]. split; [exact Ht|].
  exact (load_options_row_order demo_float_repr color_frame design_frame
           theme_frame color_frame_swapped design_frame theme_frame Hc Hd Ht).
Defined.

Lemma load_options_reload_witness :
  demo_load_options (Ok color_frame) (Ok design_frame) (Ok theme_frame)
  = Ok (demo_colors, demo_designs, demo_themes)
  ∧ demo_load_options (Ok {[ "GENERIC NAMES" := VStr <$> demo_colors ]})
                      (Ok {[ "DESIGN STYLE" := VStr <$> demo_designs ]})
                      (Ok {[ "THEMES" := VStr <$> demo_themes ]})
    = Ok (demo_colors, demo_designs, demo_themes).
Proof.
  split; [exact demo_options_loaded|].
  exact (load_options_reload demo_float_repr (Ok color_frame) (Ok design_frame)
           (Ok theme_frame) demo_colors demo_designs demo_themes
           demo_options_loaded).
Defined.

(** A table with one older row. *)
Definition table_with_older_row : gmap string (gmap string cell) :=
  {[ "swatch_00" := {[ "updated_at" := Timestamp 50 ]} ]}.

Lemma fetch_all_latest_first_witness :
  has_required_keys payload_first "swatch_01"
  ∧ (∀ k r, table_with_older_row !! k = Some r -> k ≠ "swatch_01" ->
            ∃ ts, stamp r = Some ts ∧ ts < 100)
  ∧ ∃ t' r rest,
      upsert_swatch demo_float_repr None 100 payload_first table_with_older_row
      = Ok t'
      ∧ fetch_all None t' = Ok (r :: rest)
      ∧ t' !! "swatch_01" = Some r
      ∧ carries demo_float_repr r payload_first 100.
Proof.
  assert (H1 : has_required_keys payload_first "swatch_01")
    by (repeat split; eexists; reflexivity).
  assert (H2 : ∀ k r, table_with_older_row !! k = Some r -> k ≠ "swatch_01" ->
                      ∃ ts, stamp r = Some ts ∧ ts < 100).
  { intros k r H _. unfold table_with_older_row in H.
    apply lookup_singleton_Some in H as [_ <-].
    exists 50. split; [reflexivity|lia]. }
  split; [exact H1|]. split; [exact H2|].
  exact (fetch_all_latest_first demo_float_repr 100 payload_first "swatch_01"
           table_with_older_row H1 H2).
Defined.

(** The rows of that table after the call, as [fetch_all] returns them. *)
Example newest_row_first :
  match upsert_swatch demo_float_repr None 100 payload_first
                      table_with_older_row with
  | Ok t =>
      match fetch_all None t with
      | Ok rows => map (fun r : gmap string cell => r !! "updated_at") rows
      | Raise _ => []
      end
  | Raise _ => []
  end
  = [Some (Timestamp 100); Some (Timestamp 50)].
Proof. vm_compute. reflexivity. Qed.

(** A payload with two secondary colours. *)
Definition payload_two_colours : dict :=
  [("swatch_id", VStr "swatch_02"); ("primary_color", VStr "Blue");
   ("secondary_colors", VList [VStr "White"; VStr "Grey"]);
   ("design_style", VStr "Modern"); ("theme", VStr "Nature")].

Lemma pretty_secondary_stored_witness :
  dict_get payload_two_colours "secondary_colors"
  = VList (VStr <$> ["White"; "Grey"])
  ∧ json_subset_loads (demo_dumps (VList (VStr <$> ["White"; "Grey"])))
    = Ok (VList (VStr <$> ["White"; "Grey"]))
  ∧ pretty_secondary demo_float_repr json_subset_loads
      (bound_param demo_float_repr payload_two_colours "secondary_colors")
    = join ", " ["White"; "Grey"].
Proof.
  assert (Hj : json_subset_loads (demo_dumps (VList (VStr <$> ["White"; "Grey"])))
               = Ok (VList (VStr <$> ["White"; "Grey"])))
    by (vm_compute; reflexivity).
  split; [reflexivity|]. split; [exact Hj|].
  exact (pretty_secondary_stored demo_float_repr json_subset_loads
           payload_two_colours ["White"; "Grey"] eq_refl Hj).
Defined.

(** What the export shows for other cells. *)
Example pretty_secondary_cells :
  pretty_secondary demo_float_repr json_subset_loads VNone = ""
  ∧ pretty_secondary demo_float_repr json_subset_loads (VInt 7) = ""
  ∧ pretty_secondary demo_float_repr json_subset_loads (VStr "White, Grey")
    = "White, Grey"
  ∧ pretty_secondary demo_float_repr json_subset_loads (VStr "[1, 2]") = "[1, 2]"
  ∧ pretty_secondary demo_float_repr json_subset_loads (VStr "[]") = "".
Proof. vm_compute. repeat split; reflexivity. Qed.

Definition record_blue : MetadataRecord :=
  {| primary_color := "Blue"; secondary_colors := ["White"; "Grey"];
     design_style := "Modern"; theme := "Nature"; suitable_for := "Bedroom" |}.

Lemma fingerprint_injective_witness :
  demo_fingerprint (meta_dict record_blue) = demo_fingerprint (meta_dict record_blue)
  ∧ record_blue = record_blue.
Proof.
  split; [reflexivity|].
  exact (fingerprint_injective demo_float_repr record_blue record_blue eq_refl).
Defined.

(** A draft with a number, a missing list and a missing theme. *)
Definition answer_number : dict :=
  [("primary_color", VInt 5); ("design_style", VStr "Modern")].

Lemma validate_categorical_reports_types_witness :
  validate_categorical demo_float_repr answer_number (color_set demo_colors)
                       (design_set demo_designs) (theme_set demo_themes)
  = Ok ["primary_color not in options: 5"; "secondary_colors must be a list";
        "theme not in options: None"]
  ∧ "primary_color not in options: "
    +:+ py_str demo_float_repr (dict_get answer_number "primary_color")
    ∈ ["primary_color not in options: 5"; "secondary_colors must be a list";
       "theme not in options: None"]
  ∧ "secondary_colors must be a list"
    ∈ ["primary_color not in options: 5"; "secondary_colors must be a list";
       "theme not in options: None"]
  ∧ "theme not in options: "
    +:+ py_str demo_float_repr (dict_get answer_number "theme")
    ∈ ["primary_color not in options: 5"; "secondary_colors must be a list";
       "theme not in options: None"].
Proof.
  assert (Hv : validate_categorical demo_float_repr answer_number
                 (color_set demo_colors) (design_set demo_designs)
                 (theme_set demo_themes)
               = Ok ["primary_color not in options: 5";
                     "secondary_colors must be a list";
                     "theme not in options: None"])
    by (vm_compute; reflexivity).
  destruct (validate_categorical_reports_types demo_float_repr answer_number
              (color_set demo_colors) (design_set demo_designs)
              (theme_set demo_themes)
              ["primary_color not in options: 5";
               "secondary_colors must be a list";
               "theme not in options: None"] Hv)
    as (Hpc & Hsc & _ & Hth).
  split; [exact Hv|].
  split; [apply Hpc; discriminate|].
  split; [apply Hsc; discriminate|].
  apply Hth; discriminate.
Defined.

(** A payload without [theme]. *)
Definition payload_no_theme : dict :=
  [("swatch_id", VStr "swatch_01"); ("primary_color", VStr "Red");
   ("secondary_colors", VList []); ("design_style", VStr "Classic")].

Lemma upsert_swatch_missing_key_witness :
  "theme" ∈ required_keys
  ∧ dict_lookup payload_no_theme "theme" = None
  ∧ ∃ k, k ∈ required_keys ∧ dict_lookup payload_no_theme k = None
         ∧ upsert_swatch demo_float_repr None 100 payload_no_theme ∅
           = Raise (KeyError k).
Proof.
  assert (Hk : "theme" ∈ required_keys) by (unfold required_keys; in_list).
  split; [exact Hk|]. split; [reflexivity|].
  exact (proj2 (upsert_swatch_missing_key demo_float_repr None 100
                  payload_no_theme ∅ "theme" Hk eq_refl) eq_refl).
Defined.

Lemma upsert_swatch_idempotent_witness :
  has_required_keys payload_first "swatch_01"
  ∧ ∃ t1, upsert_swatch demo_float_repr None 100 payload_first
                        table_with_older_row = Ok t1
          ∧ upsert_swatch demo_float_repr None 100 payload_first t1 = Ok t1.
Proof.
  assert (H1 : has_required_keys payload_first "swatch_01")
    by (repeat split; eexists; reflexivity).
  split; [exact H1|].
  exact (upsert_swatch_idempotent demo_float_repr 100 payload_first "swatch_01"
           table_with_older_row H1).
Defined.

(** The world after the edit of Scenario B. *)
Definition w_edited : world := demo_rerun env_purple change_primary w_described.

Lemma change_primary_ok : demo_ui_ok change_primary.
Proof. repeat split. cbn. unfold demo_colors. in_list. Qed.

Lemma w_edited_reachable : demo_reachable w_edited.
Proof.
  apply reachable_rerun; [apply w_described_reachable|apply change_primary_ok].
Qed.

Lemma description_needs_snapshot_witness :
  demo_reachable w_edited
  ∧ accepted_meta (session w_edited) = None
  ∧ meta_dirty (session w_edited) = true
  ∧ description (session w_edited) = ""
  ∧ desc_based_on_meta (session w_edited) = None.
Proof.
  assert (Hnone : accepted_meta (session w_edited) = None)
    by (vm_compute; reflexivity).
  split; [exact w_edited_reachable|]. split; [exact Hnone|].
  split; [vm_compute; reflexivity|].
  exact (proj1 (description_needs_snapshot
                  demo_float_repr json_subset_loads demo_colors demo_designs
                  demo_themes w_edited w_edited_reachable) Hnone).
Defined.

(** Accept, Generate, an edit and a Save click after the extraction. *)
Definition later_steps : list (env * ui) :=
  [(env_purple, click BtnAccept); (env_purple, click BtnGenerate);
   (env_purple, change_primary); (env_purple, click BtnSave)].

Lemma draft_changes_only_by_extract_witness :
  Forall (fun step : env * ui => pressed step.2 ≠ Some BtnExtract) later_steps
  ∧ (0 < length (heap w_extracted))%nat
  ∧ draft_meta
      (session (reruns demo_float_repr json_subset_loads demo_colors
                       demo_designs demo_themes later_steps w_extracted))
    = draft_meta (session w_extracted)
  ∧ contents
      (heap (reruns demo_float_repr json_subset_loads demo_colors demo_designs
                    demo_themes later_steps w_extracted)) 0
    = contents (heap w_extracted) 0.
Proof.
  assert (Hsteps : Forall (fun step : env * ui => pressed step.2 ≠ Some BtnExtract)
                          later_steps)
    by (repeat constructor; discriminate).
  assert (Hlen : (0 < length (heap w_extracted))%nat) by (vm_compute; lia).
  destruct (draft_changes_only_by_extract
              demo_float_repr json_subset_loads demo_colors demo_designs
              demo_themes later_steps w_extracted Hsteps) as [Hdraft Hobj].
  split; [exact Hsteps|]. split; [exact Hlen|]. split; [exact Hdraft|].
  exact (Hobj 0%nat Hlen).
Defined.

Lemma only_save_writes_witness :
  pressed (click BtnGenerate) ≠ Some BtnSave
  ∧ upserts (out (demo_rerun env_purple (click BtnGenerate) w_accepted)) = []
  ∧ swatch_metadata (demo_rerun env_purple (click BtnGenerate) w_accepted)
    = swatch_metadata w_accepted.
Proof.
  split; [discriminate|].
  exact (only_save_writes
           demo_float_repr json_subset_loads demo_colors demo_designs demo_themes
           env_purple (click BtnGenerate) w_accepted ltac:(discriminate)).
Defined.

(** A Save click before anything was accepted. *)
Lemma nothing_without_snapshot_witness :
  accepted_meta (session w_extracted) = None
  ∧ pressed (click BtnSave) ≠ Some BtnExtract
  ∧ pressed (click BtnSave) ≠ Some BtnAccept
  ∧ session (demo_rerun env_purple (click BtnSave) w_extracted)
    = session w_extracted
  ∧ swatch_metadata (demo_rerun env_purple (click BtnSave) w_extracted)
    = swatch_metadata w_extracted
  ∧ upserts (out (demo_rerun env_purple (click BtnSave) w_extracted)) = [].
Proof.
  assert (Hnone : accepted_meta (session w_extracted) = None)
    by (vm_compute; reflexivity).
  split; [exact Hnone|]. split; [discriminate|]. split; [discriminate|].
  exact (nothing_without_snapshot
           demo_float_repr json_subset_loads demo_colors demo_designs demo_themes
           env_purple (click BtnSave) w_extracted Hnone
           ltac:(discriminate) ltac:(discriminate)).
Defined.

(** Extract again after Accept and Generate. *)
Lemma extraction_starts_over_witness :
  uploaded (click BtnExtract) = Some "swatch_01.png"
  ∧ pressed (click BtnExtract) = Some BtnExtract
  ∧ extract_metadata json_subset_loads (vision_reply env_purple)
    = Ok (VDict answer_purple)
  ∧ session (demo_rerun env_purple (click BtnExtract) w_described)
    = SessionState (Some (length (heap w_described))) None false "" None
  ∧ swatch_metadata (demo_rerun env_purple (click BtnExtract) w_described)
    = swatch_metadata w_described
  ∧ upserts (out (demo_rerun env_purple (click BtnExtract) w_described)) = [].
Proof.
  assert (Hparsed : extract_metadata json_subset_loads (vision_reply env_purple)
                    = Ok (VDict answer_purple))
    by (vm_compute; reflexivity).
  destruct (extraction_starts_over
              demo_float_repr json_subset_loads demo_colors demo_designs
              demo_themes env_purple (click BtnExtract) w_described
              "swatch_01.png" answer_purple eq_refl eq_refl Hparsed)
    as (Hs & _ & Ht & Hc).
  split; [reflexivity|]. split; [reflexivity|]. split; [exact Hparsed|].
  split; [exact Hs|]. split; [exact Ht|exact Hc].
Defined.

(** The user has written into the editor that Accept left empty, and
    presses Generate. *)
Definition click_generate_after_edit : ui :=
  UI (Some "swatch_01.png") "" false (Some BtnGenerate) None None None None None
     (Some ("", "My own words.")).

Lemma click_generate_after_edit_ok : demo_ui_ok click_generate_after_edit.
Proof. repeat split. Qed.

Lemma generate_records_the_basis_witness :
  demo_reachable w_accepted
  ∧ uploaded click_generate_after_edit = Some "swatch_01.png"
  ∧ pressed click_generate_after_edit = Some BtnGenerate
  ∧ on_change click_generate_after_edit = false
  ∧ accepted_meta (session w_accepted) = Some 2%nat
  ∧ writer env_purple (demo_dumps (VDict (contents (heap w_accepted) 2)))
    = Ok (Some " A modern wallpaper in blue. ")
  ∧ description_typed click_generate_after_edit = Some ("", "My own words.")
  ∧ "" ≠ strip (default "" (Some " A modern wallpaper in blue. "))
  ∧ accepted_meta (session (demo_rerun env_purple click_generate_after_edit
                                       w_accepted)) = Some 2%nat
  ∧ description (session (demo_rerun env_purple click_generate_after_edit
                                     w_accepted))
    = strip (default "" (Some " A modern wallpaper in blue. "))
  ∧ desc_based_on_meta (session (demo_rerun env_purple click_generate_after_edit
                                            w_accepted))
    = Some (demo_fingerprint (contents (heap w_accepted) 2))
  ∧ basis_agrees demo_float_repr
                 (demo_rerun env_purple click_generate_after_edit w_accepted) 2
  ∧ swatch_metadata (demo_rerun env_purple click_generate_after_edit w_accepted)
    = swatch_metadata w_accepted.
Proof.
  assert (Hla : accepted_meta (session w_accepted) = Some 2%nat)
    by (vm_compute; reflexivity).
  assert (Hne : "" ≠ strip (default "" (Some " A modern wallpaper in blue. ")))
    by (vm_compute; discriminate).
  pose proof (generate_records_the_basis
                demo_float_repr json_subset_loads demo_colors demo_designs
                demo_themes env_purple click_generate_after_edit w_accepted
                "swatch_01.png" 2%nat (Some " A modern wallpaper in blue. ")
                w_accepted_reachable eq_refl eq_refl eq_refl Hla eq_refl)
    as (Hacc & _ & _ & _ & Hdropped & Hbasis & Hagrees & Htable).
  split; [exact w_accepted_reachable|].
  split; [reflexivity|]. split; [reflexivity|]. split; [reflexivity|].
  split; [exact Hla|]. split; [reflexivity|]. split; [reflexivity|].
  split; [exact Hne|]. split; [exact Hacc|].
  split; [exact (Hdropped "" "My own words." eq_refl Hne)|].
  split; [exact Hbasis|]. split; [exact Hagrees|exact Htable].
Defined.

(** The description after that click is the answer of the model. *)
Example edit_before_generate_is_dropped :
  description (session (demo_rerun env_purple click_generate_after_edit w_accepted))
  = "A modern wallpaper in blue.".
Proof. vm_compute. reflexivity. Qed.

(** The language model is out of reach. *)
Definition env_writer_down : env :=
  Env (Ok (Some "{}")) (fun meta_json => Raise (ServiceError "timed out")) None 100.

Lemma failed_generation_keeps_the_basis_witness :
  demo_reachable w_described
  ∧ uploaded (click BtnGenerate) = Some "swatch_01.png"
  ∧ pressed (click BtnGenerate) = Some BtnGenerate
  ∧ on_change (click BtnGenerate) = false
  ∧ accepted_meta (session w_described) = Some 2%nat
  ∧ writer env_writer_down (demo_dumps (VDict (contents (heap w_described) 2)))
    = Raise (ServiceError "timed out")
  ∧ last (out (demo_rerun env_writer_down (click BtnGenerate) w_described))
    = Some (StError ("Description generation failed: "
                     +:+ exn_str (ServiceError "timed out")))
  ∧ session (demo_rerun env_writer_down (click BtnGenerate) w_described)
    = set_description
        (text_area (description (session w_described))
                    (description_typed (click BtnGenerate)))
        (session w_described)
  ∧ swatch_metadata (demo_rerun env_writer_down (click BtnGenerate) w_described)
    = swatch_metadata w_described.
Proof.
  assert (Hla : accepted_meta (session w_described) = Some 2%nat)
    by (vm_compute; reflexivity).
  split; [exact w_described_reachable|].
  split; [reflexivity|]. split; [reflexivity|]. split; [reflexivity|].
  split; [exact Hla|]. split; [reflexivity|].
  exact (failed_generation_keeps_the_basis
           demo_float_repr json_subset_loads demo_colors demo_designs demo_themes
           env_writer_down (click BtnGenerate) w_described "swatch_01.png" 2%nat
           (ServiceError "timed out")
           w_described_reachable eq_refl eq_refl eq_refl Hla eq_refl).
Defined.

Lemma save_needs_a_description_witness :
  demo_reachable w_accepted
  ∧ uploaded (click BtnSave) = Some "swatch_01.png"
  ∧ pressed (click BtnSave) = Some BtnSave
  ∧ on_change (click BtnSave) = false
  ∧ accepted_meta (session w_accepted) = Some 2%nat
  ∧ strip (text_area (description (session w_accepted))
                      (description_typed (click BtnSave))) = ""
  ∧ last (out (demo_rerun env_purple (click BtnSave) w_accepted))
    = Some (StError empty_description_text)
  ∧ upserts (out (demo_rerun env_purple (click BtnSave) w_accepted)) = []
  ∧ swatch_metadata (demo_rerun env_purple (click BtnSave) w_accepted)
    = swatch_metadata w_accepted
  ∧ session (demo_rerun env_purple (click BtnSave) w_accepted)
    = set_description
        (text_area (description (session w_accepted))
                    (description_typed (click BtnSave)))
        (session w_accepted).
Proof.
  assert (Hla : accepted_meta (session w_accepted) = Some 2%nat)
    by (vm_compute; reflexivity).
  assert (Hd : strip (text_area (description (session w_accepted))
                                 (description_typed (click BtnSave))) = "")
    by (vm_compute; reflexivity).
  split; [exact w_accepted_reachable|].
  split; [reflexivity|]. split; [reflexivity|]. split; [reflexivity|].
  split; [exact Hla|]. split; [exact Hd|].
  exact (save_needs_a_description
           demo_float_repr json_subset_loads demo_colors demo_designs demo_themes
           env_purple (click BtnSave) w_accepted "swatch_01.png" 2%nat
           w_accepted_reachable eq_refl eq_refl eq_refl Hla Hd).
Defined.

(** The connection is lost after the query of the sidebar. *)
Definition env_connection_lost : env :=
  Env (Ok (Some "{}")) (fun meta_json => Ok (Some "A modern wallpaper."))
      (Some (ServiceError "server closed the connection unexpectedly")) 100.

Lemma failed_save_can_be_retried_witness :
  demo_reachable w_described
  ∧ uploaded (click BtnSave) = Some "swatch_01.png"
  ∧ pressed (click BtnSave) = Some BtnSave
  ∧ on_change (click BtnSave) = false
  ∧ accepted_meta (session w_described) = Some 2%nat
  ∧ strip (text_area (description (session w_described))
                      (description_typed (click BtnSave))) ≠ ""
  ∧ basis_agrees demo_float_repr w_described 2
  ∧ db_fault env_connection_lost
    = Some (ServiceError "server closed the connection unexpectedly")
  ∧ (∃ payload,
       upserts (out (demo_rerun_with None env_connection_lost (click BtnSave)
                                     w_described))
       = [Upsert payload])
  ∧ last (out (demo_rerun_with None env_connection_lost (click BtnSave)
                               w_described))
    = Some (StError ("Save failed: "
                     +:+ exn_str (ServiceError
                                    "server closed the connection unexpectedly")))
  ∧ swatch_metadata (demo_rerun_with None env_connection_lost (click BtnSave)
                                     w_described)
    = swatch_metadata w_described
  ∧ accepted_meta (session (demo_rerun_with None env_connection_lost
                                            (click BtnSave) w_described))
    = Some 2%nat
  ∧ desc_based_on_meta (session (demo_rerun_with None env_connection_lost
                                                 (click BtnSave) w_described))
    = desc_based_on_meta (session w_described).
Proof.
  assert (Hla : accepted_meta (session w_described) = Some 2%nat)
    by (vm_compute; reflexivity).
  assert (Hd : strip (text_area (description (session w_described))
                                 (description_typed (click BtnSave))) ≠ "")
    by (vm_compute; discriminate).
  assert (Hb : basis_agrees demo_float_repr w_described 2)
    by (vm_compute; reflexivity).
  pose proof (failed_save_can_be_retried
                demo_float_repr json_subset_loads demo_colors demo_designs
                demo_themes None env_connection_lost (click BtnSave) w_described
                "swatch_01.png" 2%nat
                w_described_reachable eq_refl eq_refl eq_refl Hla Hd Hb
                (or_intror (ex_intro _ _ eq_refl)))
    as (Hfails & _ & Htable & Hacc & Hbasis & _).
  destruct (Hfails _ eq_refl eq_refl) as (Hcall & Hlast & _).
  split; [exact w_described_reachable|].
  split; [reflexivity|]. split; [reflexivity|]. split; [reflexivity|].
  split; [exact Hla|]. split; [exact Hd|]. split; [exact Hb|].
  split; [reflexivity|]. split; [exact Hcall|]. split; [exact Hlast|].
  split; [exact Htable|]. split; [exact Hacc|exact Hbasis].
Defined.

(** The store is out of reach: the query of the sidebar ends the run, and
    the Save button does nothing. *)
Example save_while_store_is_out_of_reach :
  let w' := demo_rerun_with (Some (ServiceError "connection refused"))
                            env_connection_lost (click BtnSave) w_described in
  out w' = [] ∧ session w' = session w_described
  ∧ swatch_metadata w' = swatch_metadata w_described.
Proof. vm_compute. repeat split. Qed.

(** The text ["theme": "Nature"] between the braces of an answer. *)
Definition prose_body : string :=
  String dquote ("theme" +:+ String dquote (": " +:+ String dquote
    ("Nature" +:+ String dquote ""))).

Lemma object_recovered_from_prose_witness :
  lacks "Here you go: " "{"%char
  ∧ lacks " thanks" "}"%char
  ∧ (let object := String "{"%char (prose_body +:+ "}") in
     let text := "Here you go: " +:+ object +:+ " thanks" in
     _safe_json_load json_subset_loads text
     = match json_subset_loads text with
       | Ok v => Ok v
       | Raise _ => json_subset_loads object
       end).
Proof.
  assert (H1 : lacks "Here you go: " "{"%char) by (apply lacks_chars; reflexivity).
  assert (H2 : lacks " thanks" "}"%char) by (apply lacks_chars; reflexivity).
  split; [exact H1|]. split; [exact H2|].
  exact (object_recovered_from_prose json_subset_loads
           "Here you go: " prose_body " thanks" H1 H2).
Defined.

Example object_in_prose_is_read :
  _safe_json_load json_subset_loads
    ("Here you go: " +:+ String "{"%char (prose_body +:+ "}") +:+ " thanks")
  = Ok (VDict [("theme", VStr "Nature")]).
Proof. vm_compute. reflexivity. Qed.

Lemma accepting_again_keeps_the_basis_witness :
  uploaded (click BtnAccept) = Some "swatch_01.png"
  ∧ pressed (click BtnAccept) = Some BtnAccept
  ∧ on_change (click BtnAccept) = false
  ∧ draft_meta (session w_described) = Some 0%nat
  ∧ validate_categorical demo_float_repr (contents (heap w_described) 0)
      (color_set demo_colors) (design_set demo_designs) (theme_set demo_themes)
    = Ok ["primary_color not in options: Purple";
          "secondary_colors invalid values: ['Pink']"]
  ∧ secondary_default demo_colors (contents (heap w_described) 0)
    = Ok [VStr "White"; VStr "White"; VStr "Grey"]
  ∧ accepted_meta (session w_described) = Some 2%nat
  ∧ final_meta demo_float_repr demo_colors demo_designs demo_themes
               (click BtnAccept) (contents (heap w_described) 0)
               [VStr "White"; VStr "White"; VStr "Grey"]
    = contents (heap w_described) 2
  ∧ basis_agrees demo_float_repr w_described 2
  ∧ (let w' := demo_rerun env_purple (click BtnAccept) w_described in
     let la' := length (heap w_described) in
     accepted_meta (session w') = Some la'
     ∧ contents (heap w') la' = contents (heap w_described) 2
     ∧ desc_based_on_meta (session w') = desc_based_on_meta (session w_described)
     ∧ basis_agrees demo_float_repr w' la').
Proof.
  assert (Hld : draft_meta (session w_described) = Some 0%nat)
    by (vm_compute; reflexivity).
  assert (Hv : validate_categorical demo_float_repr (contents (heap w_described) 0)
      (color_set demo_colors) (design_set demo_designs) (theme_set demo_themes)
               = Ok ["primary_color not in options: Purple";
                     "secondary_colors invalid values: ['Pink']"])
    by (vm_compute; reflexivity).
  assert (Hs : secondary_default demo_colors (contents (heap w_described) 0)
               = Ok [VStr "White"; VStr "White"; VStr "Grey"])
    by (vm_compute; reflexivity).
  assert (Hla : accepted_meta (session w_described) = Some 2%nat)
    by (vm_compute; reflexivity).
  assert (Hsame : final_meta demo_float_repr demo_colors demo_designs demo_themes
               (click BtnAccept) (contents (heap w_described) 0)
               [VStr "White"; VStr "White"; VStr "Grey"]
             = contents (heap w_described) 2)
    by (vm_compute; reflexivity).
  assert (Hb : basis_agrees demo_float_repr w_described 2)
    by (vm_compute; reflexivity).
  split; [reflexivity|]. split; [reflexivity|]. split; [reflexivity|].
  split; [exact Hld|]. split; [exact Hv|]. split; [exact Hs|].
  split; [exact Hla|]. split; [exact Hsame|]. split; [exact Hb|].
  exact (accepting_again_keeps_the_basis
           demo_float_repr json_subset_loads demo_colors demo_designs demo_themes
           env_purple (click BtnAccept) w_described "swatch_01.png" 0%nat 2%nat
           ["primary_color not in options: Purple";
            "secondary_colors invalid values: ['Pink']"]
           [VStr "White"; VStr "White"; VStr "Grey"]
           eq_refl eq_refl eq_refl Hld Hv Hs Hla Hsame Hb).
Defined.

Lemma workflow_stores_the_snapshot_witness :
  extract_metadata json_subset_loads (vision_reply env_purple)
  = Ok (VDict answer_purple)
  ∧ validate_categorical demo_float_repr (with_defaults answer_purple)
      (color_set demo_colors) (design_set demo_designs) (theme_set demo_themes)
    = Ok ["primary_color not in options: Purple";
          "secondary_colors invalid values: ['Pink']"]
  ∧ secondary_default demo_colors (with_defaults answer_purple)
    = Ok [VStr "White"; VStr "White"; VStr "Grey"]
  ∧ (let snapshot :=
       final_meta demo_float_repr demo_colors demo_designs demo_themes
                  (press "swatch_01.png" "" BtnAccept)
                  (with_defaults answer_purple)
                  [VStr "White"; VStr "White"; VStr "Grey"] in
     writer env_purple (demo_dumps (VDict snapshot))
     = Ok (Some " A modern wallpaper in blue. ")
     ∧ strip (default "" (Some " A modern wallpaper in blue. ")) ≠ ""
     ∧ db_fault env_purple = None
     ∧ (let w :=
          reruns demo_float_repr json_subset_loads demo_colors demo_designs
                 demo_themes
                 [(env_purple, press "swatch_01.png" "" BtnExtract);
                  (env_purple, press "swatch_01.png" "" BtnAccept);
                  (env_purple, press "swatch_01.png" "" BtnGenerate);
                  (env_purple, press "swatch_01.png" "" BtnSave)]
                 (init_world ∅) in
        let sid := swatch_id_of "" "swatch_01.png" in
        ∃ r, swatch_metadata w !! sid = Some r
             ∧ carries demo_float_repr r
                 (snapshot_payload sid "swatch_01.png" snapshot
                    (strip (default "" (Some " A modern wallpaper in blue. "))))
                 (now env_purple)
             ∧ ∀ k, k ≠ sid -> swatch_metadata w !! k = (∅ : gmap string (gmap string cell)) !! k)).
Proof.
  assert (Hd : extract_metadata json_subset_loads (vision_reply env_purple)
               = Ok (VDict answer_purple)) by (vm_compute; reflexivity).
  assert (Hv : validate_categorical demo_float_repr (with_defaults answer_purple)
      (color_set demo_colors) (design_set demo_designs) (theme_set demo_themes)
               = Ok ["primary_color not in options: Purple";
                     "secondary_colors invalid values: ['Pink']"])
    by (vm_compute; reflexivity).
  assert (Hs : secondary_default demo_colors (with_defaults answer_purple)
               = Ok [VStr "White"; VStr "White"; VStr "Grey"])
    by (vm_compute; reflexivity).
  assert (Hnb : strip (default "" (Some " A modern wallpaper in blue. ")) ≠ "")
    by (vm_compute; discriminate).
  split; [exact Hd|]. split; [exact Hv|]. split; [exact Hs|].
  intros snapshot.
  split; [reflexivity|]. split; [exact Hnb|]. split; [reflexivity|].
  exact (workflow_stores_the_snapshot
           demo_float_repr json_subset_loads demo_colors demo_designs demo_themes
           env_purple "swatch_01.png" "" ∅ answer_purple
           ["primary_color not in options: Purple";
            "secondary_colors invalid values: ['Pink']"]
           [VStr "White"; VStr "White"; VStr "Grey"]
           (Some " A modern wallpaper in blue. ")
           Hd Hv Hs eq_refl Hnb eq_refl).
Defined.

(** The row that the four clicks store. *)
Example workflow_row :
  let w :=
    reruns demo_float_repr json_subset_loads demo_colors demo_designs
           demo_themes
           [(env_purple, press "swatch_01.png" "" BtnExtract);
            (env_purple, press "swatch_01.png" "" BtnAccept);
            (env_purple, press "swatch_01.png" "" BtnGenerate);
            (env_purple, press "swatch_01.png" "" BtnSave)]
           (init_world ∅) in
  let column c := swatch_metadata w !! "swatch_01" ≫= (.!! c) in
  column "primary_color" = Some (Bound (VStr "Blue"))
  ∧ column "description" = Some (Bound (VStr "A modern wallpaper in blue."))
  ∧ column "image_filename" = Some (Bound (VStr "swatch_01.png"))
  ∧ column "updated_at" = Some (Timestamp 100).
Proof. vm_compute. repeat split. Qed.

(** Two edits of the editor that shows the generated description. *)
Definition edit_description (text : string) : ui :=
  UI (Some "swatch_01.png") "" false None None None None None None
     (Some ("A modern wallpaper in blue.", text)).

Lemma edit_description_ok (text : string) : demo_ui_ok (edit_description text).
Proof. repeat split. Qed.

Lemma second_edit_is_lost_witness :
  demo_reachable w_described
  ∧ demo_ui_ok (edit_description "First edit.")
  ∧ accepted_meta (session w_described) = Some 2%nat
  ∧ description_typed (edit_description "First edit.")
    = Some (description (session w_described), "First edit.")
  ∧ description_typed (edit_description "Second edit.")
    = Some (description (session w_described), "Second edit.")
  ∧ "First edit." ≠ description (session w_described)
  ∧ (let w1 := demo_rerun env_purple (edit_description "First edit.")
                          w_described in
     let w2 := demo_rerun env_purple (edit_description "Second edit.") w1 in
     description (session w1) = "First edit."
     ∧ description (session w2) = "First edit."
     ∧ accepted_meta (session w2) = Some 2%nat
     ∧ desc_based_on_meta (session w2) = desc_based_on_meta (session w_described)
     ∧ swatch_metadata w2 = swatch_metadata w_described).
Proof.
  assert (Hla : accepted_meta (session w_described) = Some 2%nat)
    by (vm_compute; reflexivity).
  assert (H1 : description_typed (edit_description "First edit.")
               = Some (description (session w_described), "First edit."))
    by (vm_compute; reflexivity).
  assert (H2 : description_typed (edit_description "Second edit.")
               = Some (description (session w_described), "Second edit."))
    by (vm_compute; reflexivity).
  assert (Hne : "First edit." ≠ description (session w_described))
    by (vm_compute; discriminate).
  split; [exact w_described_reachable|].
  split; [exact (edit_description_ok "First edit.")|].
  split; [exact Hla|]. split; [exact H1|]. split; [exact H2|].
  split; [exact Hne|].
  exact (second_edit_is_lost
           demo_float_repr json_subset_loads demo_colors demo_designs demo_themes
           env_purple env_purple (edit_description "First edit.")
           (edit_description "Second edit.") w_described
           "swatch_01.png" "swatch_01.png" 2%nat "First edit." "Second edit."
           w_described_reachable (edit_description_ok "First edit.")
           eq_refl eq_refl eq_refl eq_refl eq_refl eq_refl Hla H1 H2 Hne).
Defined.
